(** * Foundation: the QuickBooks client and the multi-tenant report pool

    A shallow embedding of [foundation/clients/quickbooks.py] and
    [foundation/clients/multi_tenant_quickbooks.py], and the properties of
    the request executor, the entity resolver, the invoice assembler, the
    record normalizer, the tenant pool and the report formatter.

    Python objects are modelled as follows.
    - [str] is [string]; a character is a code point below 256.
    - [float] is IEEE binary64, kept as sign, integer significand and binary
      exponent ([pyfloat]); parsing and formatting are exact.
    - values decoded from JSON are [json]; a [dict] is an association list in
      insertion order.
    - an exception is a value of [exn]; a computation that may raise returns
      [res].
    - methods that talk to the network run in the monad [M]: they thread the
      client object and the trace of calls made so far, and the state they
      reached is kept when they raise.
    - the libraries [requests] and [intuitlib], the process environment and
      the clock are the parameters of the model ([Env]): the service answers
      a request as a function of the request and of all calls made before.
    - what is written with [print] and at the levels below warning is not
      kept; [list.sort] is a stable insertion sort, which gives the result
      of Python's sort whenever the keys are comparable. *)

From Stdlib Require Import List String Ascii ZArith Bool Lia.
From Stdlib Require Import Permutation Sorting.Sorted DecimalString.
Import ListNotations.
Open Scope string_scope.
Open Scope Z_scope.
Set Warnings "-register-all".

(** ** Strings *)

Module Str.

Definition code (c : ascii) : Z := Z.of_nat (nat_of_ascii c).

(** [str.isspace] on code points below 256. *)
Definition is_space (c : ascii) : bool :=
  let n := code c in
  ((9 <=? n) && (n <=? 13)) || ((28 <=? n) && (n <=? 32))
  || (n =? 133) || (n =? 160).

Definition is_digit (c : ascii) : bool :=
  let n := code c in (48 <=? n) && (n <=? 57).

Definition digit_val (c : ascii) : Z := code c - 48.

(** [str.lower] on code points below 256. *)
Definition lower_char (c : ascii) : ascii :=
  let n := code c in
  if ((65 <=? n) && (n <=? 90))
     || ((192 <=? n) && (n <=? 222) && negb (n =? 215))
  then ascii_of_nat (Z.to_nat (n + 32)) else c.

Fixpoint lower (s : string) : string :=
  match s with
  | EmptyString => EmptyString
  | String c t => String (lower_char c) (lower t)
  end.

(** [needle in hay] *)
Fixpoint contains (needle hay : string) : bool :=
  prefix needle hay
  || match hay with
     | EmptyString => false
     | String _ t => contains needle t
     end.

Fixpoint drop (n : nat) (s : string) : string :=
  match n, s with
  | O, _ => s
  | S n', String _ t => drop n' t
  | S _, EmptyString => EmptyString
  end.

(** [hay.split(sep)[0]] and [hay.split(sep, 1)[0]] for a non-empty [sep]:
    the text before the first occurrence of [sep], all of [hay] when there
    is none. *)
Fixpoint before_first (sep hay : string) : string :=
  match hay with
  | EmptyString => EmptyString
  | String c t => if prefix sep hay then EmptyString
                  else String c (before_first sep t)
  end.

Fixpoint lstrip (s : string) : string :=
  match s with
  | String c t => if is_space c then lstrip t else s
  | EmptyString => EmptyString
  end.

Fixpoint rstrip (s : string) : string :=
  match s with
  | EmptyString => EmptyString
  | String c t =>
      match rstrip t with
      | EmptyString => if is_space c then EmptyString else String c EmptyString
      | t' => String c t'
      end
  end.

(** [s.strip()] *)
Definition strip (s : string) : string := rstrip (lstrip s).

(** [s.replace(c, '')] for a one-character [c]. *)
Fixpoint remove_char (c : ascii) (s : string) : string :=
  match s with
  | EmptyString => EmptyString
  | String x t => if Ascii.eqb x c then remove_char c t
                  else String x (remove_char c t)
  end.

(** [sep.join(l)] *)
Fixpoint join (sep : string) (l : list string) : string :=
  match l with
  | [] => ""
  | [x] => x
  | x :: t => x ++ sep ++ join sep t
  end.

Definition of_Z (z : Z) : string := NilZero.string_of_int (Z.to_int z).

(** Comparison of two strings by code points, as Python's [<] on [str]. *)
Fixpoint ltb (a b : string) : bool :=
  match a, b with
  | _, EmptyString => false
  | EmptyString, String _ _ => true
  | String x a', String y b' =>
      if code x <? code y then true
      else if code y <? code x then false
      else ltb a' b'
  end.

Definition hex_digit (n : Z) : ascii :=
  ascii_of_nat (Z.to_nat (if n <? 10 then 48 + n else 55 + n)).

Definition is_unreserved (c : ascii) : bool :=
  let n := code c in
  ((48 <=? n) && (n <=? 57)) || ((65 <=? n) && (n <=? 90))
  || ((97 <=? n) && (n <=? 122))
  || (n =? 45) || (n =? 46) || (n =? 95) || (n =? 126) || (n =? 47).

Definition percent (byte : Z) (rest : string) : string :=
  String "%" (String (hex_digit (byte / 16))
                (String (hex_digit (byte mod 16)) rest)).

(** [urllib.parse.quote(s)] with the default [safe='/']: a character that
    is not left as it is gives the bytes of its UTF-8 encoding, each as a
    percent sign and two hexadecimal digits. *)
Fixpoint quote (s : string) : string :=
  match s with
  | EmptyString => EmptyString
  | String c t =>
      if is_unreserved c then String c (quote t)
      else if code c <? 128 then percent (code c) (quote t)
      else percent (192 + code c / 64) (percent (128 + code c mod 64) (quote t))
  end.

End Str.

(** ** Floats *)

(** A Python [float]: [FFin neg m e] is [(-1)^neg * m * 2^e] with
    [0 <= m < 2^53] and [-1074 <= e <= 971]. *)
Inductive pyfloat :=
| FNaN
| FInf (neg : bool)
| FFin (neg : bool) (m : Z) (e : Z).

Module Float.

(** The binary64 nearest to [n / d] (ties to even), for [0 <= n], [0 < d]. *)
Definition round_q (neg : bool) (n d : Z) : pyfloat :=
  if n =? 0 then FFin neg 0 (-1074) else
  let scaled (e : Z) := if 0 <=? e then (n, d * 2 ^ e) else (n * 2 ^ (- e), d) in
  let e0 := Z.log2 n - Z.log2 d - 53 in
  let e1 := let '(a, b) := scaled e0 in
            if 2 ^ 53 * b <=? a then e0 + 1 else e0 in
  let e := Z.max e1 (-1074) in
  let '(a, b) := scaled e in
  let q := a / b in
  let r := a mod b in
  let q' := if 2 * r <? b then q
            else if b <? 2 * r then q + 1
            else if Z.even q then q else q + 1 in
  let '(m, e') := if q' =? 2 ^ 53 then (2 ^ 52, e + 1) else (q', e) in
  if 971 <? e' then FInf neg else FFin neg m e'.

Definition of_Z (z : Z) : pyfloat := round_q (z <? 0) (Z.abs z) 1.


(** [digit ("_"? digit)*] continued from an accumulator: the value, the
    number of digits read and the rest of the input. *)
Fixpoint digits_tail (acc : Z) (n : Z) (s : string) : Z * Z * string :=
  match s with
  | String c t =>
      if Str.is_digit c then digits_tail (10 * acc + Str.digit_val c) (n + 1) t
      else if Ascii.eqb c "_" then
        match t with
        | String c' t' =>
            if Str.is_digit c'
            then digits_tail (10 * acc + Str.digit_val c') (n + 1) t'
            else (acc, n, s)
        | EmptyString => (acc, n, s)
        end
      else (acc, n, s)
  | EmptyString => (acc, n, s)
  end.

Definition digitpart (acc : Z) (s : string) : option (Z * Z * string) :=
  match s with
  | String c t =>
      if Str.is_digit c
      then Some (digits_tail (10 * acc + Str.digit_val c) 1 t)
      else None
  | EmptyString => None
  end.

(** [[digitpart] "." digitpart | digitpart ["."]]: significand, number of
    fraction digits, rest. *)
Definition number (s : string) : option (Z * Z * string) :=
  match digitpart 0 s with
  | Some (m, _, String "." rest) =>
      match digitpart m rest with
      | Some r => Some r
      | None => Some (m, 0, rest)
      end
  | Some (m, _, rest) => Some (m, 0, rest)
  | None =>
      match s with
      | String "." rest => digitpart 0 rest
      | _ => None
      end
  end.

(** [("e" | "E") ["+" | "-"] digitpart], or nothing: the decimal exponent. *)
Definition exponent (s : string) : option Z :=
  match s with
  | EmptyString => Some 0
  | String c t =>
      if Ascii.eqb c "e" || Ascii.eqb c "E" then
        let '(neg, t') := match t with
                          | String "-" u => (true, u)
                          | String "+" u => (false, u)
                          | _ => (false, t)
                          end in
        match digitpart 0 t' with
        | Some (x, _, EmptyString) => Some (if neg then - x else x)
        | _ => None
        end
      else None
  end.

(** The white space that [float] ignores around a number. *)
Definition is_space (c : ascii) : bool :=
  let n := Str.code c in
  ((9 <=? n) && (n <=? 13)) || (n =? 32) || (n =? 133) || (n =? 160).

Fixpoint lstrip (s : string) : string :=
  match s with
  | String c t => if is_space c then lstrip t else s
  | EmptyString => EmptyString
  end.

Fixpoint rstrip (s : string) : string :=
  match s with
  | EmptyString => EmptyString
  | String c t =>
      match rstrip t with
      | EmptyString => if is_space c then EmptyString else String c EmptyString
      | t' => String c t'
      end
  end.

(** [float(s)] for a string: [None] is [ValueError]. *)
Definition of_string (s : string) : option pyfloat :=
  let s := rstrip (lstrip s) in
  let '(neg, body) := match s with
                      | String "-" t => (true, t)
                      | String "+" t => (false, t)
                      | _ => (false, s)
                      end in
  let l := Str.lower body in
  if String.eqb l "inf" || String.eqb l "infinity" then Some (FInf neg)
  else if String.eqb l "nan" then Some FNaN
  else
    match number body with
    | Some (m, k, rest) =>
        match exponent rest with
        | Some x =>
            let p := x - k in
            Some (if 0 <=? p then round_q neg (m * 10 ^ p) 1
                  else round_q neg m (10 ^ (- p)))
        | None => None
        end
    | None => None
    end.

(** The integer nearest to [m * 2^e * 100], ties to even. *)
Definition cents (m e : Z) : Z :=
  if 0 <=? e then m * 100 * 2 ^ e
  else
    let a := m * 100 in
    let b := 2 ^ (- e) in
    let q := a / b in
    let r := a mod b in
    if 2 * r <? b then q
    else if b <? 2 * r then q + 1
    else if Z.even q then q else q + 1.

(** Thousands separators: a comma before every group of three digits,
    counted from the right. *)
Fixpoint group3 (s : string) : string :=
  match s with
  | EmptyString => EmptyString
  | String c t =>
      let n := String.length t in
      if (0 <? Z.of_nat n) && (Z.of_nat n mod 3 =? 0)
      then String c (String "," (group3 t))
      else String c (group3 t)
  end.

Definition two_digits (z : Z) : string :=
  if z <? 10 then "0" ++ Str.of_Z z else Str.of_Z z.

(** [format(x, ",.2f")] *)
Definition format_2f (x : pyfloat) : string :=
  match x with
  | FNaN => "nan"
  | FInf neg => if neg then "-inf" else "inf"
  | FFin neg m e =>
      let c := cents m e in
      (if neg then "-" else "")
        ++ group3 (Str.of_Z (c / 100)) ++ "." ++ two_digits (c mod 100)
  end.

(** [a < b] on floats ([false] whenever one is a NaN). *)
Definition ltb (a b : pyfloat) : bool :=
  let val (neg : bool) (m e : Z) := (* numerator over 2^1074 *)
    (if neg then -1 else 1) * m * 2 ^ (e + 1074) in
  match a, b with
  | FNaN, _ | _, FNaN => false
  | FInf na, FInf nb => na && negb nb
  | FInf na, FFin _ _ _ => na
  | FFin _ _ _, FInf nb => negb nb
  | FFin na ma ea, FFin nb mb eb => val na ma ea <? val nb mb eb
  end.

Definition is_zero (a : pyfloat) : bool :=
  match a with FFin _ m _ => m =? 0 | _ => false end.

End Float.

(** ** Values decoded from JSON *)

Inductive json :=
| JNull
| JBool (b : bool)
| JInt (z : Z)
| JFloat (f : pyfloat)
| JStr (s : string)
| JList (l : list json)
| JDict (d : list (string * json)).

(** An HTTP response as [requests] presents it: [body] is what
    [response.json()] returns ([None] when the text is not JSON) and
    [http_error] is the text of the [HTTPError] that [raise_for_status]
    builds for it. *)
Record Response := {
  status_code : Z;
  text : string;
  body : option json;
  http_error : string
}.

(** ** Exceptions *)

Inductive exn :=
| QuickBooksAuthError (msg : string)
| ValueError (msg : string)
| KeyError (key_repr : string)
| IndexError (msg : string)
| TypeError (msg : string)
| AttributeError (msg : string)
| OverflowError (msg : string)
| HTTPError (msg : string) (response : Response)
| RequestException (msg : string)
| JSONDecodeError (msg : string)
| Exception_ (msg : string).

Inductive res (A : Type) :=
| Ok (a : A)
| Raise (e : exn).
Arguments Ok {A} a.
Arguments Raise {A} e.

Module Exn.

(** [str(e)] *)
Definition str (e : exn) : string :=
  match e with
  | QuickBooksAuthError m | ValueError m | IndexError m | TypeError m
  | AttributeError m | OverflowError m | HTTPError m _ | RequestException m
  | JSONDecodeError m | Exception_ m | KeyError m => m
  end.

(** [type(e).__name__] *)
Definition type_name (e : exn) : string :=
  match e with
  | QuickBooksAuthError _ => "QuickBooksAuthError"
  | ValueError _ => "ValueError"
  | KeyError _ => "KeyError"
  | IndexError _ => "IndexError"
  | TypeError _ => "TypeError"
  | AttributeError _ => "AttributeError"
  | OverflowError _ => "OverflowError"
  | HTTPError _ _ => "HTTPError"
  | RequestException _ => "RequestException"
  | JSONDecodeError _ => "JSONDecodeError"
  | Exception_ _ => "Exception"
  end.

(** [isinstance(e, QuickBooksAuthError)] *)
Definition is_auth_error (e : exn) : bool :=
  match e with QuickBooksAuthError _ => true | _ => false end.

(** [isinstance(e, ValueError)]: the decoder's error is a [ValueError]. *)
Definition is_value_error (e : exn) : bool :=
  match e with ValueError _ | JSONDecodeError _ => true | _ => false end.

(** [isinstance(e, requests.exceptions.RequestException)]: the error that
    [response.json()] raises is one too. *)
Definition is_request_exception (e : exn) : bool :=
  match e with
  | HTTPError _ _ | RequestException _ | JSONDecodeError _ => true
  | _ => false
  end.

(** [e.response] *)
Definition response (e : exn) : option Response :=
  match e with HTTPError _ r => Some r | _ => None end.

End Exn.

(** ** Python's operations on decoded values *)

Module Py.

Definition type_name (j : json) : string :=
  match j with
  | JNull => "NoneType"
  | JBool _ => "bool"
  | JInt _ => "int"
  | JFloat _ => "float"
  | JStr _ => "str"
  | JList _ => "list"
  | JDict _ => "dict"
  end.

Fixpoint lookup {V : Type} (k : string) (d : list (string * V)) : option V :=
  match d with
  | [] => None
  | (k', v) :: t => if String.eqb k k' then Some v else lookup k t
  end.

(** [d[k] = v]: an existing key keeps its place, a new one goes last. *)
Fixpoint set {V : Type} (k : string) (v : V) (d : list (string * V))
  : list (string * V) :=
  match d with
  | [] => [(k, v)]
  | (k', v') :: t => if String.eqb k k' then (k, v) :: t
                     else (k', v') :: set k v t
  end.

(** [d.update(e)] *)
Definition update {V : Type} (d e : list (string * V)) : list (string * V) :=
  fold_left (fun acc kv => set (fst kv) (snd kv) acc) e d.

Definition has_key {V : Type} (k : string) (d : list (string * V)) : bool :=
  match lookup k d with Some _ => true | None => false end.

(** [bool(j)] *)
Definition truthy (j : json) : bool :=
  match j with
  | JNull => false
  | JBool b => b
  | JInt z => negb (z =? 0)
  | JFloat f => negb (Float.is_zero f)
  | JStr s => negb (String.eqb s "")
  | JList l => match l with [] => false | _ => true end
  | JDict d => match d with [] => false | _ => true end
  end.

(** [j == s] for a string [s] *)
Definition eq_str (j : json) (s : string) : bool :=
  match j with JStr t => String.eqb t s | _ => false end.

(** [o.get(k, default)] *)
Definition get (o : json) (k : string) (default : json) : res json :=
  match o with
  | JDict d => Ok (match lookup k d with Some v => v | None => default end)
  | _ => Raise (AttributeError
                  ("'" ++ type_name o ++ "' object has no attribute 'get'"))
  end.

(** [o[k]] for a string [k] *)
Definition getitem (o : json) (k : string) : res json :=
  match o with
  | JDict d => match lookup k d with
               | Some v => Ok v
               | None => Raise (KeyError ("'" ++ k ++ "'"))
               end
  | JList _ => Raise (TypeError
                        "list indices must be integers or slices, not str")
  | JStr _ => Raise (TypeError "string indices must be integers, not 'str'")
  | _ => Raise (TypeError
                  ("'" ++ type_name o ++ "' object is not subscriptable"))
  end.

(** [o[0]] *)
Definition getitem0 (o : json) : res json :=
  match o with
  | JList (x :: _) => Ok x
  | JList [] => Raise (IndexError "list index out of range")
  | JStr (String c _) => Ok (JStr (String c EmptyString))
  | JStr EmptyString => Raise (IndexError "string index out of range")
  | JDict _ => Raise (KeyError "0")
  | _ => Raise (TypeError
                  ("'" ++ type_name o ++ "' object is not subscriptable"))
  end.

(** [k in o] for a string [k] *)
Definition contains (k : string) (o : json) : res bool :=
  match o with
  | JDict d => Ok (has_key k d)
  | JList l => Ok (existsb (fun x => eq_str x k) l)
  | JStr s => Ok (Str.contains k s)
  | _ => Raise (TypeError
                  ("argument of type '" ++ type_name o ++ "' is not iterable"))
  end.

(** [float(j)] *)
Definition float (j : json) : res pyfloat :=
  match j with
  | JFloat f => Ok f
  | JInt z => match Float.of_Z z with
              | FInf _ => Raise (OverflowError
                                   "int too large to convert to float")
              | f => Ok f
              end
  | JBool b => Ok (Float.of_Z (if b then 1 else 0))
  | JStr s => match Float.of_string s with
              | Some f => Ok f
              | None => Raise (ValueError
                  ("could not convert string to float: '" ++ s ++ "'"))
              end
  | _ => Raise (TypeError
      ("float() argument must be a string or a real number, not '"
         ++ type_name j ++ "'"))
  end.

(** [a < b]: defined between two strings and between two numbers. *)
Definition lt (a b : json) : res bool :=
  let num (j : json) : option (Z + pyfloat) :=
    match j with
    | JInt z => Some (inl z)
    | JBool b => Some (inl (if b then 1 else 0))
    | JFloat f => Some (inr f)
    | _ => None
    end in
  let exact (z : Z) : pyfloat :=
    (* an integer as an unrounded significand with exponent 0 *)
    FFin (z <? 0) (Z.abs z) 0 in
  match a, b with
  | JStr x, JStr y => Ok (Str.ltb x y)
  | _, _ =>
      match num a, num b with
      | Some (inl x), Some (inl y) => Ok (x <? y)
      | Some (inl x), Some (inr g) => Ok (Float.ltb (exact x) g)
      | Some (inr f), Some (inl y) => Ok (Float.ltb f (exact y))
      | Some (inr f), Some (inr g) => Ok (Float.ltb f g)
      | _, _ => Raise (TypeError
          ("'<' not supported between instances of '" ++ type_name a
             ++ "' and '" ++ type_name b ++ "'"))
      end
  end.

End Py.

(** ** The network, the log and the client object *)

(** What [requests.request] is called with. *)
Record Request := {
  method : string;
  url : string;
  headers : list (string * string);
  params : option (list (string * string));
  json_body : option json
}.

(** What [requests.request] does: it returns a response or raises a
    [RequestException] with the given text. *)
Inductive HttpResult :=
| Responded (r : Response)
| TransportError (msg : string).

(** The calls a client makes to the outside, in the order it makes them. *)
Inductive Event :=
| Sent (r : Request)
| TokenRefresh (client_id client_secret refresh_token : string).

(** A record written through [logger.error], [logger.exception] or
    [logger.warning]; [print] and the lower levels are not kept. *)
Inductive LogRecord :=
| LogError (msg : string)
| LogWarning (msg : string).

Record World := {
  trace : list Event;
  logged : list LogRecord
}.

(** A [QuickBooksClient]; [access_token] is [auth_client.access_token]. *)
Record Client := {
  company_prefix : string;
  client_id : option string;
  client_secret : option string;
  refresh_token : option string;
  realm_id : option string;
  access_token : option string
}.

Record State := {
  self : Client;
  world : World
}.

(** The surroundings of the program: the accounting service and the token
    endpoint answer from the calls made so far, [getenv] is the process
    environment, the three dates are the clock readings the program
    formats, and [repr] is Python's [repr] of a decoded value. *)
Record Env := {
  respond : list Event -> Request -> HttpResult;
  token_grant : list Event -> string -> string -> string -> string + string;
  getenv : string -> option string;
  today : string;
  hundred_days_ago : string;
  timestamp : string;
  repr : json -> string
}.

(** Computations over a state [S] that may raise; the state reached is kept
    when they do. *)
Definition M (S A : Type) : Type := S -> res A * S.

Definition ret {S A : Type} (a : A) : M S A := fun s => (Ok a, s).

Definition bind {S A B : Type} (m : M S A) (f : A -> M S B) : M S B :=
  fun s => match m s with
           | (Ok a, s') => f a s'
           | (Raise e, s') => (Raise e, s')
           end.

Definition raise {S A : Type} (e : exn) : M S A := fun s => (Raise e, s).

(** [try: m  except <class> as e: h e], where [catches] is the class test. *)
Definition try_except {S A : Type} (m : M S A) (catches : exn -> bool)
    (h : exn -> M S A) : M S A :=
  fun s => match m s with
           | (Raise e, s') => if catches e then h e s' else (Raise e, s')
           | r => r
           end.

(** A step that cannot touch the state: a plain Python expression. *)
Definition lift {S A : Type} (r : res A) : M S A := fun s => (r, s).

Definition get_state {S : Type} : M S S := fun s => (Ok s, s).

Definition any_exception (_ : exn) : bool := true.

Declare Scope py_scope.
Delimit Scope py_scope with py.
Notation "x <- m ;; k" := (bind m (fun x => k))
  (at level 61, m at next level, right associativity) : py_scope.
Notation "m ;;; k" := (bind m (fun _ => k))
  (at level 61, right associativity) : py_scope.
Open Scope py_scope.

(** The same for expressions without state. *)
Definition rbind {A B : Type} (r : res A) (f : A -> res B) : res B :=
  match r with Ok a => f a | Raise e => Raise e end.
Notation "x <~ r ;; k" := (rbind r (fun x => k))
  (at level 61, r at next level, right associativity) : py_scope.

Definition log_error (msg : string) : M State unit :=
  fun s => (Ok tt, {| self := self s;
                      world := {| trace := trace (world s);
                                  logged := logged (world s) ++ [LogError msg] |} |}).

Definition log_warning (msg : string) : M State unit :=
  fun s => (Ok tt, {| self := self s;
                      world := {| trace := trace (world s);
                                  logged := logged (world s) ++ [LogWarning msg] |} |}).

Definition record_event (ev : Event) (w : World) : World :=
  {| trace := trace w ++ [ev]; logged := logged w |}.

Definition set_access_token (c : Client) (t : string) : Client :=
  {| company_prefix := company_prefix c;
     client_id := client_id c;
     client_secret := client_secret c;
     refresh_token := refresh_token c;
     realm_id := realm_id c;
     access_token := Some t |}.

(** [f"{x}"] for an attribute that is a string or [None]. *)
Definition fmt (x : option string) : string :=
  match x with Some s => s | None => "None" end.

(** [str(j)] *)
Definition py_str (env : Env) (j : json) : string :=
  match j with JStr s => s | _ => repr env j end.

Definition BASE_URL : string := "https://quickbooks.api.intuit.com/v3/company".
Definition PLAYGROUND_URL : string :=
  "https://developer.intuit.com/app/developer/playground".

Definition nl : string := String (ascii_of_nat 10) EmptyString.

(** One entry of the list given to [create_invoice], with the keys its
    docstring lists; [Quantity], [Rate] and [ServiceDate] may be [None]. *)
Record InvoiceLineRequest := {
  Customer : string;
  InvoiceDate : string;
  DueDate : string;
  Item : string;
  Description : string;
  Quantity : json;
  Rate : json;
  Amount : json;
  ServiceDate : option string
}.

Module QuickBooksClient.

Section WithEnv.

Context (env : Env).

(** [requests.request(...)] *)
Definition request (r : Request) : M State Response :=
  fun s =>
    let s' := {| self := self s; world := record_event (Sent r) (world s) |} in
    match respond env (trace (world s)) r with
    | Responded resp => (Ok resp, s')
    | TransportError msg => (Raise (RequestException msg), s')
    end.

(** [response.raise_for_status()] *)
Definition raise_for_status (r : Response) : M State unit :=
  if (400 <=? status_code r) && (status_code r <? 600)
  then raise (HTTPError (http_error r) r)
  else ret tt.

(** [response.json()] *)
Definition response_json (r : Response) : M State json :=
  match body r with
  | Some j => ret j
  | None => raise (JSONDecodeError "Expecting value: line 1 column 1 (char 0)")
  end.

Definition _handle_auth_error (error : exn) : M State unit :=
  s <- get_state ;;
  let c := self s in
  let error_msg := Exn.str error in
  if Str.contains "invalid_grant" (Str.lower error_msg) then
    raise (QuickBooksAuthError
      (nl ++ "QuickBooks refresh token has expired for " ++ company_prefix c ++ "!" ++ nl
       ++ "Please follow these steps:" ++ nl
       ++ "1. Go to " ++ PLAYGROUND_URL ++ nl
       ++ "2. Enter these credentials:" ++ nl
       ++ "   Client ID: " ++ fmt (client_id c) ++ nl
       ++ "   Client Secret: " ++ fmt (client_secret c) ++ nl
       ++ "3. Click 'Get authorization code' and sign in with "
       ++ company_prefix c ++ " credentials" ++ nl
       ++ "4. Click 'Get tokens'" ++ nl
       ++ "5. Update the " ++ company_prefix c
       ++ "_QB_REFRESH_TOKEN in your .env file" ++ nl
       ++ "6. Update Heroku: heroku config:set " ++ company_prefix c
       ++ "_QB_REFRESH_TOKEN='new_token' --app propertyops" ++ nl))
  else
    raise (QuickBooksAuthError
      ("Failed to authenticate with QuickBooks for " ++ company_prefix c
       ++ ": " ++ error_msg)).

(** [self.auth_client.refresh(refresh_token=self.refresh_token)]: the
    library stores the new access token, or raises. *)
Definition auth_client_refresh : M State unit :=
  fun s =>
    let c := self s in
    let ev := TokenRefresh (fmt (client_id c)) (fmt (client_secret c))
                (fmt (refresh_token c)) in
    let w' := record_event ev (world s) in
    match token_grant env (trace (world s)) (fmt (client_id c))
            (fmt (client_secret c)) (fmt (refresh_token c)) with
    | inl tok => (Ok tt, {| self := set_access_token c tok; world := w' |})
    | inr msg => (Raise (Exception_ msg), {| self := c; world := w' |})
    end.

Definition refresh_access_token : M State unit :=
  try_except auth_client_refresh any_exception
    (fun e =>
       log_error ("Error refreshing access token: " ++ Exn.str e) ;;;
       _handle_auth_error e).

Definition bearer (c : Client) : string := "Bearer " ++ fmt (access_token c).

(** The handler of [_make_request] for a [RequestException]. *)
Definition _make_request_failed (e : exn) : M State json :=
  match Exn.response e with
  | Some r =>
      match body r with
      | None => raise (Exception_ ("QuickBooks API error: " ++ text r))
      | Some error_details =>
          has_fault <- lift (Py.contains "Fault" error_details) ;;
          if has_fault : bool then
            error_msg <- lift (
              fault <~ Py.getitem error_details "Fault" ;;
              errors <~ Py.get fault "Error" (JList [JDict []]) ;;
              first <~ Py.getitem0 errors ;;
              Py.get first "Message" (JStr (Exn.str e))) ;;
            error_detail <- lift (
              fault <~ Py.getitem error_details "Fault" ;;
              errors <~ Py.get fault "Error" (JList [JDict []]) ;;
              first <~ Py.getitem0 errors ;;
              Py.get first "Detail" (JStr "")) ;;
            raise (Exception_ ("QuickBooks API error: " ++ py_str env error_msg
                               ++ ". " ++ py_str env error_detail))
          else
            raise (Exception_ ("QuickBooks API request failed: " ++ Exn.str e))
      end
  | None => raise (Exception_ ("QuickBooks API request failed: " ++ Exn.str e))
  end.

Definition _make_request (endpoint method : string)
    (params : option (list (string * string))) (json_ : option json)
  : M State json :=
  try_except
    (s <- get_state ;;
     let url := BASE_URL ++ "/" ++ fmt (realm_id (self s)) ++ "/" ++ endpoint in
     let headers := [("Authorization", bearer (self s));
                     ("Accept", "application/json");
                     ("Content-Type", "application/json")] in
     let params := Py.set "minorversion" "75"
                     (match params with Some p => p | None => [] end) in
     response <- request {| method := method; url := url; headers := headers;
                            params := Some params; json_body := json_ |} ;;
     response <-
       (if status_code response =? 401 then
          refresh_access_token ;;;
          s <- get_state ;;
          let headers := Py.set "Authorization" (bearer (self s)) headers in
          response <- request {| method := method; url := url;
                                 headers := headers; params := Some params;
                                 json_body := json_ |} ;;
          if status_code response =? 401 then
            raise (QuickBooksAuthError
                     "Authentication failed even after token refresh")
          else ret response
        else ret response) ;;
     raise_for_status response ;;;
     response_json response)
    Exn.is_request_exception
    _make_request_failed.

Definition _query_direct (query_string : string) : M State json :=
  s <- get_state ;;
  let encoded_query := Str.quote query_string in
  let url := BASE_URL ++ "/" ++ fmt (realm_id (self s)) ++ "/query?query="
             ++ encoded_query ++ "&minorversion=75" in
  let headers := [("Authorization", bearer (self s));
                  ("Accept", "application/json")] in
  response <- request {| method := "GET"; url := url; headers := headers;
                         params := None; json_body := None |} ;;
  response <-
    (if status_code response =? 401 then
       refresh_access_token ;;;
       s <- get_state ;;
       let headers := Py.set "Authorization" (bearer (self s)) headers in
       response <- request {| method := "GET"; url := url; headers := headers;
                              params := None; json_body := None |} ;;
       if status_code response =? 401 then
         raise (QuickBooksAuthError
                  "Authentication failed even after token refresh")
       else ret response
     else ret response) ;;
  raise_for_status response ;;;
  response_json response.
(** [bool(x)] for an attribute that is a string or [None]. *)
Definition truthy (x : option string) : bool :=
  match x with
  | Some s => negb (String.eqb s "")
  | None => false
  end.

Definition credentials_set (c : Client) : bool :=
  truthy (client_id c) && truthy (client_secret c)
  && truthy (refresh_token c) && truthy (realm_id c).

(** [QuickBooksClient(company_prefix)]: the new object, or the exception
    the constructor raises. *)
Definition __init__ (company_prefix : string) : M World Client :=
  fun w =>
    let c := {| company_prefix := company_prefix;
                client_id := getenv env "QUICKBOOKS_CLIENT_ID";
                client_secret := getenv env "QUICKBOOKS_CLIENT_SECRET";
                refresh_token := getenv env (company_prefix ++ "_QB_REFRESH_TOKEN");
                realm_id := getenv env (company_prefix ++ "_QB_REALM_ID");
                access_token := None |} in
    if negb (credentials_set c) then
      (Raise (ValueError ("Missing required QuickBooks credentials for "
                          ++ company_prefix)), w)
    else
      match refresh_access_token {| self := c; world := w |} with
      | (Ok _, s) => (Ok (self s), world s)
      | (Raise e, s) => (Raise e, world s)
      end.

Definition missing_credentials (c : Client) : list string :=
  (if negb (truthy (client_id c)) then ["QUICKBOOKS_CLIENT_ID"] else [])
  ++ (if negb (truthy (client_secret c)) then ["QUICKBOOKS_CLIENT_SECRET"] else [])
  ++ (if negb (truthy (refresh_token c))
      then [company_prefix c ++ "_QB_REFRESH_TOKEN"] else [])
  ++ (if negb (truthy (realm_id c))
      then [company_prefix c ++ "_QB_REALM_ID"] else []).

Definition test_connection : M State bool :=
  try_except
    (s <- get_state ;;
     (if negb (credentials_set (self s)) then
        raise (ValueError ("Missing required QuickBooks credentials: "
                           ++ Str.join ", " (missing_credentials (self s))))
      else ret tt) ;;;
     refresh_access_token ;;;
     s <- get_state ;;
     response <- _make_request ("companyinfo/" ++ fmt (realm_id (self s)))
                   "GET" None None ;;
     has_info <- lift (Py.contains "CompanyInfo" response) ;;
     if has_info : bool then
       _ <- lift (info <~ Py.getitem response "CompanyInfo" ;;
                  Py.get info "CompanyName" (JStr "Unknown")) ;;
       ret true
     else
       log_error ("Unexpected response format: " ++ py_str env response) ;;;
       raise (Exception_ "Invalid response format from QuickBooks API"))
    any_exception
    (fun e =>
       log_error ("Connection test failed: " ++ Exn.str e) ;;;
       log_error "Full traceback:" ;;;
       raise e).

(** [get_ar_aging(as_of_date)]; the date is given already formatted as
    [%Y-%m-%d], and the two integer parameters as [requests] sends them. *)
Definition get_ar_aging (as_of_date : option string) : M State json :=
  try_except
    (let params := [("report_date",
                     match as_of_date with Some d => d | None => today env end);
                    ("aging_period", "30");
                    ("num_periods", "4")] in
     _make_request "reports/AgedReceivables" "GET" (Some params) None)
    any_exception
    (fun e => ret (JDict [("error", JStr (Exn.str e))])).

(** ['QueryResponse' in response and kind in response['QueryResponse']] *)
Definition has_entities (kind : string) (response : json) : res bool :=
  a <~ Py.contains "QueryResponse" response ;;
  if a : bool then
    qr <~ Py.getitem response "QueryResponse" ;;
    Py.contains kind qr
  else Ok false.

(** [response['QueryResponse'][kind]] *)
Definition entities (kind : string) (response : json) : res json :=
  qr <~ Py.getitem response "QueryResponse" ;;
  Py.getitem qr kind.

(** [get_customer_id]: the id, or [JNull] for Python's [None]. *)
Definition get_customer_id (customer_name : string) : M State json :=
  try_except
    (let query := "SELECT Id FROM Customer WHERE DisplayName = '"
                  ++ customer_name ++ "'" in
     response <- _query_direct query ;;
     found <- lift (has_entities "Customer" response) ;;
     if found : bool then
       customers <- lift (entities "Customer" response) ;;
       if Py.truthy customers then
         lift (first <~ Py.getitem0 customers ;; Py.getitem first "Id")
       else ret JNull
     else ret JNull)
    any_exception
    (fun _ => ret JNull).

Definition item_mapping : list (string * string) :=
  [ ("Management Fees", "Management Fee");
    ("4100 - Rent Income", "Sales");
    ("4440 - Application Fee Income", "Application Fee");
    ("General Labor: General Labor", "General Labor");
    ("Placement Fees", "Commission");
    ("Commissions/Placement Fees", "Commission");
    ("4460 - Late Fee", "Late Fee");
    ("Supplies", "Sales");
    ("6175 - Garbage and Recycling", "Sales");
    ("6040 - Pest Management", "Pest Control Contractors");
    ("6101 - Legal Fees", "Legal Services");
    ("6141 - Painting", "Painting supplies");
    ("2120 - Clearing Account", "Sales") ].

Definition _map_item_name (original_name : string) : string :=
  match Py.lookup original_name item_mapping with
  | Some mapped => mapped
  | None => original_name
  end.

(** [for x in j]: the elements a decoded value yields when iterated. *)
Definition iterate (j : json) : res (list json) :=
  match j with
  | JList l => Ok l
  | JDict d => Ok (map (fun kv => JStr (fst kv)) d)
  | JStr s => Ok (map (fun c => JStr (String c EmptyString)) (list_ascii_of_string s))
  | _ => Raise (TypeError ("'" ++ Py.type_name j ++ "' object is not iterable"))
  end.

Fixpoint rmap {A B : Type} (f : A -> res B) (l : list A) : res (list B) :=
  match l with
  | [] => Ok []
  | x :: t => y <~ f x ;; ys <~ rmap f t ;; Ok (y :: ys)
  end.

Definition billable (type : json) : bool :=
  Py.eq_str type "Service" || Py.eq_str type "Inventory"
  || Py.eq_str type "NonInventory".

(** [get_item_id]: the id, or [JNull] for Python's [None]. *)
Definition get_item_id (item_name : string) : M State json :=
  try_except
    (let mapped_name := _map_item_name item_name in
     let query := "SELECT Id, Type FROM Item WHERE Name = '" ++ mapped_name ++ "'" in
     response <- _query_direct query ;;
     found <- lift (has_entities "Item" response) ;;
     exact <-
       (if found : bool then
          items <- lift (entities "Item" response) ;;
          if Py.truthy items then
            item <- lift (Py.getitem0 items) ;;
            type <- lift (Py.get item "Type" JNull) ;;
            if negb (billable type) then
              let query := "SELECT Id, Name, Type FROM Item WHERE Type IN "
                           ++ "('Service', 'Inventory', 'NonInventory') "
                           ++ "AND Name LIKE '%" ++ mapped_name ++ "%'" in
              response <- _query_direct query ;;
              found <- lift (has_entities "Item" response) ;;
              similar <-
                (if found : bool then
                   items <- lift (entities "Item" response) ;;
                   if Py.truthy items then
                     id <- lift (first <~ Py.getitem0 items ;;
                                 Py.getitem first "Id") ;;
                     ret (Some id)
                   else ret None
                 else ret None) ;;
              match similar with
              | Some id => ret (Some id)
              | None =>
                  raise (Exception_
                    ("Item '" ++ mapped_name
                     ++ "' is set up as a category in QuickBooks. "
                     ++ "Please create it as a Service, Inventory, or NonInventory item."))
              end
            else
              id <- lift (Py.getitem item "Id") ;;
              ret (Some id)
          else ret None
        else ret None) ;;
     match exact with
     | Some id => ret id
     | None =>
         let query := "SELECT Name, Type FROM Item WHERE Type IN "
                      ++ "('Service', 'Inventory', 'NonInventory')" in
         response <- _query_direct query ;;
         found <- lift (has_entities "Item" response) ;;
         if found : bool then
           available_items <- lift (
             all <~ entities "Item" response ;;
             each <~ iterate all ;;
             rmap (fun item =>
                     name <~ Py.getitem item "Name" ;;
                     type <~ Py.get item "Type" (JStr "Unknown") ;;
                     Ok (py_str env name ++ " (" ++ py_str env type ++ ")"))
                  each) ;;
           raise (Exception_
             ("Item '" ++ mapped_name ++ "' not found in QuickBooks. "
              ++ "Available items are: " ++ Str.join ", " available_items))
         else ret JNull
     end)
    any_exception
    (fun e =>
       log_error ("Error getting item ID: " ++ Exn.str e) ;;;
       raise e).

(** [o[k] = v] for a string [k] *)
Definition setitem (o : json) (k : string) (v : json) : res json :=
  match o with
  | JDict d => Ok (JDict (Py.set k v d))
  | JList _ => Raise (TypeError
                        "list indices must be integers or slices, not str")
  | _ => Raise (TypeError ("'" ++ Py.type_name o
                           ++ "' object does not support item assignment"))
  end.

Definition get_property_address (item : InvoiceLineRequest) : string :=
  let desc := Description item in
  let part0 := if Str.contains "Management Fees" desc
               then Str.before_first "Management Fees" desc
               else Str.before_first "-" desc in
  Str.strip part0.

(** [x.get('ServiceDate') or x.get('InvoiceDate', '')] *)
Definition date_key (x : InvoiceLineRequest) : string :=
  if truthy (ServiceDate x) then fmt (ServiceDate x) else InvoiceDate x.

Definition sort_key (x : InvoiceLineRequest) : string * string :=
  (get_property_address x, date_key x).

(** [a < b] on pairs of strings. *)
Definition key_lt (a b : string * string) : bool :=
  if String.eqb (fst a) (fst b) then Str.ltb (snd a) (snd b)
  else Str.ltb (fst a) (fst b).

(** [list.sort(key=...)] is stable: an element goes before the first one
    that is not smaller than it. *)
Fixpoint insert_sorted (x : InvoiceLineRequest) (l : list InvoiceLineRequest)
  : list InvoiceLineRequest :=
  match l with
  | [] => [x]
  | y :: t => if key_lt (sort_key y) (sort_key x) then y :: insert_sorted x t
              else x :: y :: t
  end.

Fixpoint sort_items (items : list InvoiceLineRequest) : list InvoiceLineRequest :=
  match items with
  | [] => []
  | x :: t => insert_sorted x (sort_items t)
  end.

(** [customer_invoices[customer].append(item)], after the key was added
    when it was new. *)
Fixpoint add_to_group (item : InvoiceLineRequest)
    (groups : list (string * list InvoiceLineRequest))
  : list (string * list InvoiceLineRequest) :=
  match groups with
  | [] => [(Customer item, [item])]
  | (c, l) :: t => if String.eqb (Customer item) c then (c, (l ++ [item])%list) :: t
                   else (c, l) :: add_to_group item t
  end.

Definition group_by_customer (invoice_items : list InvoiceLineRequest)
  : list (string * list InvoiceLineRequest) :=
  fold_left (fun groups item => add_to_group item groups) invoice_items [].

Fixpoint mapM {S A B : Type} (f : A -> M S B) (l : list A) : M S (list B) :=
  match l with
  | [] => ret []
  | x :: t => y <- f x ;; ys <- mapM f t ;; ret (y :: ys)
  end.

(** [str(x) if x is not None else fallback] *)
Definition str_or (x : json) (fallback : string) : string :=
  match x with JNull => fallback | _ => py_str env x end.

(** The body of the loop over one customer's items. *)
Definition invoice_line (item : InvoiceLineRequest) : M State json :=
  let mapped_item_name := _map_item_name (Item item) in
  item_id <- get_item_id (Item item) ;;
  if negb (Py.truthy item_id) then
    raise (Exception_ ("Item '" ++ mapped_item_name ++ "' (originally '"
                       ++ Item item ++ "') not found in QuickBooks"))
  else
    let '(qty, unit_price) :=
      if Str.contains "Management Fee" mapped_item_name
      then ("1", py_str env (Amount item))
      else (str_or (Quantity item) "1",
            str_or (Rate item) (py_str env (Amount item))) in
    let service_date :=
      if truthy (ServiceDate item) then fmt (ServiceDate item)
      else InvoiceDate item in
    ret (JDict
      [ ("DetailType", JStr "SalesItemLineDetail");
        ("Amount", JStr (py_str env (Amount item)));
        ("Description", JStr (Description item));
        ("SalesItemLineDetail", JDict
           [ ("ItemRef", JDict [("value", item_id);
                                ("name", JStr mapped_item_name)]);
             ("Qty", JStr qty);
             ("UnitPrice", JStr unit_price);
             ("ServiceDate", JStr service_date) ]) ]).

(** [customer_items[0][...]] *)
Definition first_item (customer_items : list InvoiceLineRequest)
  : res InvoiceLineRequest :=
  match customer_items with
  | x :: _ => Ok x
  | [] => Raise (IndexError "list index out of range")
  end.

(** The body of the loop over the customers: the invoice appended to
    [results]. *)
Definition invoice_for (group : string * list InvoiceLineRequest)
  : M State json :=
  let '(customer, customer_items) := group in
  customer_id <- get_customer_id customer ;;
  if negb (Py.truthy customer_id) then
    raise (Exception_ ("Customer '" ++ customer ++ "' not found in QuickBooks"))
  else
    invoice_lines <- mapM invoice_line customer_items ;;
    first <- lift (first_item customer_items) ;;
    let invoice_data := JDict
      [ ("Line", JList invoice_lines);
        ("CustomerRef", JDict [("value", customer_id); ("name", JStr customer)]);
        ("TxnDate", JStr (today env));
        ("DueDate", JStr (DueDate first));
        ("PrivateNote", JStr ("Created via BuildingBlocks on " ++ today env
                              ++ " for service period " ++ InvoiceDate first));
        ("DocNumber", JStr ("BB-" ++ timestamp env));
        ("GlobalTaxCalculation", JStr "NotApplicable");
        ("CurrencyRef", JDict [("value", JStr "USD");
                               ("name", JStr "United States Dollar")]) ] in
    response <- _make_request "invoice" "POST" None (Some invoice_data) ;;
    has_invoice <- lift (Py.contains "Invoice" response) ;;
    if has_invoice : bool then
      lift (invoice <~ Py.getitem response "Invoice" ;;
            id <~ Py.getitem invoice "Id" ;;
            invoice <~ setitem invoice "QuickBooksUrl"
              (JStr ("https://qbo.intuit.com/app/invoice?txnId=" ++ py_str env id)) ;;
            setitem invoice "Customer" (JStr customer))
    else raise (Exception_ "Invalid response from QuickBooks API").

(** [create_invoice(items)]: one invoice (a [JDict]) when [results] has one
    entry, the list of them ([JList]) otherwise. *)
Definition create_invoice (items : list InvoiceLineRequest) : M State json :=
  match items with
  | [] => raise (ValueError "No items provided for invoice creation")
  | _ =>
      let invoice_items := sort_items items in
      let customer_invoices := group_by_customer invoice_items in
      results <- mapM invoice_for customer_invoices ;;
      match results with
      | [invoice] => ret invoice
      | _ => ret (JList results)
      end
  end.

(** [a or b], where [b] is evaluated only when [a] is false. *)
Definition or_else (a : res json) (b : res json) : res json :=
  x <~ a ;; if Py.truthy x then Ok x else b.

(** [o.get(k, {}).get(k2, default)] *)
Definition get2 (o : json) (k k2 : string) (default : json) : res json :=
  inner <~ Py.get o k (JDict []) ;; Py.get inner k2 default.

(** [len(j)] *)
Definition len (j : json) : res Z :=
  match j with
  | JList l => Ok (Z.of_nat (List.length l))
  | JDict d => Ok (Z.of_nat (List.length d))
  | JStr s => Ok (Z.of_nat (String.length s))
  | _ => Raise (TypeError ("object of type '" ++ Py.type_name j
                           ++ "' has no len()"))
  end.

(** The body of the loop over [lines]: the line item appended, if any. *)
Definition format_line (line : json) : res (option json) :=
  has_type <~ Py.contains "DetailType" line ;;
  if has_type : bool then
    detail_type <~ Py.getitem line "DetailType" ;;
    account_ref <~
      (if Py.eq_str detail_type "AccountBasedExpenseLineDetail" then
         get2 line "AccountBasedExpenseLineDetail" "AccountRef" (JDict [])
       else if Py.eq_str detail_type "SalesItemLineDetail" then
         get2 line "SalesItemLineDetail" "AccountRef" (JDict [])
       else if Py.eq_str detail_type "JournalEntryLineDetail" then
         get2 line "JournalEntryLineDetail" "AccountRef" (JDict [])
       else Ok JNull) ;;
    raw_amount <~ Py.get line "Amount" (JInt 0) ;;
    amount <~ Py.float raw_amount ;;
    description <~ Py.get line "Description" (JStr "") ;;
    account_id <~ (if Py.truthy account_ref
                   then Py.get account_ref "value" (JStr "")
                   else Ok (JStr "")) ;;
    account_name <~ (if Py.truthy account_ref
                     then Py.get account_ref "name" (JStr "")
                     else Ok (JStr "")) ;;
    detail_type <~ Py.get line "DetailType" (JStr "") ;;
    line_num <~ Py.get line "LineNum" (JStr "") ;;
    Ok (Some (JDict [ ("amount", JFloat amount);
                      ("description", description);
                      ("account_id", account_id);
                      ("account_name", account_name);
                      ("detail_type", detail_type);
                      ("line_num", line_num) ]))
  else Ok None.

Fixpoint format_lines (lines : list json) : res (list json) :=
  match lines with
  | [] => Ok []
  | line :: t =>
      item <~ format_line line ;;
      rest <~ format_lines t ;;
      Ok (match item with Some i => i :: rest | None => rest end)
  end.

(** The fields added for the kind of transaction. *)
Definition kind_fields (txn : json) (txn_type : string)
  : res (list (string * json)) :=
  if String.eqb txn_type "Purchase" then
    payment_method <~ get2 txn "PaymentMethodRef" "name" (JStr "") ;;
    credit <~ Py.get txn "Credit" (JBool false) ;;
    currency <~ get2 txn "CurrencyRef" "name" (JStr "USD") ;;
    Ok [ ("payment_method", payment_method); ("credit", credit);
         ("currency", currency) ]
  else if String.eqb txn_type "Bill" then
    due_date <~ Py.get txn "DueDate" (JStr "") ;;
    raw_balance <~ Py.get txn "Balance" (JInt 0) ;;
    balance <~ Py.float raw_balance ;;
    status <~ Py.get txn "Status" (JStr "") ;;
    Ok [ ("due_date", due_date); ("balance", JFloat balance);
         ("status", status) ]
  else if String.eqb txn_type "Expense" then
    payment_method <~ get2 txn "PaymentMethodRef" "name" (JStr "") ;;
    check_number <~ Py.get txn "CheckNum" (JStr "") ;;
    Ok [ ("payment_method", payment_method); ("check_number", check_number) ]
  else if String.eqb txn_type "JournalEntry" then
    adjustment <~ Py.get txn "Adjustment" (JBool false) ;;
    Ok [ ("adjustment", adjustment) ]
  else Ok [].

(** The [try] block of [_format_transaction]. *)
Definition format_transaction_body (txn : json) (txn_type : string)
  : res json :=
  id <~ Py.get txn "Id" JNull ;;
  date <~ Py.get txn "TxnDate" (JStr "") ;;
  raw_total <~ Py.get txn "TotalAmt" (JInt 0) ;;
  amount <~ Py.float raw_total ;;
  memo <~ or_else (Py.get txn "PrivateNote" (JStr ""))
            (or_else (Py.get txn "DocNumber" (JStr "")) (Ok (JStr ""))) ;;
  entity_name <~ or_else (get2 txn "VendorRef" "name" (JStr ""))
                   (get2 txn "CustomerRef" "name" (JStr "")) ;;
  entity_id <~ or_else (get2 txn "VendorRef" "value" (JStr ""))
                 (get2 txn "CustomerRef" "value" (JStr "")) ;;
  payment_type <~ Py.get txn "PaymentType" (JStr "") ;;
  doc_number <~ Py.get txn "DocNumber" (JStr "") ;;
  private_note <~ Py.get txn "PrivateNote" (JStr "") ;;
  sync_token <~ Py.get txn "SyncToken" (JStr "") ;;
  create_time <~ get2 txn "MetaData" "CreateTime" (JStr "") ;;
  last_updated_time <~ get2 txn "MetaData" "LastUpdatedTime" (JStr "") ;;
  let formatted :=
    [ ("id", id); ("type", JStr txn_type); ("date", date);
      ("amount", JFloat amount); ("memo", memo);
      ("entity_name", entity_name); ("entity_id", entity_id);
      ("payment_type", payment_type); ("doc_number", doc_number);
      ("private_note", private_note); ("sync_token", sync_token);
      ("meta_data", JDict [ ("create_time", create_time);
                            ("last_updated_time", last_updated_time) ]) ] in
  has_line <~ Py.contains "Line" txn ;;
  line_items <~
    (if has_line : bool then
       line <~ Py.getitem txn "Line" ;;
       let lines := match line with JList l => l | _ => [line] end in
       format_lines lines
     else Ok []) ;;
  let formatted := Py.set "line_items" (JList line_items) formatted in
  account <~
    (match line_items with
     | first :: _ =>
         account_id <~ Py.getitem first "account_id" ;;
         account_name <~ Py.getitem first "account_name" ;;
         Ok (account_id, account_name)
     | [] => Ok (JStr "", JStr "")
     end) ;;
  let formatted := Py.set "account_id" (fst account) formatted in
  let formatted := Py.set "account_name" (snd account) formatted in
  extra <~ kind_fields txn txn_type ;;
  Ok (JDict (Py.update formatted extra)).

Definition _format_transaction (txn : json) (txn_type : string)
  : M State json :=
  try_except (lift (format_transaction_body txn txn_type))
    any_exception
    (fun e =>
       log_error ("Error formatting transaction: " ++ Exn.str e) ;;;
       log_error ("Transaction data: " ++ py_str env txn) ;;;
       raise e).

(** The local lists of [get_transactions], which keep what was appended to
    them when an exception leaves a loop. *)
Record Frame := {
  base : State;
  all_transactions : list json;
  filtered_transactions : list json
}.

Definition in_frame {A : Type} (m : M State A) : M Frame A :=
  fun f => let '(r, s) := m (base f) in
           (r, {| base := s;
                  all_transactions := all_transactions f;
                  filtered_transactions := filtered_transactions f |}).

Definition append_all (t : json) : M Frame unit :=
  fun f => (Ok tt, {| base := base f;
                      all_transactions := all_transactions f ++ [t];
                      filtered_transactions := filtered_transactions f |}).

Definition append_filtered (t : json) : M Frame unit :=
  fun f => (Ok tt, {| base := base f;
                      all_transactions := all_transactions f;
                      filtered_transactions := filtered_transactions f ++ [t] |}).

Definition set_filtered (l : list json) : M Frame unit :=
  fun f => (Ok tt, {| base := base f;
                      all_transactions := all_transactions f;
                      filtered_transactions := l |}).

(** Whether a line item of [formatted] has the reimbursable account. *)
Definition has_matching_account (formatted : json) : res bool :=
  line_items <~ Py.get formatted "line_items" (JList []) ;;
  each <~ iterate line_items ;;
  names <~ rmap (fun line_item => Py.get line_item "account_name" JNull) each ;;
  Ok (existsb (fun n => Py.eq_str n "6300 Reimbursable Expenses") names).

(** The body of the loop over the transactions of one kind, with its
    [try] and [except]. *)
Definition add_transaction (txn_type : string) (txn : json) : M Frame unit :=
  try_except
    (formatted <- in_frame (_format_transaction txn txn_type) ;;
     append_all formatted ;;;
     matching <- lift (has_matching_account formatted) ;;
     if matching : bool then append_filtered formatted else ret tt)
    any_exception
    (fun format_error =>
       id <- lift (Py.get txn "Id" JNull) ;;
       in_frame (log_error ("Error formatting " ++ txn_type ++ " transaction "
                            ++ py_str env id ++ ": " ++ Exn.str format_error)) ;;;
       in_frame (log_error ("Transaction data: " ++ py_str env txn))).

Fixpoint for_each {S A : Type} (f : A -> M S unit) (l : list A) : M S unit :=
  match l with
  | [] => ret tt
  | x :: t => f x ;;; for_each f t
  end.

Definition spaces (n : nat) : string := string_of_list_ascii (repeat " "%char n).

(** The body of the loop over the kinds, with its [try] and [except]. *)
Definition query_kind (start_date end_date txn_type : string) : M Frame unit :=
  let query := nl ++ spaces 20 ++ "SELECT * FROM " ++ txn_type ++ " " ++ nl
               ++ spaces 20 ++ "WHERE TxnDate >= '" ++ start_date ++ "' " ++ nl
               ++ spaces 20 ++ "AND TxnDate <= '" ++ end_date ++ "'" ++ nl
               ++ spaces 16 in
  try_except
    (response <- in_frame (_query_direct query) ;;
     found <- lift (has_entities txn_type response) ;;
     if found : bool then
       transactions <- lift (entities txn_type response) ;;
       _ <- lift (len transactions) ;;
       each <- lift (iterate transactions) ;;
       for_each (add_transaction txn_type) each
     else
       in_frame (log_warning ("No " ++ txn_type ++ " transactions found")))
    any_exception
    (fun e =>
       in_frame (log_error ("Error querying " ++ txn_type ++ " transactions: "
                            ++ Exn.str e)) ;;;
       in_frame (log_error "Full traceback:")).

Definition transaction_types : list string :=
  ["Purchase"; "Bill"; "Expense"; "JournalEntry"].

(** [list.sort(key=..., reverse=True)], stable, newest first: an element
    goes before the first one it is not smaller than. The comparison is
    Python's [<] on the keys and may raise. *)
Fixpoint insert_desc (key : json) (x : json) (l : list (json * json))
  : res (list (json * json)) :=
  match l with
  | [] => Ok [(key, x)]
  | (k, y) :: t =>
      smaller <~ Py.lt key k ;;
      if smaller : bool then
        rest <~ insert_desc key x t ;; Ok ((k, y) :: rest)
      else Ok ((key, x) :: (k, y) :: t)
  end.

Fixpoint sort_desc (l : list (json * json)) : res (list (json * json)) :=
  match l with
  | [] => Ok []
  | (k, x) :: t => sorted <~ sort_desc t ;; insert_desc k x sorted
  end.

(** [l.sort(key=lambda x: x['date'], reverse=True)] *)
Definition sort_by_date (l : list json) : res (list json) :=
  keyed <~ rmap (fun x => k <~ Py.getitem x "date" ;; Ok (k, x)) l ;;
  sorted <~ sort_desc keyed ;;
  Ok (map snd sorted).

Definition dummy_transaction : json :=
  JDict [ ("id", JStr "test123");
          ("type", JStr "Purchase");
          ("date", JStr (today env));
          ("amount", JFloat (Float.of_Z 100));
          ("memo", JStr "Test transaction");
          ("entity_name", JStr "Test Vendor");
          ("account_name", JStr "6300 Reimbursable Expenses") ].

(** The [try] block of [get_transactions]. *)
Definition get_transactions_body (start_date end_date : string)
  : M Frame (list json) :=
  for_each (query_kind start_date end_date) transaction_types ;;;
  f <- get_state ;;
  sorted <- lift (sort_by_date (filtered_transactions f)) ;;
  set_filtered sorted ;;;
  match sorted with
  | [] =>
      in_frame (log_warning
        "No transactions found with account '6300 Reimbursable Expenses'") ;;;
      ret (all_transactions f)
  | _ => ret sorted
  end.

(** The [except] block of [get_transactions]; the record that holds the
    formatted traceback is not kept. *)
Definition get_transactions_failed (e : exn) : M Frame (list json) :=
  in_frame (log_error ("ERROR in get_transactions: " ++ Exn.str e)) ;;;
  in_frame (log_error ("ERROR TYPE: " ++ Exn.type_name e)) ;;;
  in_frame (log_error "TRACEBACK:") ;;;
  in_frame (log_warning "Returning dummy transaction for testing") ;;;
  ret [dummy_transaction].

Definition get_transactions (start_date end_date : option string)
  : M State (list json) :=
  fun s =>
    let start_date := if truthy start_date then fmt start_date
                      else hundred_days_ago env in
    let end_date := if truthy end_date then fmt end_date else today env in
    let '(r, f) :=
      try_except (get_transactions_body start_date end_date)
        any_exception get_transactions_failed
        {| base := s; all_transactions := []; filtered_transactions := [] |} in
    (r, base f).




End WithEnv.

End QuickBooksClient.

(** ** The pool of tenants *)

Module Companies.

Definition DJANGO : string := "DJANGO".
Definition STANDARD_MGMT : string := "STANDARD_MANAGEMENT_COMPANY".
Definition STANDARD_PROPS : string := "STANDARD_PROPERTIES".
Definition CMR : string := "CMR".

Definition all : list string := [DJANGO; STANDARD_MGMT; STANDARD_PROPS; CMR].

End Companies.

(** A [MultiTenantQB] object. *)
Record MultiTenant := {
  companies : list string;
  clients : list (string * Client)
}.

Record PoolState := {
  pool : MultiTenant;
  outside : World
}.

(** What [MultiTenantQB.get_ar_aging] returns. *)
Record AgingResult := {
  reports : list (string * list (list json));
  auth_errors : list (string * string)
}.

Module MultiTenantQB.

Definition headers : list json :=
  [JStr "Customer"; JStr "Current"; JStr "1-30 Days"; JStr "31-60 Days";
   JStr "61-90 Days"; JStr "91+ Days"; JStr "Total"].

(** [value.replace('$', '').replace(',', '')] *)
Definition clean (value : json) : res string :=
  match value with
  | JStr s => Ok (Str.remove_char "," (Str.remove_char "$" s))
  | _ => Raise (AttributeError ("'" ++ Py.type_name value
                                ++ "' object has no attribute 'replace'"))
  end.

(** The [try] and [except ValueError] around one money value: the cell
    appended. *)
Definition money_cell (value : json) : res json :=
  clean_value <~ clean value ;;
  match Float.of_string clean_value with
  | Some amount => Ok (JStr ("$" ++ Float.format_2f amount))
  | None => Ok value
  end.

(** The body of the loop over [enumerate(col_data)] for the columns after
    the first. *)
Definition money_column (col : json) : res json :=
  value <~ Py.get col "value" (JStr "") ;;
  let value := if Py.eq_str value "" then JStr "0.00" else value in
  money_cell value.

(** The cells of one data row. *)
Definition format_columns (col_data : list json) : res (list json) :=
  match col_data with
  | [] => Ok []
  | first :: others =>
      name <~ Py.get first "value" (JStr "") ;;
      cells <~ QuickBooksClient.rmap money_column others ;;
      Ok (name :: cells)
  end.

(** The body of the first loop over [rows]: the row appended, if any. *)
Definition format_row (row : json) : res (option (list json)) :=
  col_data <~ Py.get row "ColData" JNull ;;
  if negb (Py.truthy col_data) then Ok None
  else
    type <~ Py.get row "type" JNull ;;
    if Py.eq_str type "Section" then Ok None
    else
      cols <~ QuickBooksClient.iterate col_data ;;
      row_data <~ format_columns cols ;;
      Ok (Some row_data).

Fixpoint format_rows (rows : list json) : res (list (list json)) :=
  match rows with
  | [] => Ok []
  | row :: t =>
      r <~ format_row row ;;
      rest <~ format_rows t ;;
      Ok (match r with Some row_data => row_data :: rest | None => rest end)
  end.

(** [col_data[1:]], then iterated. *)
Definition after_first (col_data : json) : res (list json) :=
  match col_data with
  | JList l => Ok (tl l)
  | JStr s => QuickBooksClient.iterate (JStr (Str.drop 1 s))
  | _ => Raise (TypeError ("'" ++ Py.type_name col_data
                           ++ "' object is not subscriptable"))
  end.

Definition total_column (col : json) : res json :=
  value <~ Py.get col "value" (JStr "0.00") ;;
  money_cell value.

(** The second loop over [rows]: the totals row of the first grand-total
    section, if there is one. *)
Fixpoint totals (rows : list json) : res (list (list json)) :=
  match rows with
  | [] => Ok []
  | row :: t =>
      type <~ Py.get row "type" JNull ;;
      is_total <~ (if Py.eq_str type "Section"
                   then group <~ Py.get row "group" JNull ;;
                        Ok (Py.eq_str group "GrandTotal")
                   else Ok false) ;;
      if is_total : bool then
        col_data <~ QuickBooksClient.get2 row "Summary" "ColData" (JList []) ;;
        cols <~ after_first col_data ;;
        cells <~ QuickBooksClient.rmap total_column cols ;;
        Ok [JStr "TOTAL" :: cells]
      else totals t
  end.

Definition format_ar_report (report : json) : res (list (list json)) :=
  absent <~ (if negb (Py.truthy report) then Ok true
             else has <~ Py.contains "Rows" report ;; Ok (negb has)) ;;
  if absent : bool then Ok []
  else
    rows <~ (r <~ Py.getitem report "Rows" ;; Py.get r "Row" (JList [])) ;;
    rows <~ QuickBooksClient.iterate rows ;;
    data <~ format_rows rows ;;
    total <~ totals rows ;;
    Ok ((headers :: data) ++ total)%list.

Section WithEnv.

Context (env : Env).

(** A method of the client of [company], run on the object the pool holds. *)
Definition call_client {A : Type} (company : string) (client : Client)
    (m : M State A) : M PoolState A :=
  fun ps =>
    let '(r, s) := m {| self := client; world := outside ps |} in
    (r, {| pool := {| companies := companies (pool ps);
                      clients := Py.set company (self s) (clients (pool ps)) |};
           outside := world s |}).

(** The body of the loop of [_initialize_clients]. *)
Definition initialize_client (company : string) : M PoolState unit :=
  fun ps =>
    match QuickBooksClient.__init__ env company (outside ps) with
    | (Ok client, w) =>
        (Ok tt, {| pool := {| companies := companies (pool ps);
                              clients := Py.set company client (clients (pool ps)) |};
                   outside := w |})
    | (Raise e, w) =>
        let ps' := {| pool := pool ps; outside := w |} in
        if Exn.is_value_error e then (Ok tt, ps') else (Raise e, ps')
    end.

Definition _initialize_clients : M PoolState unit :=
  ps <- get_state ;;
  QuickBooksClient.for_each initialize_client (companies (pool ps)).

(** [MultiTenantQB(companies)] *)
Definition __init__ (companies : option (list string)) : M World MultiTenant :=
  fun w =>
    let companies := match companies with
                     | Some (c :: l) => c :: l
                     | _ => Companies.all
                     end in
    let '(r, ps) := _initialize_clients
                      {| pool := {| companies := companies; clients := [] |};
                         outside := w |} in
    (match r with Ok _ => Ok (pool ps) | Raise e => Raise e end, outside ps).

Definition get_client (p : MultiTenant) (company : string) : option Client :=
  Py.lookup company (clients p).

(** The body of the loop of [get_ar_aging] over the companies. *)
Definition report_company (company : string) (acc : AgingResult)
  : M PoolState AgingResult :=
  ps <- get_state ;;
  match get_client (pool ps) company with
  | None => ret acc
  | Some client =>
      try_except
        (try_except
           (raw_report <- call_client company client
                            (QuickBooksClient.get_ar_aging env None) ;;
            formatted_report <- lift (format_ar_report raw_report) ;;
            ret {| reports := Py.set company formatted_report (reports acc);
                   auth_errors := auth_errors acc |})
           Exn.is_auth_error
           (fun e =>
              ret {| reports := reports acc;
                     auth_errors := Py.set company (Exn.str e) (auth_errors acc) |}))
        any_exception
        (fun _ => ret acc)
  end.

Fixpoint report_companies (l : list string) (acc : AgingResult)
  : M PoolState AgingResult :=
  match l with
  | [] => ret acc
  | company :: t => acc' <- report_company company acc ;; report_companies t acc'
  end.

Definition get_ar_aging (companies_arg : option (list string))
  : M PoolState AgingResult :=
  ps <- get_state ;;
  let l := match companies_arg with
           | Some (c :: t) => c :: t
           | _ => companies (pool ps)
           end in
  report_companies l {| reports := []; auth_errors := [] |}.

End WithEnv.

End MultiTenantQB.

(** ** Concrete surroundings

    Small environments on which the model is run: a service that answers
    from a script, one that answers by the text of the URL, and a process
    environment given as a table. *)

Module Fixture.

Definition ok (j : json) : HttpResult :=
  Responded {| status_code := 200; text := "<json>"; body := Some j;
               http_error := "" |}.

Definition unauthorized : HttpResult :=
  Responded {| status_code := 401; text := "Unauthorized"; body := None;
               http_error := "401 Client Error: Unauthorized" |}.

Definition is_sent (ev : Event) : bool :=
  match ev with Sent _ => true | _ => false end.

Definition sent_count (t : list Event) : nat :=
  List.length (filter is_sent t).

(** [repr] of [None], booleans, integers and strings without quotes. *)
Definition repr_atom (j : json) : string :=
  match j with
  | JNull => "None"
  | JBool b => if b then "True" else "False"
  | JInt z => Str.of_Z z
  | JStr s => "'" ++ s ++ "'"
  | JFloat _ => "<float>"
  | JList _ => "[...]"
  | JDict _ => "{...}"
  end.

Definition environ (company : string) : list (string * string) :=
  [ ("QUICKBOOKS_CLIENT_ID", "id");
    ("QUICKBOOKS_CLIENT_SECRET", "secret");
    (company ++ "_QB_REFRESH_TOKEN", "refresh-" ++ company);
    (company ++ "_QB_REALM_ID", "realm-" ++ company) ].

Definition make_env (respond : list Event -> Request -> HttpResult)
    (grant : string + string) (vars : list (string * string)) : Env :=
  {| respond := respond;
     token_grant := fun _ _ _ _ => grant;
     getenv := fun name => Py.lookup name vars;
     today := "2024-05-01";
     hundred_days_ago := "2024-01-22";
     timestamp := "20240501-120000";
     repr := repr_atom |}.

(** The n-th request is answered by the n-th entry of the script. *)
Definition scripted (script : list HttpResult) : list Event -> Request -> HttpResult :=
  fun t _ => nth (sent_count t) script (TransportError "connection refused").

(** A request is answered by the first route whose text occurs in its URL. *)
Fixpoint routed (routes : list (string * HttpResult)) (u : string) : HttpResult :=
  match routes with
  | [] => TransportError "connection refused"
  | (pattern, r) :: t => if Str.contains pattern u then r else routed t u
  end.

Definition by_url (routes : list (string * HttpResult))
  : list Event -> Request -> HttpResult :=
  fun _ r => routed routes (url r).

Definition client (company : string) : Client :=
  {| company_prefix := company;
     client_id := Some "id";
     client_secret := Some "secret";
     refresh_token := Some ("refresh-" ++ company);
     realm_id := Some ("realm-" ++ company);
     access_token := Some "stale" |}.

Definition fresh : World := {| trace := []; logged := [] |}.

Definition state (company : string) : State :=
  {| self := client company; world := fresh |}.

Definition query_response (kind : string) (l : list json) : json :=
  JDict [("QueryResponse", JDict [(kind, JList l)])].

Definition line (customer item description date : string) : InvoiceLineRequest :=
  {| Customer := customer; InvoiceDate := "2024-01-31"; DueDate := "2024-02-15";
     Item := item; Description := description;
     Quantity := JInt 1; Rate := JInt 100; Amount := JInt 100;
     ServiceDate := Some date |}.

End Fixture.

(** ** Vocabulary of the statements *)

Module Spec.

(** The request [_make_request] sends first. *)
Definition first_request (c : Client) (endpoint method : string)
    (params : option (list (string * string))) (json_ : option json) : Request :=
  {| method := method;
     url := BASE_URL ++ "/" ++ fmt (realm_id c) ++ "/" ++ endpoint;
     headers := [("Authorization", QuickBooksClient.bearer c);
                 ("Accept", "application/json");
                 ("Content-Type", "application/json")];
     params := Some (Py.set "minorversion" "75"
                       (match params with Some p => p | None => [] end));
     json_body := json_ |}.

(** The same request carrying another bearer token. *)
Definition with_token (r : Request) (tok : string) : Request :=
  {| method := method r; url := url r;
     headers := Py.set "Authorization" ("Bearer " ++ tok) (headers r);
     params := params r; json_body := json_body r |}.

Definition refresh_event (c : Client) : Event :=
  TokenRefresh (fmt (client_id c)) (fmt (client_secret c))
    (fmt (refresh_token c)).

(** What the token endpoint answers to client [c] after the calls [t]. *)
Definition grant (env : Env) (t : list Event) (c : Client) : string + string :=
  token_grant env t (fmt (client_id c)) (fmt (client_secret c))
    (fmt (refresh_token c)).

(** A status on which [raise_for_status] does not raise. *)
Definition succeeded (r : Response) : Prop :=
  status_code r < 400 \/ 600 <= status_code r.

(** The client object as the constructor fills it from the environment. *)
Definition resolved (env : Env) (company_prefix : string) : Client :=
  {| company_prefix := company_prefix;
     client_id := getenv env "QUICKBOOKS_CLIENT_ID";
     client_secret := getenv env "QUICKBOOKS_CLIENT_SECRET";
     refresh_token := getenv env (company_prefix ++ "_QB_REFRESH_TOKEN");
     realm_id := getenv env (company_prefix ++ "_QB_REALM_ID");
     access_token := None |}.

(** A variable that is unset or set to the empty string. *)
Definition empty (x : option string) : Prop := x = None \/ x = Some "".

(** [sep] does not occur in [hay]. *)
Definition absent (sep hay : string) : Prop :=
  forall p r, hay <> p ++ sep ++ r.



(** The date a line is ordered by: the service date, or the invoice date
    when the service date is missing or empty. *)
Definition date_of (x : InvoiceLineRequest) : string :=
  match ServiceDate x with
  | Some "" | None => InvoiceDate x
  | Some d => d
  end.






(** Some request in [t] has [name] in its URL: a query about it was made. *)
Definition asked_for (name : string) (t : list Event) : bool :=
  existsb (fun ev => match ev with
                     | Sent r => Str.contains name (url r)
                     | TokenRefresh _ _ _ => false
                     end) t.

(** The number of requests in [t] made with [verb]. *)
Definition count_method (verb : string) (t : list Event) : nat :=
  List.length (filter (fun ev => match ev with
                                 | Sent r => String.eqb (method r) verb
                                 | TokenRefresh _ _ _ => false
                                 end) t).


(** An expression that raises no [QuickBooksAuthError]. *)
Definition benign {A : Type} (r : res A) : Prop :=
  forall e, r = Raise e -> Exn.is_auth_error e = false.

(** The keys [_format_transaction] adds for each kind of transaction. *)
Definition kind_keys (txn_type : string) : list string :=
  if String.eqb txn_type "Purchase" then ["payment_method"; "credit"; "currency"]
  else if String.eqb txn_type "Bill" then ["due_date"; "balance"; "status"]
  else if String.eqb txn_type "Expense" then ["payment_method"; "check_number"]
  else if String.eqb txn_type "JournalEntry" then ["adjustment"]
  else [].


(** ** More vocabulary: sessions, requests and classes of errors *)

(** The two client objects differ at most in the access token. *)
Definition same_session (c c' : Client) : Prop :=
  company_prefix c' = company_prefix c /\ client_id c' = client_id c
  /\ client_secret c' = client_secret c /\ refresh_token c' = refresh_token c
  /\ realm_id c' = realm_id c.

(** The request [_query_direct] sends first for a query. *)
Definition query_request (c : Client) (query_string : string) : Request :=
  {| method := "GET";
     url := BASE_URL ++ "/" ++ fmt (realm_id c) ++ "/query?query="
            ++ Str.quote query_string ++ "&minorversion=75";
     headers := [("Authorization", QuickBooksClient.bearer c);
                 ("Accept", "application/json")];
     params := None;
     json_body := None |}.

(** A call that does not write: a GET request or a token refresh. *)
Definition is_get (ev : Event) : Prop :=
  match ev with Sent r => method r = "GET" | TokenRefresh _ _ _ => True end.

(** The state after [r] was sent. *)
Definition sent (r : Request) (s : State) : State :=
  {| self := self s; world := record_event (Sent r) (world s) |}.

(** An error status other than 401. *)
Definition failed (r : Response) : Prop :=
  400 <= status_code r < 600 /\ status_code r <> 401.

(** The exceptions the interpreter raises for an operation on a value of
    the wrong shape. *)
Definition interpreter_error (e : exn) : bool :=
  match e with
  | KeyError _ | IndexError _ | TypeError _ | AttributeError _
  | OverflowError _ | ValueError _ => true
  | _ => false
  end.

(** An expression that raises nothing but errors of the interpreter. *)
Definition plain {A : Type} (r : res A) : Prop :=
  forall e, r = Raise e -> interpreter_error e = true.

(** A plain [Exception] whose text starts with "QuickBooks API ". *)
Definition api_error (e : exn) : Prop :=
  exists m, e = Exception_ m /\ prefix "QuickBooks API " m = true.


(** The response lists the entities [l] of the kind [kind]. *)
Definition lists (kind : string) (response : json) (l : list json) : Prop :=
  QuickBooksClient.has_entities kind response = Ok true
  /\ QuickBooksClient.entities kind response = Ok (JList l).

(** The query for an item by its exact name, and the one for the billable
    items whose name contains it. *)
Definition exact_item_query (mapped_name : string) : string :=
  "SELECT Id, Type FROM Item WHERE Name = '" ++ mapped_name ++ "'".

Definition similar_item_query (mapped_name : string) : string :=
  "SELECT Id, Name, Type FROM Item WHERE Type IN "
  ++ "('Service', 'Inventory', 'NonInventory') "
  ++ "AND Name LIKE '%" ++ mapped_name ++ "%'".

Definition all_items_query : string :=
  "SELECT Name, Type FROM Item WHERE Type IN "
  ++ "('Service', 'Inventory', 'NonInventory')".

Definition customer_query (customer_name : string) : string :=
  "SELECT Id FROM Customer WHERE DisplayName = '" ++ customer_name ++ "'".

(** ** More vocabulary: the pool, tables and normalized transactions *)

(** The pool holds a client for [company]. *)
Definition known (ps : PoolState) (company : string) : Prop :=
  In company (map fst (clients (pool ps))).

(** The companies a call of [MultiTenantQB.get_ar_aging] goes through. *)
Definition requested (companies_arg : option (list string)) (ps : PoolState)
  : list string :=
  match companies_arg with
  | Some (c :: t) => c :: t
  | _ => companies (pool ps)
  end.

(** The four credentials of [company] are set in the environment. *)
Definition configured (env : Env) (company : string) : bool :=
  QuickBooksClient.credentials_set (resolved env company).

Definition is_text (j : json) : Prop := exists s, j = JStr s.

(** A row of a table whose cells after the first are text. *)
Definition money_row (row : list json) : Prop := Forall is_text (tl row).

(** The keys of a normalized transaction of any kind, and of a line item. *)
Definition base_keys : list string :=
  [ "id"; "type"; "date"; "amount"; "memo"; "entity_name"; "entity_id";
    "payment_type"; "doc_number"; "private_note"; "sync_token"; "meta_data";
    "line_items"; "account_id"; "account_name" ].

Definition line_keys : list string :=
  [ "amount"; "description"; "account_id"; "account_name"; "detail_type";
    "line_num" ].

Definition line_item (j : json) : Prop :=
  exists l, j = JDict l /\ map fst l = line_keys.

(** ** More vocabulary: the transactions of a period *)

(** The query [get_transactions] sends for one kind of transaction. *)
Definition transactions_query (start_date end_date txn_type : string) : string :=
  nl ++ QuickBooksClient.spaces 20 ++ "SELECT * FROM " ++ txn_type ++ " " ++ nl
  ++ QuickBooksClient.spaces 20 ++ "WHERE TxnDate >= '" ++ start_date ++ "' " ++ nl
  ++ QuickBooksClient.spaces 20 ++ "AND TxnDate <= '" ++ end_date ++ "'" ++ nl
  ++ QuickBooksClient.spaces 16.

(** A line item of the transaction is on the reimbursable account. *)
Definition on_reimbursable_account (t : json) : bool :=
  match QuickBooksClient.has_matching_account t with
  | Ok true => true
  | _ => false
  end.

(** The filtered list holds the transactions of the full list that are on
    the reimbursable account, in their order. *)
Definition filter_kept (f : QuickBooksClient.Frame) : Prop :=
  QuickBooksClient.filtered_transactions f
  = filter on_reimbursable_account (QuickBooksClient.all_transactions f).

(** A step that makes no call and leaves the client as it is. *)
Definition quiet (f f' : QuickBooksClient.Frame) : Prop :=
  self (QuickBooksClient.base f') = self (QuickBooksClient.base f)
  /\ trace (world (QuickBooksClient.base f'))
     = trace (world (QuickBooksClient.base f))
  /\ (filter_kept f -> filter_kept f').

(** A computation all of whose runs are quiet. *)
Definition silent {A : Type} (m : M QuickBooksClient.Frame A) : Prop :=
  forall f, quiet f (snd (m f)).

(** The calls made between two states are reads, the first of them the
    request [r]. *)
Definition reads_from (r : Request) (s s' : State) : Prop :=
  same_session (self s) (self s')
  /\ exists evs, trace (world s') = (trace (world s) ++ Sent r :: evs)%list
                 /\ Forall is_get evs.

(** ** More vocabulary: reads and writes *)

(** The calls made between two states are reads. *)
Definition reads (s s' : State) : Prop :=
  same_session (self s) (self s')
  /\ exists evs, trace (world s') = (trace (world s) ++ evs)%list
                 /\ Forall is_get evs.



(** A token refresh, or a request with the method [verb] to [endpoint] of
    the company [realm]. *)
Definition call_to (verb endpoint : string) (realm : option string)
    (ev : Event) : Prop :=
  match ev with
  | Sent r => method r = verb
              /\ url r = BASE_URL ++ "/" ++ fmt realm ++ "/" ++ endpoint
  | TokenRefresh _ _ _ => True
  end.

(** Every run of [m] keeps the session and makes only calls that satisfy
    [P] for the company of the client. *)
Definition within {A : Type} (P : option string -> Event -> Prop)
    (m : M State A) : Prop :=
  forall s,
    same_session (self s) (self (snd (m s)))
    /\ exists evs, trace (world (snd (m s))) = (trace (world s) ++ evs)%list
                   /\ Forall (P (realm_id (self s))) evs.

(** A read, or a POST to the invoice endpoint of the company. *)
Definition read_or_invoice (realm : option string) (ev : Event) : Prop :=
  is_get ev \/ call_to "POST" "invoice" realm ev.

End Spec.

(** ** The aging report, in the words of the specification

    The rows of a raw report with text in every cell, and the table the
    formatter is to produce from them. *)

Module Aging.

(** A cell of [ColData]: its [value], when the key is there. *)
Definition Cell := option string.

(** A row of [Rows.Row]: the keys [type] and [group], the cells of
    [ColData] and the cells of [Summary.ColData], each when it is there. *)
Record Row := {
  row_type : option string;
  row_group : option string;
  col_data : option (list Cell);
  summary : option (list Cell)
}.

Definition encode_cell (c : Cell) : json :=
  JDict (match c with Some v => [("value", JStr v)] | None => [] end).

Definition encode_row (r : Row) : json :=
  JDict
    ((match col_data r with
      | Some l => [("ColData", JList (map encode_cell l))]
      | None => []
      end)
     ++ (match row_type r with Some t => [("type", JStr t)] | None => [] end)
     ++ (match row_group r with Some g => [("group", JStr g)] | None => [] end)
     ++ (match summary r with
         | Some l => [("Summary", JDict [("ColData", JList (map encode_cell l))])]
         | None => []
         end))%list.

(** The payload of a report with the rows [rows]. *)
Definition encode (rows : list Row) : json :=
  JDict [("Header", JDict [("ReportName", JStr "AgedReceivables")]);
         ("Rows", JDict [("Row", JList (map encode_row rows))])].

(** A money value as a currency string: dollar sign, thousands separators
    and two decimals; a text that is not a number is left as it is. *)
Definition money (v : string) : string :=
  match Float.of_string (Str.remove_char "," (Str.remove_char "$" v)) with
  | Some amount => "$" ++ Float.format_2f amount
  | None => v
  end.

Definition value_or (default : string) (c : Cell) : string :=
  match c with Some v => v | None => default end.

(** A data row: the name as it is, then the money columns, an empty one
    counted as 0.00. *)
Definition data_cells (cells : list Cell) : list json :=
  match cells with
  | [] => []
  | name :: amounts =>
      JStr (value_or "" name)
      :: map (fun c => let v := value_or "" c in
                       JStr (money (if String.eqb v "" then "0.00" else v)))
             amounts
  end.

Definition is_section (r : Row) : bool :=
  match row_type r with Some t => String.eqb t "Section" | None => false end.

Definition is_grand_total (r : Row) : bool :=
  is_section r
  && match row_group r with Some g => String.eqb g "GrandTotal" | None => false end.

(** The rows that are shown as data: those with cells that are not
    sections. *)
Definition is_data (r : Row) : bool :=
  match col_data r with
  | Some (_ :: _) => negb (is_section r)
  | _ => false
  end.

Definition data_row (r : Row) : list json :=
  data_cells (match col_data r with Some l => l | None => [] end).

(** The totals row: the summary of the first grand-total section without
    its first column, labelled TOTAL. *)
Definition total_rows (rows : list Row) : list (list json) :=
  match find is_grand_total rows with
  | Some r =>
      [JStr "TOTAL"
       :: map (fun c => JStr (money (value_or "0.00" c)))
              (tl (match summary r with Some l => l | None => [] end))]
  | None => []
  end.

Definition table (rows : list Row) : list (list json) :=
  (MultiTenantQB.headers :: map data_row (filter is_data rows)
   ++ total_rows rows)%list.

Definition cells (l : list string) : option (list Cell) := Some (map Some l).

(** The report of the example: one customer and the grand total. *)
Definition example : list Row :=
  [ {| row_type := None; row_group := None;
       col_data := cells ["Acme"; ""; "$10.00"]; summary := None |};
    {| row_type := Some "Section"; row_group := Some "GrandTotal";
       col_data := None;
       summary := cells ["TOTAL"; "0.00"; "1234567.5"] |} ].


End Aging.

(** ** Runs used as examples *)

Module Run.

Import Fixture.

Definition answer : json := JDict [("Header", JDict [("ReportName", JStr "AgedReceivables")])].

(** The service rejects the first call and accepts the retry. *)
Definition env_retry_ok : Env :=
  make_env (scripted [unauthorized; ok answer]) (inl "fresh") (environ "DJANGO").

(** The service rejects every call, also with a fresh token. *)
Definition env_unauthorized : Env :=
  make_env (scripted [unauthorized; unauthorized]) (inl "fresh")
    (environ "DJANGO").

(** A service that knows one customer, the item "Management Fee" and
    accepts invoices. *)
Definition env_books : Env :=
  make_env
    (by_url
       [ ("DisplayName%20%3D%20%27Acme%27",
          ok (query_response "Customer" [JDict [("Id", JStr "7")]]));
         ("DisplayName%20%3D%20%27Zed%27",
          ok (query_response "Customer" [JDict [("Id", JStr "8")]]));
         ("DisplayName", ok (JDict [("QueryResponse", JDict [])]));
         ("Name%20%3D%20%27Management%20Fee%27",
          ok (query_response "Item"
                [JDict [("Id", JStr "42"); ("Type", JStr "Service")]]));
         ("invoice", ok (JDict [("Invoice", JDict [("Id", JStr "900")])])) ])
    (inl "fresh") (environ "DJANGO").

(** The realm id of DJANGO is not configured. *)
Definition env_no_realm : Env :=
  make_env (scripted []) (inl "fresh")
    [ ("QUICKBOOKS_CLIENT_ID", "id");
      ("QUICKBOOKS_CLIENT_SECRET", "secret");
      ("DJANGO_QB_REFRESH_TOKEN", "refresh-DJANGO") ].



(** Three customers; the service of [env_books] does not know the
    second one. *)
Definition three_customers : list InvoiceLineRequest :=
  [ line "Acme" "Management Fees" "A St Management Fees" "2024-01-01";
    line "Nobody" "Management Fees" "B St Management Fees" "2024-01-01";
    line "Zed" "Management Fees" "C St Management Fees" "2024-01-01" ].

Definition key (x : InvoiceLineRequest) : string * string :=
  (QuickBooksClient.get_property_address x, Spec.date_of x).

(** Two tenants: the service answers DJANGO with the report of the example
    and rejects every call of CMR, also after a token refresh. *)
Definition env_two_tenants : Env :=
  make_env
    (by_url [ ("realm-CMR", unauthorized);
              ("realm-DJANGO", ok (Aging.encode Aging.example)) ])
    (inl "fresh")
    (environ "DJANGO" ++ environ "CMR")%list.

Definition tenants : list string := ["DJANGO"; "CMR"].

(** The pool after [MultiTenantQB(["DJANGO", "CMR"])]. *)
Definition constructed : res MultiTenant * World :=
  MultiTenantQB.__init__ env_two_tenants (Some tenants) fresh.

Definition pool_state : PoolState :=
  {| pool := match fst constructed with
             | Ok p => p
             | Raise _ => {| companies := []; clients := [] |}
             end;
     outside := snd constructed |}.


Definition well_formed : list (string * json) :=
  [("Id", JStr "2"); ("TxnDate", JStr "2024-03-02")].


Definition nothing : HttpResult := ok (JDict [("QueryResponse", JDict [])]).






(** The token endpoint refuses every refresh token. *)
Definition env_expired : Env :=
  make_env (scripted []) (inr "invalid_grant")
    (environ "DJANGO" ++ environ "CMR")%list.



(** A catalogue in which Repairs is a category: a query by the name
    Repairs finds the category, a query for similar billable items finds
    the service Repairs Labor, a query by any other name finds nothing,
    and the list of billable items has one entry. *)
Definition env_items : Env :=
  make_env
    (by_url
       [ ("LIKE", ok (query_response "Item"
                        [JDict [("Id", JStr "43"); ("Name", JStr "Repairs Labor");
                                ("Type", JStr "Service")]]));
         ("Name%20%3D%20%27Repairs%27",
          ok (query_response "Item"
                [JDict [("Id", JStr "5"); ("Type", JStr "Category")]]));
         ("Name%20%3D", nothing);
         ("FROM%20Item",
          ok (query_response "Item"
                [JDict [("Name", JStr "Sales"); ("Type", JStr "Service")]])) ])
    (inl "fresh") (environ "DJANGO").

(** The service answers the company-info call. *)
Definition env_company : Env :=
  make_env
    (by_url [ ("companyinfo",
               ok (JDict [("CompanyInfo",
                           JDict [("CompanyName", JStr "Django LLC")])])) ])
    (inl "fresh") (environ "DJANGO").

End Run.

(** * Properties *)

Import QuickBooksClient.

Tactic Notation "run" :=
  unfold raise, ret, lift, any_exception;
  cbn [fst snd self world trace logged access_token record_event
       set_access_token Exn.is_request_exception Exn.is_auth_error].
Tactic Notation "run" "in" hyp(H) :=
  unfold raise, ret, lift, any_exception in H;
  cbn [fst snd self world trace logged access_token record_event
       set_access_token Exn.is_request_exception Exn.is_auth_error] in H.

(** ** The request executor *)

Section RequestExecutor.

Import Spec.

Context (env : Env).

Lemma refresh_ok s tok :
  grant env (trace (world s)) (self s) = inl tok ->
  refresh_access_token env s =
    (Ok tt, {| self := set_access_token (self s) tok;
               world := record_event (refresh_event (self s)) (world s) |}).
Proof.
  unfold grant, refresh_access_token, try_except, auth_client_refresh.
  intros ->. reflexivity.
Qed.

Lemma refresh_failed s msg :
  grant env (trace (world s)) (self s) = inr msg ->
  exists m,
    refresh_access_token env s =
      (Raise (QuickBooksAuthError m),
       {| self := self s;
          world := {| trace := (trace (world s) ++ [refresh_event (self s)])%list;
                      logged := (logged (world s)
                        ++ [LogError ("Error refreshing access token: " ++ msg)])%list |} |}).
Proof.
  unfold grant, refresh_access_token, try_except, auth_client_refresh.
  intros ->. cbn [any_exception].
  unfold bind, log_error, _handle_auth_error, bind, get_state. cbn [self world trace logged record_event Exn.str].
  destruct (Str.contains "invalid_grant" (Str.lower msg)); eexists; reflexivity.
Qed.


Lemma make_request_failed_state e s : snd (_make_request_failed env e s) = s.
Proof.
  unfold _make_request_failed.
  destruct (Exn.response e) as [r|]; [|reflexivity].
  destruct (body r) as [d|]; [|reflexivity].
  unfold bind, lift, raise.
  destruct (Py.contains "Fault" d) as [[|]|]; try reflexivity.
  destruct (rbind (Py.getitem d "Fault") _) as [m|]; [|reflexivity].
  destruct (rbind (Py.getitem d "Fault") _) as [m'|]; reflexivity.
Qed.


(** C1, as the code has it. When the first response to [_make_request] is
    a 401, the token is refreshed once. If the refresh succeeds, the same
    call (method, URL, parameters and body, with the new bearer token) is
    sent once more and nothing else is: a second 401 raises
    [QuickBooksAuthError] with the fixed text "Authentication failed even
    after token refresh", and a response that passes [raise_for_status] and
    carries JSON is returned with no error. If the refresh fails, the call
    raises [QuickBooksAuthError] and no retry is sent. *)
Theorem make_request_unauthorized s endpoint verb args json_ resp1 :
  let c := self s in
  let r1 := first_request c endpoint verb args json_ in
  respond env (trace (world s)) r1 = Responded resp1 ->
  status_code resp1 = 401 ->
  let sent := (trace (world s) ++ [Sent r1])%list in
  let refreshed := (sent ++ [refresh_event c])%list in
  let result := fst (_make_request env endpoint verb args json_ s) in
  let s' := snd (_make_request env endpoint verb args json_ s) in
  match grant env sent c with
  | inl tok =>
      let r2 := with_token r1 tok in
      trace (world s') = (refreshed ++ [Sent r2])%list
      /\ access_token (self s') = Some tok
      /\ (forall resp2, respond env refreshed r2 = Responded resp2 ->
            (status_code resp2 = 401 ->
               result = Raise (QuickBooksAuthError
                                 "Authentication failed even after token refresh"))
            /\ (forall j, succeeded resp2 -> body resp2 = Some j -> result = Ok j))
  | inr msg =>
      trace (world s') = refreshed
      /\ exists m, result = Raise (QuickBooksAuthError m)
  end.
Proof.
  intros c r1 H1 H401 sent refreshed result s'.
  subst result s' refreshed sent r1 c.
  remember (_make_request env endpoint verb args json_ s) as out eqn:Hout.
  unfold first_request in *.
  set (r1 := Build_Request verb _ (_ :: _) _ _) in *.
  unfold _make_request, try_except in Hout.
  unfold bind at 1 in Hout. unfold get_state at 1 in Hout.
  unfold bind at 1 in Hout. unfold request at 1 in Hout.
  change (Build_Request verb _ (_ :: _) _ _) with r1 in Hout.
  rewrite H1 in Hout.
  unfold bind at 1 in Hout. rewrite H401 in Hout.
  change (401 =? 401) with true in Hout. cbv iota in Hout.
  unfold bind at 1 in Hout.
  set (s1 := Build_State _ _) in Hout.
  change (trace (world s) ++ [Sent _])%list with (trace (world s1)).
  change (self s) with (self s1).
  destruct (grant env (trace (world s1)) (self s1)) as [tok|msg] eqn:G.
  - rewrite (refresh_ok _ _ G) in Hout.
    unfold bind at 1 in Hout. unfold get_state at 1 in Hout.
    unfold bind at 1 in Hout. unfold request at 1 in Hout.
    cbn [self world trace record_event] in Hout.
    change (bearer (set_access_token (self s1) tok)) with ("Bearer " ++ tok) in Hout.
    change (Build_Request verb _ (Py.set _ _ _) _ _) with (with_token r1 tok) in Hout.
    set (r2 := with_token r1 tok) in *.
    destruct (respond env _ r2) as [resp2|msg2] eqn:R2.
    + unfold bind at 1 in Hout.
      destruct (status_code resp2 =? 401) eqn:E.
      * run in Hout. subst out. run.
        split; [reflexivity | split; [reflexivity|]].
        intros resp2' Heq. injection Heq as <-. split; [reflexivity|].
        intros j [Hs|Hs] _; apply Z.eqb_eq in E; lia.
      * run in Hout.
        unfold raise_for_status in Hout.
        destruct ((400 <=? status_code resp2) && (status_code resp2 <? 600)) eqn:B.
        -- run in Hout. subst out. rewrite make_request_failed_state. run.
           split; [reflexivity | split; [reflexivity|]].
           intros resp2' Heq. injection Heq as <-. split.
           ++ intros H. apply Z.eqb_neq in E. contradiction.
           ++ intros j [Hs|Hs] _; apply andb_true_iff in B as [B1 B2]; lia.
        -- unfold response_json in Hout.
           destruct (body resp2) as [j2|] eqn:Bd.
           ++ run in Hout. subst out. run.
              split; [reflexivity | split; [reflexivity|]].
              intros resp2' Heq. injection Heq as <-. split.
              ** intros H. apply Z.eqb_neq in E. contradiction.
              ** intros j _ Hj. congruence.
           ++ run in Hout. subst out. rewrite make_request_failed_state. run.
              split; [reflexivity | split; [reflexivity|]].
              intros resp2' Heq. injection Heq as <-. split.
              ** intros H. apply Z.eqb_neq in E. contradiction.
              ** intros j _ Hj. congruence.
    + run in Hout. subst out. rewrite make_request_failed_state. run.
      split; [reflexivity | split; [reflexivity|]].
      intros resp2' Heq. discriminate.
  - destruct (refresh_failed _ _ G) as [m Hm]. rewrite Hm in Hout.
    run in Hout. subst out. run.
    split; [reflexivity|]. eexists; reflexivity.
Qed.

End RequestExecutor.

(** The theorem at a run where the retry succeeds and at one where it is
    rejected again. *)
Lemma make_request_unauthorized_witness :
  fst (_make_request Run.env_retry_ok "reports/AgedReceivables" "GET" None None
         (Fixture.state "DJANGO")) = Ok Run.answer
  /\ fst (_make_request Run.env_unauthorized "reports/AgedReceivables" "GET"
            None None (Fixture.state "DJANGO"))
     = Raise (QuickBooksAuthError
                "Authentication failed even after token refresh").
Proof.
  split.
  - pose proof (make_request_unauthorized Run.env_retry_ok
                  (Fixture.state "DJANGO") "reports/AgedReceivables" "GET"
                  None None _ eq_refl eq_refl) as H.
    cbv zeta in H.
    change (Spec.grant _ _ _) with (@inl string string "fresh") in H.
    cbv iota in H. destruct H as (_ & _ & H).
    specialize (H _ eq_refl). destruct H as [_ H].
    apply H; [left; reflexivity | reflexivity].
  - pose proof (make_request_unauthorized Run.env_unauthorized
                  (Fixture.state "DJANGO") "reports/AgedReceivables" "GET"
                  None None _ eq_refl eq_refl) as H.
    cbv zeta in H.
    change (Spec.grant _ _ _) with (@inl string string "fresh") in H.
    cbv iota in H. destruct H as (_ & _ & H).
    specialize (H _ eq_refl). destruct H as [H _].
    apply H. reflexivity.
Defined.

(** C1 as stated fails: after two unauthorized responses for tenant DJANGO
    the error raised does not carry the tenant id. *)
Lemma auth_failure_after_retry_does_not_name_tenant :
  exists m,
    fst (_make_request Run.env_unauthorized "reports/AgedReceivables" "GET"
           None None (Fixture.state "DJANGO"))
    = Raise (QuickBooksAuthError m)
    /\ company_prefix (self (Fixture.state "DJANGO")) = "DJANGO"
    /\ Str.contains "DJANGO" m = false.
Proof.
  eexists. split; [vm_compute; reflexivity | split; reflexivity].
Qed.

(** ** Item names *)

Lemma map_item_name_idempotent name :
  In name (map fst item_mapping) ->
  _map_item_name (_map_item_name name) = _map_item_name name.
Proof.
  cbn [item_mapping map fst In].
  intros H.
  repeat (destruct H as [<- | H]; [reflexivity|]).
  contradiction.
Qed.

(** C3. For every name that is a key of the mapping table, [get_item_id]
    on the name and on its mapped name make the same calls and return the
    same result: the table maps none of its values further. *)
Theorem get_item_id_invariant_under_mapping env name s :
  In name (map fst item_mapping) ->
  get_item_id env name s = get_item_id env (_map_item_name name) s.
Proof.
  intros H. unfold get_item_id.
  rewrite (map_item_name_idempotent _ H). reflexivity.
Qed.

Lemma get_item_id_invariant_under_mapping_witness :
  get_item_id Run.env_books "Management Fees" (Fixture.state "DJANGO")
  = get_item_id Run.env_books "Management Fee" (Fixture.state "DJANGO")
  /\ fst (get_item_id Run.env_books "Management Fees" (Fixture.state "DJANGO"))
     = Ok (JStr "42").
Proof.
  split.
  - apply (get_item_id_invariant_under_mapping Run.env_books "Management Fees").
    cbn. left. reflexivity.
  - vm_compute. reflexivity.
Defined.

Import Spec.

(** ** Order on strings *)



















(** ** Grouping *)





Lemma lookup_in_keys {V} c (g : list (string * V)) :
  Py.lookup c g = None <-> ~ In c (map fst g).
Proof.
  induction g as [|[c' l] t IH]; cbn [Py.lookup map fst In]; [tauto|].
  destruct (String.eqb_spec c c') as [E|E].
  - split; [discriminate | intros H; exfalso; apply H; left; congruence].
  - rewrite IH. split; [intros H [C|C]; [congruence | tauto] | tauto].
Qed.







(** ** The address token *)

Lemma prefix_iff sep : forall hay,
  prefix sep hay = true <-> exists rest, hay = sep ++ rest.
Proof.
  induction sep as [|c sep IH]; intros [|d hay]; cbn [prefix append].
  - split; [intros _; exists ""; reflexivity | reflexivity].
  - split; [intros _; eexists; reflexivity | reflexivity].
  - split; [discriminate | intros [rest H]; discriminate].
  - destruct (Ascii.ascii_dec c d) as [->|N].
    + rewrite IH. split; intros [rest H]; exists rest; congruence.
    + split; [discriminate | intros [rest H]; congruence].
Qed.

Lemma contains_iff sep : forall hay,
  Str.contains sep hay = true <-> exists p r, hay = p ++ sep ++ r.
Proof.
  induction hay as [|c hay IH].
  - cbn [Str.contains]. rewrite orb_false_r, prefix_iff. split.
    + intros [rest H]. exists "", rest. exact H.
    + intros (p & r & H). destruct p; [exists r; exact H | discriminate].
  - cbn [Str.contains]. rewrite orb_true_iff, prefix_iff, IH. split.
    + intros [[rest H] | (p & r & H)].
      * exists "", rest. exact H.
      * exists (String c p), r. cbn [append]. congruence.
    + intros (p & r & H). destruct p as [|d p].
      * left. exists r. exact H.
      * right. exists p, r. cbn [append] in H. congruence.
Qed.






(** ** Construction of a session *)

Lemma truthy_false_iff x : truthy x = false <-> Spec.empty x.
Proof.
  unfold truthy, Spec.empty. destruct x as [s|].
  - destruct (String.eqb_spec s ""); cbn; split; intros H.
    + right. congruence.
    + reflexivity.
    + discriminate.
    + destruct H as [H|H]; [discriminate | congruence].
  - split; intros; [left|]; reflexivity.
Qed.

Lemma credentials_set_false c :
  Spec.empty (client_id c) \/ Spec.empty (client_secret c)
  \/ Spec.empty (refresh_token c) \/ Spec.empty (realm_id c) ->
  credentials_set c = false.
Proof.
  unfold credentials_set.
  intros [H | [H | [H | H]]]; apply truthy_false_iff in H; rewrite H;
    repeat rewrite andb_false_r; reflexivity.
Qed.

(** C7, as the code has it. The client id and the client secret are read
    from the two variables shared by all tenants, the refresh token and the
    realm id from the variables of the tenant. When any of the four is
    unset or empty, the constructor raises a [ValueError] whose text names
    the tenant, before any call is made; it is [test_connection] that lists
    the variables that are missing. *)
Theorem init_credentials env tenant :
  let c := Spec.resolved env tenant in
  (Spec.empty (client_id c) \/ Spec.empty (client_secret c)
   \/ Spec.empty (refresh_token c) \/ Spec.empty (realm_id c) ->
   (forall w,
      __init__ env tenant w
      = (Raise (ValueError ("Missing required QuickBooks credentials for "
                            ++ tenant)), w))
   /\ (forall w,
         fst (test_connection env {| self := c; world := w |})
         = Raise (ValueError ("Missing required QuickBooks credentials: "
                              ++ Str.join ", " (missing_credentials c)))))
  /\ (forall w c' w',
        __init__ env tenant w = (Ok c', w') ->
        company_prefix c' = tenant
        /\ client_id c' = getenv env "QUICKBOOKS_CLIENT_ID"
        /\ client_secret c' = getenv env "QUICKBOOKS_CLIENT_SECRET"
        /\ refresh_token c' = getenv env (tenant ++ "_QB_REFRESH_TOKEN")
        /\ realm_id c' = getenv env (tenant ++ "_QB_REALM_ID")).
Proof.
  intros c. split.
  - intros H. apply credentials_set_false in H. split; intros w.
    + unfold __init__. change (Build_Client _ _ _ _ _ _) with c. rewrite H. reflexivity.
    + unfold test_connection, try_except.
      unfold bind at 1. unfold get_state at 1.
      unfold bind at 1. cbv beta. cbn [self]. rewrite H. cbn [negb].
      run. unfold bind, log_error. reflexivity.
  - intros w c' w'. unfold __init__. change (Build_Client _ _ _ _ _ _) with c.
    destruct (negb (credentials_set c)); [discriminate|].
    unfold refresh_access_token, try_except, auth_client_refresh.
    cbn [self world].
    destruct (token_grant env _ _ _ _) as [tok|msg].
    + intros H. injection H as <- <-. cbn. repeat split; reflexivity.
    + cbn [any_exception]. unfold bind, log_error, _handle_auth_error, bind, get_state.
      cbn [self world Exn.str].
      destruct (Str.contains _ _); discriminate.
Qed.

Lemma init_credentials_witness :
  QuickBooksClient.__init__ Run.env_no_realm "DJANGO" Fixture.fresh
  = (Raise (ValueError "Missing required QuickBooks credentials for DJANGO"),
     Fixture.fresh)
  /\ fst (test_connection Run.env_no_realm
            {| self := Spec.resolved Run.env_no_realm "DJANGO";
               world := Fixture.fresh |})
     = Raise (ValueError
                "Missing required QuickBooks credentials: DJANGO_QB_REALM_ID").
Proof.
  destruct (init_credentials Run.env_no_realm "DJANGO") as [H _].
  destruct H as [H1 H2].
  - right. right. right. left. reflexivity.
  - split; [apply H1 | apply H2].
Defined.

(** C7 as stated fails: with the realm id of DJANGO unset the constructor
    raises an error that does not name the missing variable. *)
Lemma init_error_does_not_name_variable :
  exists m,
    QuickBooksClient.__init__ Run.env_no_realm "DJANGO" Fixture.fresh
    = (Raise (ValueError m), Fixture.fresh)
    /\ getenv Run.env_no_realm "DJANGO_QB_REALM_ID" = None
    /\ Str.contains "DJANGO_QB_REALM_ID" m = false.
Proof.
  eexists. split; [vm_compute; reflexivity | split; reflexivity].
Qed.

(** ** Runs of the monad *)

Lemma bind_ok {S A B} (m : M S A) (f : A -> M S B) s r s' :
  bind m f s = (Ok r, s') ->
  exists a s1, m s = (Ok a, s1) /\ f a s1 = (Ok r, s').
Proof.
  unfold bind. destruct (m s) as [[a|e] s1]; [eauto | discriminate].
Qed.


Lemma rbind_ok {A B} (x : res A) (f : A -> res B) r :
  rbind x f = Ok r -> exists a, x = Ok a /\ f a = Ok r.
Proof. destruct x as [a|e]; cbn; [eauto | discriminate]. Qed.

Lemma mapM_stops {S A B} (f : A -> M S B) pre x post :
  forall s rs s1 e s2,
    mapM f pre s = (Ok rs, s1) ->
    f x s1 = (Raise e, s2) ->
    mapM f (pre ++ x :: post) s = (Raise e, s2).
Proof.
  induction pre as [|y pre IH]; intros s rs s1 e s2 Hpre Hx; cbn [mapM app].
  - injection Hpre as _ <-. unfold bind. rewrite Hx. reflexivity.
  - cbn [mapM] in Hpre. apply bind_ok in Hpre as (a & sa & Hy & Hrest).
    apply bind_ok in Hrest as (ys & sb & Hrest & Hret).
    injection Hret as _ <-.
    unfold bind at 1. rewrite Hy.
    unfold bind at 1. rewrite (IH _ _ _ _ _ Hrest Hx). reflexivity.
Qed.


(** ** Invoice creation *)

Section InvoiceCreation.

Context (env : Env).




(** C4, as the code has it. The customers are handled one after the other
    and the first failure ends the whole call: when the invoices of the
    customers in [before] were created and the one of the next customer
    fails, [create_invoice] raises that error in the state the failure
    left, so the invoices already submitted stay submitted and nothing is
    attempted for the customers in [after]. *)
Theorem create_invoice_stops_at_first_failure items s before g after rs s1 e s2 :
  group_by_customer (sort_items items) = (before ++ g :: after)%list ->
  mapM (invoice_for env) before s = (Ok rs, s1) ->
  invoice_for env g s1 = (Raise e, s2) ->
  create_invoice env items s = (Raise e, s2).
Proof.
  intros Hg Hbefore Hfail.
  destruct items as [|x items].
  - destruct before; discriminate.
  - unfold create_invoice. rewrite Hg.
    unfold bind. rewrite (mapM_stops _ _ _ _ _ _ _ _ _ Hbefore Hfail).
    reflexivity.
Qed.


End InvoiceCreation.

Lemma create_invoice_stops_at_first_failure_witness :
  fst (create_invoice Run.env_books Run.three_customers (Fixture.state "DJANGO"))
  = Raise (Exception_ "Customer 'Nobody' not found in QuickBooks").
Proof.
  pose (groups := group_by_customer (sort_items Run.three_customers)).
  pose (before := firstn 1 groups).
  pose (g := nth 1 groups ("", [])).
  pose (after := skipn 2 groups).
  pose (r1 := mapM (invoice_for Run.env_books) before (Fixture.state "DJANGO")).
  pose (r2 := invoice_for Run.env_books g (snd r1)).
  rewrite (create_invoice_stops_at_first_failure Run.env_books
             Run.three_customers (Fixture.state "DJANGO") before g after
             (match fst r1 with Ok rs => rs | Raise _ => [] end) (snd r1)
             (Exception_ "Customer 'Nobody' not found in QuickBooks") (snd r2)).
  - reflexivity.
  - vm_compute. reflexivity.
  - vm_compute. reflexivity.
  - vm_compute. reflexivity.
Defined.

(** C4 as stated fails: the second of three customers is unknown, the call
    raises, the first customer's invoice has been posted, and no request
    about the third customer was ever made, although an invoice for that
    customer alone is created. *)
Lemma later_customers_are_not_attempted :
  let run := create_invoice Run.env_books Run.three_customers
               (Fixture.state "DJANGO") in
  fst run = Raise (Exception_ "Customer 'Nobody' not found in QuickBooks")
  /\ asked_for "Acme" (trace (world (snd run))) = true
  /\ count_method "POST" (trace (world (snd run))) = 1%nat
  /\ asked_for "Zed" (trace (world (snd run))) = false
  /\ exists d, fst (create_invoice Run.env_books
                      (skipn 2 Run.three_customers) (Fixture.state "DJANGO"))
               = Ok (JDict d).
Proof.
  cbv zeta. repeat split; try (vm_compute; reflexivity).
  eexists. vm_compute. reflexivity.
Qed.


(** ** The pool of tenants *)

Create HintDb benign.

Lemma benign_ok {A} (a : A) : benign (Ok a).
Proof. intros e H. discriminate. Qed.

Lemma benign_rbind {A B} (x : res A) (f : A -> res B) :
  benign x -> (forall a, benign (f a)) -> benign (rbind x f).
Proof.
  intros Hx Hf e. destruct x as [a|e']; cbn [rbind].
  - apply Hf.
  - intros H. apply (Hx e). congruence.
Qed.

Lemma benign_if {A} (b : bool) (x y : res A) :
  benign x -> benign y -> benign (if b then x else y).
Proof. destruct b; trivial. Qed.

Ltac benign_primitive :=
  let e := fresh in let H := fresh in
  intros e H;
  repeat match type of H with
         | context [match ?x with _ => _ end] => destruct x
         end;
  first [discriminate | injection H as <-; reflexivity].

Lemma benign_get o k d : benign (Py.get o k d).
Proof. unfold Py.get. benign_primitive. Qed.

Lemma benign_getitem o k : benign (Py.getitem o k).
Proof. unfold Py.getitem. benign_primitive. Qed.

Lemma benign_contains k o : benign (Py.contains k o).
Proof. unfold Py.contains. benign_primitive. Qed.

Lemma benign_iterate j : benign (iterate j).
Proof. unfold iterate. benign_primitive. Qed.

Lemma benign_clean v : benign (MultiTenantQB.clean v).
Proof. unfold MultiTenantQB.clean. benign_primitive. Qed.

Lemma benign_after_first j : benign (MultiTenantQB.after_first j).
Proof.
  unfold MultiTenantQB.after_first. destruct j; benign_primitive.
Qed.

#[local] Hint Resolve benign_ok benign_get benign_getitem benign_contains
  benign_iterate benign_clean benign_after_first : benign.

Ltac benign_steps :=
  repeat first
    [ solve [auto with benign]
    | apply benign_rbind; [|intros ?]
    | apply benign_if
    | match goal with
      | |- benign (match ?x with _ => _ end) => destruct x
      end ].

Lemma benign_rmap {A B} (f : A -> res B) l :
  (forall x, benign (f x)) -> benign (rmap f l).
Proof.
  intros Hf. induction l as [|x l IH]; cbn [rmap]; benign_steps.
Qed.

Lemma benign_money_cell v : benign (MultiTenantQB.money_cell v).
Proof. unfold MultiTenantQB.money_cell. benign_steps. Qed.

#[local] Hint Resolve benign_money_cell : benign.

Lemma benign_format_ar_report report :
  benign (MultiTenantQB.format_ar_report report).
Proof.
  assert (Hcol : forall c, benign (MultiTenantQB.money_column c))
    by (intros c; unfold MultiTenantQB.money_column; benign_steps).
  assert (Htot : forall c, benign (MultiTenantQB.total_column c))
    by (intros c; unfold MultiTenantQB.total_column; benign_steps).
  assert (Hrow : forall r, benign (MultiTenantQB.format_row r)).
  { intros r. unfold MultiTenantQB.format_row, MultiTenantQB.format_columns.
    benign_steps. apply benign_rmap. exact Hcol. }
  assert (Hrows : forall l, benign (MultiTenantQB.format_rows l)).
  { induction l as [|r l IH]; cbn [MultiTenantQB.format_rows]; benign_steps. }
  assert (Htotals : forall l, benign (MultiTenantQB.totals l)).
  { induction l as [|r l IH]; cbn [MultiTenantQB.totals]; benign_steps.
    unfold get2. benign_steps. apply benign_rmap. exact Htot. }
  unfold MultiTenantQB.format_ar_report. benign_steps.
Qed.

Section TenantPool.

Context (env : Env).

(** The client's [get_ar_aging] returns in every case: what went wrong is
    handed back as a payload with the key [error]. *)
Lemma client_get_ar_aging_returns as_of_date s :
  exists j, fst (QuickBooksClient.get_ar_aging env as_of_date s) = Ok j.
Proof.
  unfold QuickBooksClient.get_ar_aging, try_except.
  destruct (_make_request _ _ _ _ _ s) as [[j|e] s'];
    cbn [any_exception]; eexists; reflexivity.
Qed.

Lemma report_company_auth_errors company acc ps :
  exists acc' ps',
    MultiTenantQB.report_company env company acc ps = (Ok acc', ps')
    /\ auth_errors acc' = auth_errors acc.
Proof.
  unfold MultiTenantQB.report_company, bind at 1, get_state.
  destruct (MultiTenantQB.get_client (pool ps) company) as [client|];
    [|eexists; eexists; split; reflexivity].
  unfold try_except, bind at 1, MultiTenantQB.call_client.
  destruct (client_get_ar_aging_returns None
              {| self := client; world := outside ps |}) as [j Hj].
  destruct (QuickBooksClient.get_ar_aging env None _) as [r s'].
  cbn [fst] in Hj. subst r.
  unfold bind, lift, ret.
  destruct (MultiTenantQB.format_ar_report j) as [t|e] eqn:F.
  - eexists; eexists; split; reflexivity.
  - rewrite (benign_format_ar_report j e F). cbn [any_exception].
    eexists; eexists; split; reflexivity.
Qed.

Lemma report_companies_auth_errors l : forall acc ps,
  exists acc' ps',
    MultiTenantQB.report_companies env l acc ps = (Ok acc', ps')
    /\ auth_errors acc' = auth_errors acc.
Proof.
  induction l as [|c l IH]; intros acc ps; cbn [MultiTenantQB.report_companies].
  - eexists; eexists; split; reflexivity.
  - destruct (report_company_auth_errors c acc ps) as (a1 & p1 & H1 & E1).
    destruct (IH a1 p1) as (a2 & p2 & H2 & E2).
    unfold bind. rewrite H1, H2. eexists; eexists; split; [reflexivity|congruence].
Qed.

(** Whatever the tenants answer, the aggregate report comes back with an
    empty [auth_errors]: the handler for [QuickBooksAuthError] is never
    reached, because the client has already turned the error into a
    payload. *)
Lemma aggregate_report_never_records_auth_errors companies_arg ps :
  exists result ps',
    MultiTenantQB.get_ar_aging env companies_arg ps = (Ok result, ps')
    /\ auth_errors result = [].
Proof.
  unfold MultiTenantQB.get_ar_aging, bind at 1, get_state.
  apply report_companies_auth_errors.
Qed.

End TenantPool.

(** C2 at a failing input. Of the tenants DJANGO and CMR the service
    rejects CMR twice, so that its request ends in [QuickBooksAuthError].
    The aggregate report lists CMR among the reports, with an empty table,
    and [auth_errors] stays empty; DJANGO's report is the one of the
    example. *)
Theorem auth_failure_is_reported_as_empty_table :
  map fst (clients (pool Run.pool_state)) = Run.tenants
  /\ (exists s, MultiTenantQB.get_client (pool Run.pool_state) "CMR" = Some s
                /\ fst (_make_request Run.env_two_tenants
                          "reports/AgedReceivables" "GET" None None
                          {| self := s; world := outside Run.pool_state |})
                   = Raise (QuickBooksAuthError
                              "Authentication failed even after token refresh"))
  /\ fst (MultiTenantQB.get_ar_aging Run.env_two_tenants None Run.pool_state)
     = Ok {| reports := [ ("DJANGO", Aging.table Aging.example); ("CMR", []) ];
             auth_errors := [] |}.
Proof.
  split; [vm_compute; reflexivity|].
  split; [eexists; split; vm_compute; reflexivity|].
  vm_compute. reflexivity.
Qed.

(** A tenant whose first token refresh fails does not end up in
    [auth_errors] either: the constructor of the pool catches only
    [ValueError], so the [QuickBooksAuthError] of that tenant ends the
    construction of the whole pool. *)
Lemma pool_construction_stops_at_auth_failure :
  exists m w,
    MultiTenantQB.__init__ Run.env_expired (Some Run.tenants) Fixture.fresh
    = (Raise (QuickBooksAuthError m), w)
    /\ trace w = [TokenRefresh "id" "secret" "refresh-DJANGO"].
Proof. eexists. eexists. split; vm_compute; reflexivity. Qed.

(** ** The report formatter *)

Section ReportFormatter.

Import Aging.















End ReportFormatter.



(** ** Normalization of transactions *)

Lemma lookup_set {V} k k' (v : V) d :
  Py.lookup k (Py.set k' v d) = if String.eqb k k' then Some v else Py.lookup k d.
Proof.
  induction d as [|[k0 v0] d IH]; cbn [Py.set Py.lookup].
  - reflexivity.
  - destruct (String.eqb_spec k' k0) as [->|N]; cbn [Py.lookup].
    + destruct (String.eqb k k0); reflexivity.
    + rewrite IH. destruct (String.eqb_spec k k0) as [->|N'].
      * apply not_eq_sym in N. apply String.eqb_neq in N. rewrite N. reflexivity.
      * reflexivity.
Qed.











Section Normalization.

Context (env : Env).



End Normalization.



(** ** Retrieval of transactions *)

Section Retrieval.

Context (env : Env).



End Retrieval.


(** * Further properties *)

(** ** Texts *)

Lemma contains_here x : forall b, Str.contains x (x ++ b) = true.
Proof.
  intros b. apply contains_iff. exists "", b. reflexivity.
Qed.

Lemma contains_skip x a : forall b,
  Str.contains x b = true -> Str.contains x (a ++ b) = true.
Proof.
  induction a as [|c a IH]; intros b H; cbn [append]; [exact H|].
  cbn [Str.contains]. rewrite (IH b H). apply orb_true_r.
Qed.

Lemma append_assoc a : forall b c, (a ++ b) ++ c = a ++ b ++ c.
Proof.
  induction a as [|x a IH]; intros b c; cbn [append]; [reflexivity|].
  rewrite IH. reflexivity.
Qed.

Lemma contains_joined a x b :
  prefix x b = true -> Str.contains (a ++ x) (a ++ b) = true.
Proof.
  intros H. apply prefix_iff in H as [r ->].
  rewrite <- append_assoc. apply contains_here.
Qed.

Ltac find_text :=
  repeat first [ apply contains_here
               | apply contains_joined; reflexivity
               | apply contains_skip ].

(** ** Errors of the interpreter *)

Lemma plain_ok {A} (a : A) : plain (Ok a).
Proof. intros e H. discriminate. Qed.

Lemma plain_rbind {A B} (x : res A) (f : A -> res B) :
  plain x -> (forall a, plain (f a)) -> plain (rbind x f).
Proof.
  intros Hx Hf e. destruct x as [a|e']; cbn [rbind].
  - apply Hf.
  - intros H. apply (Hx e). congruence.
Qed.

Lemma plain_if {A} (b : bool) (x y : res A) :
  plain x -> plain y -> plain (if b then x else y).
Proof. destruct b; trivial. Qed.

Ltac plain_primitive :=
  let e := fresh in let H := fresh in
  intros e H;
  repeat match type of H with
         | context [match ?x with _ => _ end] => destruct x
         end;
  first [discriminate | injection H as <-; reflexivity].

Lemma plain_get o k d : plain (Py.get o k d).
Proof. unfold Py.get. plain_primitive. Qed.
Lemma plain_getitem o k : plain (Py.getitem o k).
Proof. unfold Py.getitem. plain_primitive. Qed.
Lemma plain_getitem0 o : plain (Py.getitem0 o).
Proof. unfold Py.getitem0. plain_primitive. Qed.
Lemma plain_contains k o : plain (Py.contains k o).
Proof. unfold Py.contains. plain_primitive. Qed.
Lemma plain_float j : plain (Py.float j).
Proof. unfold Py.float. plain_primitive. Qed.
Lemma plain_iterate j : plain (iterate j).
Proof. unfold iterate. plain_primitive. Qed.
Lemma plain_setitem o k v : plain (setitem o k v).
Proof. unfold setitem. plain_primitive. Qed.

Create HintDb plain.
#[local] Hint Resolve plain_ok plain_get plain_getitem plain_getitem0
  plain_contains plain_float plain_iterate plain_setitem : plain.

Ltac plain_steps :=
  repeat first
    [ solve [auto with plain]
    | apply plain_rbind; [|intros ?]
    | apply plain_if
    | match goal with
      | |- plain (match ?x with _ => _ end) => destruct x
      end ].

Lemma plain_has_entities kind r : plain (has_entities kind r).
Proof. unfold has_entities. plain_steps. Qed.
Lemma plain_entities kind r : plain (entities kind r).
Proof. unfold entities. plain_steps. Qed.
#[local] Hint Resolve plain_has_entities plain_entities : plain.

Lemma interpreter_error_classes e :
  interpreter_error e = true ->
  Exn.is_request_exception e = false /\ Exn.is_auth_error e = false.
Proof. destruct e; cbn; intros H; try discriminate; split; reflexivity. Qed.

(** ** Effects of the request executor *)

Ltac innermost x :=
  lazymatch x with
  | context [match ?y with _ => _ end] => innermost y
  | _ => destruct x eqn:?
  end.

Ltac split_all :=
  repeat (cbv beta iota zeta;
          match goal with
          | |- context [match ?x with _ => _ end] => innermost x
          end).

Section Executor.

Context (env : Env).

Lemma same_session_refl c : same_session c c.
Proof. repeat split. Qed.

Lemma query_direct_effect q s :
  let s' := snd (_query_direct env q s) in
  same_session (self s) (self s')
  /\ exists evs,
       trace (world s') = (trace (world s) ++ Sent (query_request (self s) q) :: evs)%list
       /\ Forall is_get evs.
Proof.
  cbv zeta.
  unfold _query_direct, bind, get_state, request, refresh_access_token,
    try_except, auth_client_refresh, raise_for_status, response_json, ret, raise,
    log_error, _handle_auth_error, bind, get_state, raise, any_exception.
  fold (query_request (self s) q).
  split_all; cbv beta iota zeta;
    cbn [fst snd self world trace logged record_event set_access_token
         company_prefix client_id client_secret refresh_token realm_id];
    (split; [repeat split|]);
    eexists; (split; [rewrite <- ?app_assoc; cbn [app]; reflexivity|]);
    repeat constructor.
Qed.
Lemma make_request_failed_raises e s :
  exists e', fst (_make_request_failed env e s) = Raise e'
             /\ (api_error e' \/ interpreter_error e' = true).
Proof.
  assert (Hapi : forall m, api_error (Exception_ ("QuickBooks API error: " ++ m))).
  { intros m. exists ("QuickBooks API error: " ++ m). split; reflexivity. }
  assert (Hreq : forall m, api_error (Exception_ ("QuickBooks API request failed: " ++ m))).
  { intros m. exists ("QuickBooks API request failed: " ++ m). split; reflexivity. }
  unfold _make_request_failed.
  destruct (Exn.response e) as [r|]; [|eexists; split; [reflexivity | left; apply Hreq]].
  destruct (body r) as [d|]; [|eexists; split; [reflexivity | left; apply Hapi]].
  unfold bind, lift, raise.
  destruct (Py.contains "Fault" d) as [[|]|e1] eqn:C.
  - set (msg := rbind (Py.getitem d "Fault") _).
    assert (Pm : plain msg) by (subst msg; plain_steps).
    destruct msg as [m|e2] eqn:Em.
    + set (det := rbind (Py.getitem d "Fault") _).
      assert (Pd : plain det) by (subst det; plain_steps).
      destruct det as [m'|e3] eqn:Ed.
      * eexists; split; [reflexivity | left; apply Hapi].
      * eexists; split; [reflexivity | right; apply Pd; reflexivity].
    + eexists; split; [reflexivity | right; apply Pm; reflexivity].
  - eexists; split; [reflexivity | left; apply Hreq].
  - eexists; split; [reflexivity | right; eapply plain_contains; exact C].
Qed.

(** X1. What [_make_request] raises is never a failure of the transport
    library as such: it is a [QuickBooksAuthError], a plain [Exception]
    whose text starts with QuickBooks API, or an error of the interpreter
    on a body of an unexpected shape. *)
Theorem make_request_error_classes endpoint verb args json_ s e :
  fst (_make_request env endpoint verb args json_ s) = Raise e ->
  Exn.is_request_exception e = false
  /\ (Exn.is_auth_error e = true \/ api_error e \/ interpreter_error e = true).
Proof.
  unfold _make_request, try_except.
  match goal with |- context [match ?m s with _ => _ end] =>
    set (attempt := m s) end.
  assert (Hbody : forall e0, fst attempt = Raise e0 ->
            Exn.is_auth_error e0 = true \/ Exn.is_request_exception e0 = true).
  { subst attempt.
    unfold bind, get_state, request, refresh_access_token,
      try_except, auth_client_refresh, raise_for_status, response_json, ret, raise,
      log_error, _handle_auth_error, bind, get_state, raise, any_exception.
    intros e0.
    repeat (cbv beta iota zeta;
            match goal with
            | |- context [match ?x with _ => _ end] =>
                let rec inner y :=
                  lazymatch y with
                  | context [match ?z with _ => _ end] => inner z
                  | _ => destruct y eqn:?
                  end in inner x
            end);
      cbv beta iota zeta; cbn [fst]; intros H;
      first [discriminate H | injection H as <-; cbn; tauto]. }
  destruct attempt as [[j|e0] s0]; cbn [fst] in *.
  - discriminate.
  - destruct (Hbody e0 eq_refl) as [Ha | Hr].
    + assert (Exn.is_request_exception e0 = false) by (destruct e0; cbn in *; congruence).
      rewrite H. cbn [fst]. intros E. injection E as <-. tauto.
    + rewrite Hr.
      destruct (make_request_failed_raises e0 s0) as (e' & He' & Hc).
      rewrite He'. intros E. injection E as <-.
      destruct Hc as [Hc | Hc].
      * split; [destruct Hc as (m & -> & _); reflexivity | tauto].
      * split; [apply interpreter_error_classes; exact Hc | tauto].
Qed.
(** X2. When the token endpoint refuses the refresh,
    [refresh_access_token] raises a [QuickBooksAuthError] that names the
    tenant and leaves the client as it was. For an invalid grant the text
    also gives the playground address, the variable of the tenant's refresh
    token, the client id and the client secret; for any other failure it is
    the fixed prefix followed by the text of the failure. *)
Theorem refresh_failure_names_tenant s msg :
  grant env (trace (world s)) (self s) = inr msg ->
  let c := self s in
  exists m,
    fst (refresh_access_token env s) = Raise (QuickBooksAuthError m)
    /\ self (snd (refresh_access_token env s)) = c
    /\ Str.contains (company_prefix c) m = true
    /\ (Str.contains "invalid_grant" (Str.lower msg) = true ->
        Str.contains PLAYGROUND_URL m = true
        /\ Str.contains (company_prefix c ++ "_QB_REFRESH_TOKEN") m = true
        /\ Str.contains (fmt (client_id c)) m = true
        /\ Str.contains (fmt (client_secret c)) m = true)
    /\ (Str.contains "invalid_grant" (Str.lower msg) = false ->
        m = "Failed to authenticate with QuickBooks for " ++ company_prefix c
            ++ ": " ++ msg).
Proof.
  intros H c. unfold grant in H.
  unfold refresh_access_token, try_except, auth_client_refresh.
  rewrite H. cbn [any_exception].
  unfold bind, log_error, _handle_auth_error, bind, get_state, raise.
  cbn [self world Exn.str fst snd]. fold c.
  destruct (Str.contains "invalid_grant" (Str.lower msg)); eexists;
    (split; [reflexivity|]); (split; [reflexivity|]).
  - split; [find_text|]. split; [|discriminate].
    intros _. repeat split; find_text.
  - split; [find_text|]. split; [discriminate | reflexivity].
Qed.

(** X3. A first response to [_query_direct] that is not a 401 ends
    the call after one request: an error status raises the HTTP error of
    the response unchanged, and any other status returns the decoded
    body. *)
Theorem query_direct_single_response q s resp :
  respond env (trace (world s)) (query_request (self s) q) = Responded resp ->
  (failed resp ->
   _query_direct env q s
   = (Raise (HTTPError (http_error resp) resp), sent (query_request (self s) q) s))
  /\ (forall j, succeeded resp -> body resp = Some j ->
        _query_direct env q s = (Ok j, sent (query_request (self s) q) s)).
Proof.
  intros H.
  unfold _query_direct, bind, get_state, request, raise_for_status,
    response_json, ret, raise.
  fold (query_request (self s) q). rewrite H.
  fold (sent (query_request (self s) q) s).
  split.
  - intros [[H1 H2] H3].
    apply Z.eqb_neq in H3. apply Z.leb_le in H1. apply Z.ltb_lt in H2.
    rewrite H3, H1, H2. reflexivity.
  - intros j Hs Hb.
    assert (H3 : (status_code resp =? 401) = false)
      by (apply Z.eqb_neq; destruct Hs; lia).
    assert (Hr : (400 <=? status_code resp) && (status_code resp <? 600) = false).
    { destruct Hs; [apply andb_false_intro1; apply Z.leb_gt; lia
                   | apply andb_false_intro2; apply Z.ltb_ge; lia]. }
    rewrite H3, Hr, Hb. reflexivity.
Qed.

Ltac trace_eq :=
  repeat match goal with x := _ : list Event |- _ => subst x end;
  rewrite <- ?app_assoc; reflexivity.

(** X4. On a 401 [_query_direct] refreshes the token once and sends
    the query again with the new token, and the client holds that token.
    A second 401 raises the fixed [QuickBooksAuthError], an error status
    raises the HTTP error of the second response, and otherwise the body of
    the second response is returned. *)
Theorem query_direct_unauthorized q s resp1 tok :
  let r1 := query_request (self s) q in
  let r2 := with_token r1 tok in
  let refreshed := (trace (world s) ++ [Sent r1; refresh_event (self s)])%list in
  respond env (trace (world s)) r1 = Responded resp1 ->
  status_code resp1 = 401 ->
  grant env (trace (world s) ++ [Sent r1]) (self s) = inl tok ->
  let out := _query_direct env q s in
  trace (world (snd out)) = (refreshed ++ [Sent r2])%list
  /\ self (snd out) = set_access_token (self s) tok
  /\ forall resp2,
       respond env refreshed r2 = Responded resp2 ->
       (status_code resp2 = 401 ->
        fst out = Raise (QuickBooksAuthError
                           "Authentication failed even after token refresh"))
       /\ (failed resp2 ->
           fst out = Raise (HTTPError (http_error resp2) resp2))
       /\ (forall j, succeeded resp2 -> body resp2 = Some j -> fst out = Ok j).
Proof.
  intros r1 r2 refreshed H1 H401 G out. subst out.
  unfold _query_direct, bind, get_state, request, refresh_access_token,
    try_except, auth_client_refresh, raise_for_status, response_json, ret, raise.
  fold (query_request (self s) q). fold r1.
  rewrite H1, H401. change (401 =? 401) with true. cbv beta iota.
  cbn [self world trace record_event].
  unfold grant in G. rewrite G. cbv beta iota.
  cbn [self world trace record_event set_access_token access_token realm_id].
  change (bearer (set_access_token (self s) tok)) with ("Bearer " ++ tok).
  change (Build_Request "GET" _ (Py.set _ _ _) None None) with r2.
  replace ((trace (world s) ++ [Sent r1]) ++ [TokenRefresh _ _ _])%list
    with refreshed by (subst refreshed; rewrite <- app_assoc; reflexivity).
  destruct (respond env refreshed r2) as [resp2|msg2] eqn:R2; cbv beta iota.
  - destruct (status_code resp2 =? 401) eqn:E; cbv beta iota.
    + cbn [fst snd self world trace record_event].
      split; [trace_eq | split; [reflexivity|]].
      intros resp2' Heq. injection Heq as <-. apply Z.eqb_eq in E.
      split; [reflexivity|]. split.
      * intros [_ N]. contradiction.
      * intros j [Hs|Hs]; lia.
    + apply Z.eqb_neq in E.
      destruct ((400 <=? status_code resp2) && (status_code resp2 <? 600)) eqn:B;
        cbv beta iota.
      * cbn [fst snd self world trace record_event].
        split; [trace_eq | split; [reflexivity|]].
        intros resp2' Heq. injection Heq as <-.
        split; [intros; contradiction|]. split; [reflexivity|].
        apply andb_true_iff in B as [B1 B2].
        apply Z.leb_le in B1. apply Z.ltb_lt in B2.
        intros j [Hs|Hs]; lia.
      * destruct (body resp2) as [j2|] eqn:Bd; cbv beta iota;
          cbn [fst snd self world trace record_event];
          (split; [trace_eq | split; [reflexivity|]]);
          intros resp2' Heq; injection Heq as <-;
          (split; [intros; contradiction|]);
          (split; [intros [[B1 B2] _]; apply Z.leb_le in B1; apply Z.ltb_lt in B2;
                   rewrite B1, B2 in B; discriminate|]);
          intros j _ Hj; congruence.
  - cbn [fst snd self world trace record_event].
    split; [trace_eq | split; [reflexivity|]].
    intros resp2' Heq. discriminate.
Qed.

End Executor.

(** ** Entity resolution *)

Section Resolver.
Context (env : Env).

Lemma lists_has kind r l : lists kind r l -> has_entities kind r = Ok true.
Proof. intros [H _]. exact H. Qed.

Lemma lists_entities kind r l : lists kind r l -> entities kind r = Ok (JList l).
Proof. intros [_ H]. exact H. Qed.

(** X5. [get_customer_id] never raises: it returns the id of the
    first customer the query lists, and [None] when the query fails, when
    the response has no customer entry, or when the list is empty. It
    leaves the state as the query left it. *)
Theorem get_customer_id_never_raises customer_name s :
  let query := _query_direct env (customer_query customer_name) s in
  let out := get_customer_id env customer_name s in
  snd out = snd query
  /\ (exists id, fst out = Ok id)
  /\ (forall e, fst query = Raise e -> fst out = Ok JNull)
  /\ (forall r, fst query = Ok r -> has_entities "Customer" r = Ok false ->
                fst out = Ok JNull)
  /\ (forall r, fst query = Ok r -> lists "Customer" r [] -> fst out = Ok JNull)
  /\ (forall r c rest id,
        fst query = Ok r -> lists "Customer" r (c :: rest) ->
        Py.getitem c "Id" = Ok id -> fst out = Ok id).
Proof.
  cbv zeta. unfold get_customer_id, try_except, customer_query, bind, lift, ret.
  destruct (_query_direct env _ s) as [[r|e] s1]; cbn [fst snd any_exception].
  - destruct (has_entities "Customer" r) as [[|]|e1] eqn:Hh;
      [destruct (entities "Customer" r) as [customers|e2] eqn:He;
       [destruct (Py.truthy customers) eqn:Ht;
        [destruct (rbind (Py.getitem0 customers) _) as [id|e3] eqn:Hid|]|]| |];
      cbn [fst snd any_exception];
      (split; [reflexivity|]); (split; [eexists; reflexivity|]);
      (split; [discriminate|]);
      (split; [intros r' E; injection E as <-; try reflexivity; congruence|]);
      (split;
       [ intros r' E [_ L]; injection E as <-; try reflexivity;
         rewrite L in He; injection He as <-; discriminate
       | intros r' c rest id' E [L1 L] Hc; injection E as <-;
         try congruence;
         rewrite L in He; injection He as <-;
         first [ discriminate
               | cbn [Py.getitem0 rbind] in Hid; congruence ] ]).
  - split; [reflexivity|].
    split; [eexists; reflexivity|].
    split; [reflexivity|]. repeat split; intros; discriminate.
Qed.

Ltac use_lists :=
  repeat match goal with
         | H : lists _ _ _ |- _ => destruct H as [? ?]
         end.

(** X6. When the query by the mapped name lists an item whose type
    is Service, Inventory or NonInventory first, [get_item_id] returns the
    id of that item after this one query. *)
Theorem get_item_id_exact_match item_name s r1 s1 item rest type id :
  _query_direct env (exact_item_query (_map_item_name item_name)) s = (Ok r1, s1) ->
  lists "Item" r1 (item :: rest) ->
  Py.get item "Type" JNull = Ok type -> billable type = true ->
  Py.getitem item "Id" = Ok id ->
  get_item_id env item_name s = (Ok id, s1).
Proof.
  intros H1 L Ht Hb Hid. use_lists.
  unfold exact_item_query in H1.
  unfold get_item_id, try_except, bind, lift, ret, raise.
  rewrite H1. cbv beta iota.
  repeat match goal with H : _ = Ok _ |- _ => rewrite H; cbv beta iota end.
  cbn [Py.truthy Py.getitem0]. rewrite Ht. cbv beta iota. rewrite Hb.
  cbn [negb]. rewrite Hid. reflexivity.
Qed.

(** X7. When the item found by name is not billable, [get_item_id]
    queries the billable items whose name contains the mapped name and
    returns the id of the first of them. *)
Theorem get_item_id_prefers_billable item_name s r1 s1 item rest type
    r2 s2 first others id :
  let mapped_name := _map_item_name item_name in
  _query_direct env (exact_item_query mapped_name) s = (Ok r1, s1) ->
  lists "Item" r1 (item :: rest) ->
  Py.get item "Type" JNull = Ok type -> billable type = false ->
  _query_direct env (similar_item_query mapped_name) s1 = (Ok r2, s2) ->
  lists "Item" r2 (first :: others) ->
  Py.getitem first "Id" = Ok id ->
  get_item_id env item_name s = (Ok id, s2).
Proof.
  intros mapped_name H1 L Ht Hb H2 L2 Hid. use_lists. subst mapped_name.
  unfold exact_item_query in H1. unfold similar_item_query in H2.
  unfold get_item_id, try_except, bind, lift, ret, raise.
  rewrite H1. cbv beta iota.
  repeat match goal with H : _ "Item" r1 = Ok _ |- _ => rewrite H; cbv beta iota end.
  cbn [Py.truthy Py.getitem0]. rewrite Ht. cbv beta iota. rewrite Hb.
  cbn [negb]. rewrite H2. cbv beta iota.
  repeat match goal with H : _ "Item" r2 = Ok _ |- _ => rewrite H; cbv beta iota end.
  cbn [Py.truthy Py.getitem0 rbind]. rewrite Hid. reflexivity.
Qed.

(** X8. Whatever [get_item_id] raises, the last record it logged
    is the error with the text of that exception. *)
Theorem get_item_id_logs_what_it_raises item_name s e s' :
  get_item_id env item_name s = (Raise e, s') ->
  exists records,
    logged (world s')
    = (records ++ [LogError ("Error getting item ID: " ++ Exn.str e)])%list.
Proof.
  unfold get_item_id, try_except.
  match goal with |- context [match ?m s with _ => _ end] =>
    destruct (m s) as [[v|e0] s0] end.
  - discriminate.
  - cbn [any_exception]. unfold bind, log_error, raise.
    intros H. injection H as <- <-. cbn [world logged]. eexists. reflexivity.
Qed.

End Resolver.

(** ** Failures of a request *)

Section Failures.
Context (env : Env).



End Failures.

(** ** The pool of tenants *)

Lemma same_session_trans a b c :
  same_session a b -> same_session b c -> same_session a c.
Proof.
  unfold same_session. intros (A1 & A2 & A3 & A4 & A5) (B1 & B2 & B3 & B4 & B5).
  repeat split; congruence.
Qed.

Lemma set_keys_present {V} k (v : V) d :
  In k (map fst d) -> map fst (Py.set k v d) = map fst d.
Proof.
  induction d as [|[k0 v0] d IH]; cbn [Py.set map fst In]; [tauto|].
  destruct (String.eqb_spec k k0) as [->|N]; [reflexivity|].
  intros [E|H]; [congruence|]. cbn [map fst]. rewrite IH by exact H. reflexivity.
Qed.

Lemma set_keys {V} k (v : V) d x :
  In x (map fst (Py.set k v d)) -> x = k \/ In x (map fst d).
Proof.
  induction d as [|[k0 v0] d IH]; cbn [Py.set map fst In].
  - intros [E|[]]. left. congruence.
  - destruct (String.eqb_spec k k0) as [->|N]; cbn [map fst In]; [tauto|].
    intros [E|H]; [tauto|]. destruct (IH H); tauto.
Qed.

Lemma lookup_some_in {V} k (v : V) d : Py.lookup k d = Some v -> In k (map fst d).
Proof.
  intros H. destruct (in_dec string_dec k (map fst d)) as [I|N]; [exact I|].
  apply lookup_in_keys in N. congruence.
Qed.

Section Pool.
Context (env : Env).

Lemma make_request_session endpoint verb args json_ s :
  same_session (self s)
    (self (snd (_make_request env endpoint verb args json_ s))).
Proof.
  unfold _make_request, try_except.
  match goal with |- context [match ?m s with _ => _ end] =>
    set (attempt := m s) end.
  assert (H : same_session (self s) (self (snd attempt))).
  { subst attempt.
    unfold bind, get_state, request, refresh_access_token,
      try_except, auth_client_refresh, raise_for_status, response_json, ret, raise,
      log_error, _handle_auth_error, bind, get_state, raise, any_exception.
    split_all; cbv beta iota zeta;
      cbn [fst snd self world trace logged record_event set_access_token
           company_prefix client_id client_secret refresh_token realm_id];
      repeat split. }
  destruct attempt as [[j|e] s0]; cbn [snd] in *; [exact H|].
  destruct (Exn.is_request_exception e); [|exact H].
  rewrite make_request_failed_state. exact H.
Qed.

Lemma client_get_ar_aging_session as_of_date s :
  same_session (self s)
    (self (snd (QuickBooksClient.get_ar_aging env as_of_date s))).
Proof.
  unfold QuickBooksClient.get_ar_aging, try_except.
  match goal with |- context [_make_request env ?a ?b ?c ?d s] =>
    pose proof (make_request_session a b c d s) as H;
    destruct (_make_request env a b c d s) as [[j|e] s'] end;
    cbn [snd any_exception] in *; exact H.
Qed.


Lemma report_company_invariants company acc ps :
  exists acc' ps',
    MultiTenantQB.report_company env company acc ps = (Ok acc', ps')
    /\ auth_errors acc' = auth_errors acc
    /\ (forall k, In k (map fst (reports acc')) ->
                  In k (map fst (reports acc)) \/ (k = company /\ known ps k))
    /\ map fst (clients (pool ps')) = map fst (clients (pool ps))
    /\ companies (pool ps') = companies (pool ps)
    /\ (forall k c', MultiTenantQB.get_client (pool ps') k = Some c' ->
          exists c, MultiTenantQB.get_client (pool ps) k = Some c
                    /\ same_session c c').
Proof.
  unfold MultiTenantQB.report_company, bind at 1, get_state.
  destruct (MultiTenantQB.get_client (pool ps) company) as [client|] eqn:G.
  2:{ exists acc, ps. repeat split; try reflexivity; [tauto|].
      intros k c' H. exists c'. split; [exact H | apply same_session_refl]. }
  assert (K : known ps company) by (eapply lookup_some_in; exact G).
  unfold try_except, bind at 1, MultiTenantQB.call_client.
  destruct (client_get_ar_aging_returns env None
              {| self := client; world := outside ps |}) as [j Hj].
  pose proof (client_get_ar_aging_session None
                {| self := client; world := outside ps |}) as Hs.
  destruct (QuickBooksClient.get_ar_aging env None _) as [r s'].
  cbn [fst snd self] in Hj, Hs. subst r.
  assert (Hc : forall k c',
            MultiTenantQB.get_client
              {| companies := companies (pool ps);
                 clients := Py.set company (self s') (clients (pool ps)) |} k
            = Some c' ->
            exists c, MultiTenantQB.get_client (pool ps) k = Some c
                      /\ same_session c c').
  { intros k c'. unfold MultiTenantQB.get_client. cbn [clients].
    rewrite lookup_set. destruct (String.eqb_spec k company) as [->|N].
    - intros E. injection E as <-. exists client. split; assumption.
    - intros E. exists c'. split; [exact E | apply same_session_refl]. }
  unfold bind, lift, ret.
  destruct (MultiTenantQB.format_ar_report j) as [t|e] eqn:F.
  - eexists; eexists; split; [reflexivity|]. cbn [reports auth_errors pool clients companies].
    split; [reflexivity|]. split.
    { intros k H. apply set_keys in H. destruct H as [->|H]; [right; split; [reflexivity | assumption] | tauto]. }
    split; [apply set_keys_present; exact K|]. split; [reflexivity | exact Hc].
  - rewrite (benign_format_ar_report j e F). cbn [any_exception].
    eexists; eexists; split; [reflexivity|]. cbn [reports auth_errors pool clients companies].
    split; [reflexivity|]. split; [tauto|].
    split; [apply set_keys_present; exact K|]. split; [reflexivity | exact Hc].
Qed.

Lemma report_companies_invariants l : forall acc ps,
  exists acc' ps',
    MultiTenantQB.report_companies env l acc ps = (Ok acc', ps')
    /\ auth_errors acc' = auth_errors acc
    /\ (forall k, In k (map fst (reports acc')) ->
                  In k (map fst (reports acc)) \/ (In k l /\ known ps k))
    /\ map fst (clients (pool ps')) = map fst (clients (pool ps))
    /\ companies (pool ps') = companies (pool ps)
    /\ (forall k c', MultiTenantQB.get_client (pool ps') k = Some c' ->
          exists c, MultiTenantQB.get_client (pool ps) k = Some c
                    /\ same_session c c').
Proof.
  induction l as [|company l IH]; intros acc ps; cbn [MultiTenantQB.report_companies].
  - exists acc, ps. split; [reflexivity|]. split; [reflexivity|].
    split; [tauto|]. split; [reflexivity|]. split; [reflexivity|].
    intros k c' H. exists c'. split; [exact H | apply same_session_refl].
  - destruct (report_company_invariants company acc ps)
      as (acc1 & ps1 & E1 & A1 & R1 & K1 & C1 & S1).
    destruct (IH acc1 ps1) as (acc2 & ps2 & E2 & A2 & R2 & K2 & C2 & S2).
    exists acc2, ps2. unfold bind. rewrite E1, E2.
    split; [reflexivity|]. split; [congruence|]. split.
    { intros k H. destruct (R2 k H) as [H1|[H1 H2]].
      - destruct (R1 k H1) as [H3|[-> H3]]; [tauto|]. right. split; [left; reflexivity | exact H3].
      - right. split; [right; exact H1|]. unfold known in *. rewrite <- K1. exact H2. }
    split; [congruence|]. split; [congruence|].
    intros k c' H. destruct (S2 k c' H) as (c1 & G1 & T1).
    destruct (S1 k c1 G1) as (c & G & T). exists c. split; [exact G|].
    eapply same_session_trans; eassumption.
Qed.


(** X10. [MultiTenantQB.get_ar_aging] always returns: no failure of a
    tenant reaches the caller. The dictionary of authentication errors it
    returns is empty, a report is returned only for requested tenants that
    have a client, and the pool keeps its tenants and clients: a client
    changes at most in its access token. *)
Theorem aggregate_report_invariants companies_arg ps :
  exists result ps',
    MultiTenantQB.get_ar_aging env companies_arg ps = (Ok result, ps')
    /\ auth_errors result = []
    /\ (forall company, In company (map fst (reports result)) ->
          In company (requested companies_arg ps) /\ known ps company)
    /\ map fst (clients (pool ps')) = map fst (clients (pool ps))
    /\ companies (pool ps') = companies (pool ps)
    /\ (forall company c',
          MultiTenantQB.get_client (pool ps') company = Some c' ->
          exists c, MultiTenantQB.get_client (pool ps) company = Some c
                    /\ same_session c c').
Proof.
  unfold MultiTenantQB.get_ar_aging, bind at 1, get_state.
  fold (requested companies_arg ps).
  destruct (report_companies_invariants (requested companies_arg ps)
              {| reports := []; auth_errors := [] |} ps)
    as (acc & ps' & E & A & R & K & C & S).
  exists acc, ps'. split; [exact E|]. split; [exact A|].
  split; [|tauto].
  intros company H. destruct (R company H) as [[]|H']. exact H'.
Qed.

(** X11. A tenant whose report request fails, for whatever reason, is
    returned with an empty table, and not among the authentication
    errors. *)
Theorem failing_tenant_gets_empty_table company client ps e :
  MultiTenantQB.get_client (pool ps) company = Some client ->
  fst (_make_request env "reports/AgedReceivables" "GET"
         (Some [("report_date", today env); ("aging_period", "30");
                ("num_periods", "4")]) None
         {| self := client; world := outside ps |}) = Raise e ->
  fst (MultiTenantQB.get_ar_aging env (Some [company]) ps)
  = Ok {| reports := [(company, [])]; auth_errors := [] |}.
Proof.
  intros G H.
  unfold MultiTenantQB.get_ar_aging, bind at 1, get_state.
  cbn [MultiTenantQB.report_companies].
  unfold bind at 1, MultiTenantQB.report_company, bind at 1, get_state.
  rewrite G. unfold try_except, bind at 1, MultiTenantQB.call_client.
  unfold QuickBooksClient.get_ar_aging, try_except.
  destruct (_make_request env _ _ _ _ _) as [[j|e'] s']; cbn [fst] in H;
    [discriminate|].
  cbn [any_exception]. unfold ret. reflexivity.
Qed.

End Pool.

Section PoolInit.
Context (env : Env).


Lemma client_init company w :
  (configured env company = false ->
   exists e, __init__ env company w = (Raise e, w) /\ Exn.is_value_error e = true)
  /\ (configured env company = true ->
      (exists tok w', __init__ env company w
                      = (Ok (set_access_token (resolved env company) tok), w'))
      \/ (exists m w', __init__ env company w = (Raise (QuickBooksAuthError m), w'))).
Proof.
  unfold configured, __init__. change (Build_Client _ _ _ _ _ _) with (resolved env company).
  split; intros ->; cbn [negb].
  - eexists. split; reflexivity.
  - set (s := {| self := resolved env company; world := w |}).
    destruct (grant env (trace (world s)) (self s)) as [tok|msg] eqn:G.
    + left. rewrite (refresh_ok env s tok G). eexists. eexists. reflexivity.
    + right. destruct (refresh_failed env s msg G) as [m ->].
      eexists. eexists. reflexivity.
Qed.

Lemma initialize_clients_result l : forall ps ps',
  for_each (MultiTenantQB.initialize_client env) l ps = (Ok tt, ps') ->
  companies (pool ps') = companies (pool ps)
  /\ (forall k c,
        MultiTenantQB.get_client (pool ps') k = Some c ->
        MultiTenantQB.get_client (pool ps) k = Some c
        \/ (In k l /\ configured env k = true
            /\ exists tok, c = set_access_token (resolved env k) tok))
  /\ (forall k,
        MultiTenantQB.get_client (pool ps) k <> None
        \/ (In k l /\ configured env k = true) ->
        MultiTenantQB.get_client (pool ps') k <> None).
Proof.
  induction l as [|company l IH]; intros ps ps'; cbn [for_each].
  - unfold ret. intros H. injection H as <-.
    split; [reflexivity|]. split; [tauto|]. intros k [H|[[] _]]. exact H.
  - unfold bind, MultiTenantQB.initialize_client.
    destruct (client_init company (outside ps)) as [Hf Ht].
    destruct (configured env company) eqn:C.
    + destruct (Ht eq_refl) as [(tok & w' & ->)|(m & w' & ->)];
        [|cbn [Exn.is_value_error]; discriminate].
      intros H. apply IH in H. cbn [pool companies clients] in H.
      destruct H as (H1 & H2 & H3). split; [exact H1|]. split.
      * intros k c G. destruct (H2 k c G) as [G'|(I & Ck & T)].
        -- unfold MultiTenantQB.get_client in G'. cbn [clients] in G'.
           rewrite lookup_set in G'.
           destruct (String.eqb_spec k company) as [->|N].
           ++ injection G' as <-. right. split; [left; reflexivity|].
              split; [exact C | exists tok; reflexivity].
           ++ left. exact G'.
        -- right. split; [right; exact I | tauto].
      * intros k Hk. apply H3.
        unfold MultiTenantQB.get_client. cbn [clients]. rewrite lookup_set.
        destruct (String.eqb_spec k company) as [->|N]; [left; discriminate|].
        destruct Hk as [Hk|[[E|I] Ck]]; [left; exact Hk | congruence | right; tauto].
    + destruct (Hf eq_refl) as (e & -> & ->).
      intros H. apply IH in H. cbn [pool companies clients] in H.
      destruct H as (H1 & H2 & H3). split; [exact H1|]. split.
      * intros k c G. destruct (H2 k c G) as [G'|(I & Ck & T)]; [tauto|].
        right. split; [right; exact I | tauto].
      * intros k Hk. apply H3.
        destruct Hk as [Hk|[[E|I] Ck]]; [left; exact Hk | congruence | right; tauto].
Qed.

(** X12. A pool that [MultiTenantQB(companies)] returns goes through the
    given companies, or through the four of [Companies.all] when none are
    given. It holds a client for exactly those of them whose four
    credentials are set, and that client carries the credentials of its
    company and an access token. *)
Theorem pool_holds_configured_tenants companies_arg w p w' :
  MultiTenantQB.__init__ env companies_arg w = (Ok p, w') ->
  companies p = match companies_arg with
                | Some (c :: l) => c :: l
                | _ => Companies.all
                end
  /\ (forall company,
        MultiTenantQB.get_client p company <> None
        <-> In company (companies p) /\ configured env company = true)
  /\ (forall company c,
        MultiTenantQB.get_client p company = Some c ->
        exists tok, c = set_access_token (resolved env company) tok).
Proof.
  unfold MultiTenantQB.__init__, MultiTenantQB._initialize_clients,
    bind at 1, get_state.
  cbn [pool companies].
  match goal with |- context [for_each _ ?l _] => set (l0 := l) end.
  match goal with |- context [for_each _ l0 ?ps] =>
    pose proof (initialize_clients_result l0 ps) as R;
    destruct (for_each (MultiTenantQB.initialize_client env) l0 ps)
      as [[[]|e] ps'] end; cbv beta iota; [|intros H; discriminate H].
  intros H. injection H as <- <-.
  destruct (R ps' eq_refl) as (H1 & H2 & H3). cbn [pool companies clients] in *.
  split; [exact H1|]. rewrite H1. split.
  - intros company. split.
    + destruct (MultiTenantQB.get_client (pool ps') company) as [c|] eqn:G;
        [|intros N; contradiction].
      intros _. destruct (H2 company c G) as [G'|(I & C & _)];
        [discriminate | tauto].
    + intros H. apply H3. right. exact H.
  - intros company c G. destruct (H2 company c G) as [G'|(_ & _ & T)];
      [discriminate | exact T].
Qed.

End PoolInit.

(** ** The shape of a report table *)



Ltac rbind_steps H :=
  repeat match type of H with
         | rbind _ _ = Ok _ =>
             let a := fresh "a" in let E := fresh "E" in
             apply rbind_ok in H as (a & E & H)
         end.

Lemma rmap_forall {A B} (f : A -> res B) (P : B -> Prop) :
  (forall x y, f x = Ok y -> P y) ->
  forall l l', rmap f l = Ok l' -> Forall P l' /\ List.length l' = List.length l.
Proof.
  intros Hf. induction l as [|x l IH]; intros l' H; cbn [rmap] in H.
  - injection H as <-. split; [constructor | reflexivity].
  - rbind_steps H. injection H as <-. destruct (IH _ E0) as [F L].
    split; [constructor; [eapply Hf; eassumption | exact F]|].
    cbn [List.length]. congruence.
Qed.

Lemma chars_length s :
  List.length (list_ascii_of_string s) = String.length s.
Proof. induction s as [|c s IH]; cbn; congruence. Qed.

Lemma money_cell_is_text v c : MultiTenantQB.money_cell v = Ok c -> is_text c.
Proof.
  unfold MultiTenantQB.money_cell. intros H. rbind_steps H.
  destruct v; try discriminate E.
  destruct (Float.of_string a); injection H as <-; eexists; reflexivity.
Qed.

Lemma money_column_is_text col c :
  MultiTenantQB.money_column col = Ok c -> is_text c.
Proof.
  unfold MultiTenantQB.money_column. intros H. rbind_steps H.
  eapply money_cell_is_text. exact H.
Qed.

Lemma total_column_is_text col c :
  MultiTenantQB.total_column col = Ok c -> is_text c.
Proof.
  unfold MultiTenantQB.total_column. intros H. rbind_steps H.
  eapply money_cell_is_text. exact H.
Qed.

Lemma format_row_shape row r :
  MultiTenantQB.format_row row = Ok (Some r) -> money_row r.
Proof.
  unfold MultiTenantQB.format_row. intros H. rbind_steps H.
  destruct (negb (Py.truthy a)); [discriminate|]. rbind_steps H.
  destruct (Py.eq_str a0 "Section"); [discriminate|]. rbind_steps H.
  injection H as <-. unfold MultiTenantQB.format_columns in E2.
  destruct a1 as [|first others]; [injection E2 as <-; constructor|].
  rbind_steps E2. injection E2 as <-. unfold money_row. cbn [tl].
  eapply rmap_forall; [exact money_column_is_text | eassumption].
Qed.

Lemma format_rows_shape rows : forall data,
  MultiTenantQB.format_rows rows = Ok data ->
  Forall money_row data /\ (List.length data <= List.length rows)%nat.
Proof.
  induction rows as [|row rows IH]; intros data H; cbn [MultiTenantQB.format_rows] in H.
  - injection H as <-. split; [constructor | reflexivity].
  - rbind_steps H. injection H as <-. destruct (IH _ E0) as [F L].
    destruct a as [r|]; cbn [List.length]; [|split; [exact F | lia]].
    split; [constructor; [eapply format_row_shape; exact E | exact F] | lia].
Qed.

Lemma totals_shape rows : forall total,
  MultiTenantQB.totals rows = Ok total ->
  total = [] \/ exists cells, total = [JStr "TOTAL" :: cells] /\ Forall is_text cells.
Proof.
  induction rows as [|row rows IH]; intros total H; cbn [MultiTenantQB.totals] in H.
  - injection H as <-. left. reflexivity.
  - rbind_steps H. destruct a0; [|apply IH; exact H].
    rbind_steps H. injection H as <-. right. eexists. split; [reflexivity|].
    eapply rmap_forall; [exact total_column_is_text | eassumption].
Qed.

(** X13. Whatever the report, a table that [format_ar_report] returns is
    empty or starts with the header row; the rows after it are at most one
    per row of the report, followed by at most one row that starts with
    TOTAL; and every cell after the first of a row is text. *)
Theorem format_ar_report_shape report t :
  MultiTenantQB.format_ar_report report = Ok t ->
  t = []
  \/ exists rows data total,
       rbind (Py.getitem report "Rows") (fun r => Py.get r "Row" (JList []))
       = Ok rows
       /\ t = (MultiTenantQB.headers :: data ++ total)%list
       /\ Forall money_row data
       /\ (forall n, len rows = Ok n -> Z.of_nat (List.length data) <= n)
       /\ (total = []
           \/ exists cells, total = [JStr "TOTAL" :: cells]
                            /\ Forall is_text cells).
Proof.
  unfold MultiTenantQB.format_ar_report. intros H. rbind_steps H.
  destruct a; [injection H as <-; left; reflexivity|].
  rbind_steps H. injection H as <-. right.
  exists a, a1, a2. split; [exact E0|]. split; [reflexivity|].
  destruct (format_rows_shape _ _ E2) as [F L].
  split; [exact F|]. split; [|eapply totals_shape; exact E3].
  intros n Hn. destruct a; cbn [iterate len] in E1, Hn; try discriminate;
    injection E1 as <-; injection Hn as <-;
    rewrite ?length_map, ?chars_length in L; lia.
Qed.

(** ** Normalized transactions *)



Lemma format_line_shape line item :
  format_line line = Ok (Some item) -> line_item item.
Proof.
  unfold format_line. intros H. rbind_steps H.
  destruct a; [|discriminate]. rbind_steps H. injection H as <-.
  eexists. split; reflexivity.
Qed.

Lemma format_lines_shape lines : forall items,
  format_lines lines = Ok items -> Forall line_item items.
Proof.
  induction lines as [|line lines IH]; intros items H; cbn [format_lines] in H.
  - injection H as <-. constructor.
  - rbind_steps H. injection H as <-.
    match goal with E : format_lines lines = Ok _ |- _ => apply IH in E end.
    destruct a as [i|]; [|assumption].
    constructor; [eapply format_line_shape; eassumption | assumption].
Qed.

(** X14. A transaction that [_format_transaction] returns has the fifteen
    common keys in their order, followed by the keys of its kind; its type
    is the kind it was queried as; its line items have the six keys of a
    line; and its account is the account of the first line item, or empty
    where there is none. *)
Theorem format_transaction_schema txn txn_type r :
  format_transaction_body txn txn_type = Ok r ->
  exists d items,
    r = JDict d
    /\ map fst d = (base_keys ++ kind_keys txn_type)%list
    /\ Py.getitem r "type" = Ok (JStr txn_type)
    /\ Py.getitem r "line_items" = Ok (JList items)
    /\ Forall line_item items
    /\ match items with
       | [] => Py.getitem r "account_id" = Ok (JStr "")
               /\ Py.getitem r "account_name" = Ok (JStr "")
       | first :: _ =>
           Py.getitem r "account_id" = Py.getitem first "account_id"
           /\ Py.getitem r "account_name" = Py.getitem first "account_name"
       end.
Proof.
  unfold format_transaction_body. intros H. rbind_steps H.
  injection H as <-.
  assert (L : Forall line_item a13).
  { destruct a12; [|match goal with E : Ok _ = Ok a13 |- _ =>
                      injection E as <-; constructor end].
    match goal with E : rbind _ _ = Ok a13 |- _ => rbind_steps E;
      eapply format_lines_shape; exact E end. }
  match goal with E : kind_fields _ _ = Ok _ |- _ =>
    unfold kind_fields in E; unfold kind_keys;
    destruct (String.eqb txn_type "Purchase");
    [|destruct (String.eqb txn_type "Bill");
      [|destruct (String.eqb txn_type "Expense");
        [|destruct (String.eqb txn_type "JournalEntry")]]];
    rbind_steps E; injection E as <- end;
    (eexists; exists a13; split; [reflexivity|]);
    (split; [reflexivity|]); (split; [reflexivity|]); (split; [reflexivity|]);
    (split; [exact L|]);
    (destruct a13 as [|first rest];
     [ match goal with E : Ok _ = Ok a14 |- _ => injection E as <- end;
       split; reflexivity
     | match goal with E : rbind _ _ = Ok a14 |- _ =>
         rbind_steps E; injection E as <- end;
       split; cbn [fst snd];
       match goal with E : Py.getitem first _ = Ok ?v |- _ = Py.getitem first _ =>
         rewrite E; reflexivity end ]).
Qed.

(** ** The transactions of a period *)

Section Transactions.
Context (env : Env).

Lemma quiet_refl f : quiet f f.
Proof. repeat split; trivial. Qed.

Lemma quiet_trans f g h : quiet f g -> quiet g h -> quiet f h.
Proof.
  intros (A1 & A2 & A3) (B1 & B2 & B3). repeat split; try congruence. tauto.
Qed.

Lemma silent_bind {A B} (m : M Frame A) (k : A -> M Frame B) :
  silent m -> (forall a, silent (k a)) -> silent (bind m k).
Proof.
  intros Hm Hk f. unfold bind. specialize (Hm f).
  destruct (m f) as [[a|e] f1]; cbn [snd] in *; [|exact Hm].
  eapply quiet_trans; [exact Hm | apply Hk].
Qed.

Lemma silent_try {A} (m : M Frame A) c (h : exn -> M Frame A) :
  silent m -> (forall e, silent (h e)) -> silent (try_except m c h).
Proof.
  intros Hm Hh f. unfold try_except. specialize (Hm f).
  destruct (m f) as [[a|e] f1]; cbn [snd] in *; [exact Hm|].
  destruct (c e); [|exact Hm].
  eapply quiet_trans; [exact Hm | apply Hh].
Qed.

Lemma silent_lift {A} (r : res A) : silent (lift r).
Proof. intros f. apply quiet_refl. Qed.

Lemma silent_ret {A} (a : A) : silent (ret a).
Proof. intros f. apply quiet_refl. Qed.

Lemma silent_raise {A} e : silent (@raise Frame A e).
Proof. intros f. apply quiet_refl. Qed.

Lemma silent_log_error msg : silent (in_frame (log_error msg)).
Proof. intros f. repeat split; trivial. Qed.

Lemma silent_log_warning msg : silent (in_frame (log_warning msg)).
Proof. intros f. repeat split; trivial. Qed.

Lemma silent_format txn txn_type :
  silent (in_frame (_format_transaction env txn txn_type)).
Proof.
  intros f. unfold in_frame, _format_transaction, try_except, lift.
  destruct (format_transaction_body txn txn_type); cbn [any_exception];
    repeat split; trivial.
Qed.

Lemma silent_for_each {A} (step : A -> M Frame unit) l :
  (forall x, silent (step x)) -> silent (for_each step l).
Proof.
  intros H. induction l as [|x l IH]; cbn [for_each].
  - apply silent_ret.
  - apply silent_bind; [apply H | intros _; exact IH].
Qed.

Lemma silent_add_transaction txn_type txn :
  silent (add_transaction env txn_type txn).
Proof.
  unfold add_transaction. apply silent_try.
  - intros f. unfold bind.
    pose proof (silent_format txn txn_type f) as Hf.
    destruct (in_frame (_format_transaction env txn txn_type) f) as [[t|e] f1];
      cbn [snd] in *; [|exact Hf].
    unfold append_all, lift.
    destruct Hf as (H1 & H2 & H3).
    destruct (has_matching_account t) as [[|]|e] eqn:M;
      unfold append_filtered, ret; cbn [snd];
      (split; [exact H1|]); (split; [exact H2|]);
      intros K; apply H3 in K; unfold filter_kept in *;
      cbn [all_transactions filtered_transactions];
      rewrite filter_app; cbn [filter]; unfold on_reimbursable_account at 2;
      rewrite M, K, ?app_nil_r; reflexivity.
  - intros e. apply silent_bind; [apply silent_lift|]. intros id.
    apply silent_bind; [apply silent_log_error|]. intros _.
    apply silent_log_error.
Qed.

Lemma query_kind_effect start_date end_date txn_type f :
  let f' := snd (query_kind env start_date end_date txn_type f) in
  reads_from (query_request (self (base f))
                (transactions_query start_date end_date txn_type))
    (base f) (base f')
  /\ (filter_kept f -> filter_kept f').
Proof.
  cbv zeta.
  destruct (query_kind env start_date end_date txn_type f) as [r f'] eqn:Hout.
  cbn [snd]. unfold query_kind in Hout.
  fold (transactions_query start_date end_date txn_type) in Hout.
  set (q := transactions_query start_date end_date txn_type) in *.
  assert (Hh : forall e,
    silent (in_frame (log_error ("Error querying " ++ txn_type ++ " transactions: "
                                 ++ Exn.str e)) ;;;
            in_frame (log_error "Full traceback:"))).
  { intros e. apply silent_bind; [apply silent_log_error|]. intros _.
    apply silent_log_error. }
  unfold try_except, bind at 1, in_frame at 1 in Hout.
  pose proof (query_direct_effect env q (base f)) as Hq. cbv zeta in Hq.
  destruct (_query_direct env q (base f)) as [[response|e] s1]; cbn [snd] in Hq.
  - match type of Hout with context [bind ?m ?k ?x] =>
      pose proof (silent_bind m k (silent_lift _)
                    ltac:(intros [|];
                          [ repeat (apply silent_bind; [apply silent_lift|]; intros ?);
                            apply silent_for_each; intros y; apply silent_add_transaction
                          | apply silent_log_warning ]) x) as Hs;
      destruct (bind m k x) as [[u|e] f1] end; cbn [snd base] in Hs.
    + injection Hout as _ <-.
      destruct Hs as (S1 & S2 & S3). cbn [base] in S1, S2.
      unfold reads_from. rewrite S1, S2.
      split; [exact Hq|]. intros K. apply S3. exact K.
    + cbn [any_exception] in Hout.
      pose proof (Hh e f1) as Hs'. rewrite Hout in Hs'. cbn [snd] in Hs'.
      destruct Hs as (S1 & S2 & S3). destruct Hs' as (T1 & T2 & T3).
      cbn [base] in S1, S2, T1, T2. unfold reads_from. rewrite T1, T2, S1, S2.
      split; [exact Hq|]. intros K. apply T3, S3. exact K.
  - cbn [any_exception] in Hout.
    match type of Hout with ?m ?x = _ => pose proof (Hh e x) as Hs' end.
    rewrite Hout in Hs'. cbn [snd] in Hs'.
    destruct Hs' as (T1 & T2 & T3). cbn [base] in T1, T2.
    unfold reads_from. rewrite T1, T2.
    split; [exact Hq|]. intros K. apply T3. exact K.
Qed.

Lemma query_kind_returns start_date end_date txn_type f :
  fst (query_kind env start_date end_date txn_type f) = Ok tt.
Proof.
  unfold query_kind, try_except.
  match goal with |- context [match ?m f with _ => _ end] =>
    destruct (m f) as [[[]|e] f1] end; [reflexivity|].
  reflexivity.
Qed.

Lemma insert_desc_perm key x l : forall l',
  insert_desc key x l = Ok l' -> Permutation (map snd l') (x :: map snd l).
Proof.
  induction l as [|[k y] l IH]; intros l' H; cbn [insert_desc] in H.
  - injection H as <-. apply Permutation_refl.
  - apply rbind_ok in H as (smaller & _ & H). destruct smaller.
    + apply rbind_ok in H as (rest & E & H). injection H as <-.
      cbn [map snd]. rewrite (IH _ E). apply perm_swap.
    + injection H as <-. apply Permutation_refl.
Qed.

Lemma sort_desc_perm l : forall l',
  sort_desc l = Ok l' -> Permutation (map snd l') (map snd l).
Proof.
  induction l as [|[k x] l IH]; intros l' H; cbn [sort_desc] in H.
  - injection H as <-. apply Permutation_refl.
  - apply rbind_ok in H as (sorted & E & H).
    rewrite (insert_desc_perm _ _ _ _ H). cbn [map snd].
    apply perm_skip. apply IH. exact E.
Qed.

Lemma keyed_values l : forall keyed,
  rmap (fun x => k <~ Py.getitem x "date" ;; Ok (k, x)) l = Ok keyed ->
  map snd keyed = l.
Proof.
  induction l as [|x l IH]; intros keyed H; cbn [rmap] in H.
  - injection H as <-. reflexivity.
  - apply rbind_ok in H as (y & E & H). apply rbind_ok in H as (ys & E' & H).
    injection H as <-. apply rbind_ok in E as (k & _ & E). injection E as <-.
    cbn [map snd]. rewrite (IH _ E'). reflexivity.
Qed.

Lemma sort_by_date_perm l sorted :
  sort_by_date l = Ok sorted -> Permutation sorted l.
Proof.
  unfold sort_by_date. intros H.
  apply rbind_ok in H as (keyed & E & H). apply rbind_ok in H as (s & E' & H).
  injection H as <-. rewrite (sort_desc_perm _ _ E'), (keyed_values _ _ E).
  apply Permutation_refl.
Qed.

Lemma dummy_is_not_reimbursable :
  on_reimbursable_account (dummy_transaction env) = false.
Proof. reflexivity. Qed.

(** The frame after the loop over the four kinds. *)
Lemma kinds_effect start_date end_date f :
  let q := transactions_query start_date end_date in
  exists f' c2 c3 c4 e1 e2 e3 e4,
    for_each (query_kind env start_date end_date) transaction_types f
    = (Ok tt, f')
    /\ trace (world (base f'))
       = (trace (world (base f))
          ++ Sent (query_request (self (base f)) (q "Purchase")) :: e1
          ++ Sent (query_request c2 (q "Bill")) :: e2
          ++ Sent (query_request c3 (q "Expense")) :: e3
          ++ Sent (query_request c4 (q "JournalEntry")) :: e4)%list
    /\ same_session (self (base f)) c2 /\ same_session (self (base f)) c3
    /\ same_session (self (base f)) c4
    /\ same_session (self (base f)) (self (base f'))
    /\ Forall is_get (e1 ++ e2 ++ e3 ++ e4)
    /\ (filter_kept f -> filter_kept f').
Proof.
  cbv zeta. unfold transaction_types. cbn [for_each]. unfold bind, ret.
  pose proof (query_kind_effect start_date end_date "Purchase" f) as H1.
  pose proof (query_kind_returns start_date end_date "Purchase" f) as R1.
  destruct (query_kind env start_date end_date "Purchase" f) as [r1 f1].
  cbn [fst snd] in H1, R1. subst r1.
  pose proof (query_kind_effect start_date end_date "Bill" f1) as H2.
  pose proof (query_kind_returns start_date end_date "Bill" f1) as R2.
  destruct (query_kind env start_date end_date "Bill" f1) as [r2 f2].
  cbn [fst snd] in H2, R2. subst r2.
  pose proof (query_kind_effect start_date end_date "Expense" f2) as H3.
  pose proof (query_kind_returns start_date end_date "Expense" f2) as R3.
  destruct (query_kind env start_date end_date "Expense" f2) as [r3 f3].
  cbn [fst snd] in H3, R3. subst r3.
  pose proof (query_kind_effect start_date end_date "JournalEntry" f3) as H4.
  pose proof (query_kind_returns start_date end_date "JournalEntry" f3) as R4.
  destruct (query_kind env start_date end_date "JournalEntry" f3) as [r4 f4].
  cbn [fst snd] in H4, R4. subst r4.
  destruct H1 as ((S1 & e1 & T1 & G1) & K1).
  destruct H2 as ((S2 & e2 & T2 & G2) & K2).
  destruct H3 as ((S3 & e3 & T3 & G3) & K3).
  destruct H4 as ((S4 & e4 & T4 & G4) & K4).
  exists f4, (self (base f1)), (self (base f2)), (self (base f3)), e1, e2, e3, e4.
  split; [reflexivity|]. split.
  { rewrite T4, T3, T2, T1. rewrite <- !app_assoc. cbn [app]. reflexivity. }
  assert (S12 := same_session_trans _ _ _ S1 S2).
  assert (S13 := same_session_trans _ _ _ S12 S3).
  assert (S14 := same_session_trans _ _ _ S13 S4).
  repeat (split; [assumption|]).
  split; [repeat (apply Forall_app; split); assumption | tauto].
Qed.


(** X16. [get_transactions] always returns a list, and never a mixture:
    either every transaction in it has a line item on the account 6300
    Reimbursable Expenses, or none has. *)
Theorem get_transactions_never_mixes start_date end_date s :
  exists l,
    fst (get_transactions env start_date end_date s) = Ok l
    /\ ((l <> [] /\ Forall (fun t => on_reimbursable_account t = true) l)
        \/ Forall (fun t => on_reimbursable_account t = false) l).
Proof.
  destruct (get_transactions env start_date end_date s) as [r s'] eqn:Hout.
  cbn [fst]. unfold get_transactions in Hout.
  set (from := if truthy start_date then _ else _) in *.
  set (to := if truthy end_date then _ else _) in *.
  destruct (kinds_effect from to
              {| base := s; all_transactions := []; filtered_transactions := [] |})
    as (f' & c2 & c3 & c4 & e1 & e2 & e3 & e4 & L & _ & _ & _ & _ & _ & _ & K).
  specialize (K eq_refl). unfold filter_kept in K.
  unfold try_except, get_transactions_body, bind at 1 in Hout. rewrite L in Hout.
  unfold bind, get_state, lift, set_filtered, in_frame, log_warning, ret,
    get_transactions_failed, bind, in_frame, log_error, log_warning, ret in Hout.
  destruct (sort_by_date (filtered_transactions f')) as [[|t sorted]|e] eqn:E;
    cbn [any_exception] in Hout; injection Hout as <- _;
    eexists; (split; [reflexivity|]).
  - right. apply sort_by_date_perm in E. apply Permutation_nil in E.
    rewrite E in K. apply Forall_forall. intros t I.
    destruct (on_reimbursable_account t) eqn:M; [|reflexivity].
    assert (H : In t (filter on_reimbursable_account (all_transactions f')))
      by (apply filter_In; split; assumption).
    rewrite <- K in H. destruct H.
  - left. split; [discriminate|]. apply sort_by_date_perm in E.
    apply Forall_forall. intros x I.
    apply (Permutation_in _ E) in I. rewrite K in I.
    apply filter_In in I. tauto.
  - right. constructor; [apply dummy_is_not_reimbursable | constructor].
Qed.

End Transactions.

(** ** Writing a categorization *)

Section Writes.
Context (env : Env).








End Writes.

(** ** The connection test *)

Section Connection.
Context (env : Env).

Lemma make_request_succeeds endpoint verb args json_ s resp j :
  respond env (trace (world s)) (first_request (self s) endpoint verb args json_)
  = Responded resp ->
  succeeded resp -> body resp = Some j ->
  _make_request env endpoint verb args json_ s
  = (Ok j, sent (first_request (self s) endpoint verb args json_) s).
Proof.
  intros H Hs Hb.
  unfold _make_request, try_except, bind, get_state, request.
  fold (first_request (self s) endpoint verb args json_).
  fold (sent (first_request (self s) endpoint verb args json_) s).
  rewrite H. cbv beta iota.
  assert (H3 : (status_code resp =? 401) = false)
    by (apply Z.eqb_neq; destruct Hs; lia).
  assert (Hr : (400 <=? status_code resp) && (status_code resp <? 600) = false).
  { destruct Hs; [apply andb_false_intro1; apply Z.leb_gt; lia
                 | apply andb_false_intro2; apply Z.ltb_ge; lia]. }
  rewrite H3. unfold raise_for_status, ret, response_json. cbv beta iota.
  rewrite Hr, Hb. reflexivity.
Qed.

(** X18. [test_connection] returns [True] or raises, and never returns
    [False]. What it raises it has logged. With a credential missing it
    makes no call at all, and when the token refresh fails it sends no
    request. With the credentials set, a fresh token and a company-info
    answer it returns [True]. *)
Theorem test_connection_outcomes s :
  let out := test_connection env s in
  (forall b, fst out = Ok b -> b = true)
  /\ (forall e, fst out = Raise e ->
        exists records,
          logged (world (snd out))
          = (records ++ [ LogError ("Connection test failed: " ++ Exn.str e);
                          LogError "Full traceback:" ])%list)
  /\ (credentials_set (self s) = false ->
      trace (world (snd out)) = trace (world s))
  /\ (forall msg,
        credentials_set (self s) = true ->
        grant env (trace (world s)) (self s) = inr msg ->
        trace (world (snd out))
        = (trace (world s) ++ [refresh_event (self s)])%list)
  /\ (forall tok resp d info,
        credentials_set (self s) = true ->
        grant env (trace (world s)) (self s) = inl tok ->
        respond env (trace (world s) ++ [refresh_event (self s)])
          (first_request (set_access_token (self s) tok)
             ("companyinfo/" ++ fmt (realm_id (self s))) "GET" None None)
        = Responded resp ->
        succeeded resp -> body resp = Some (JDict d) ->
        Py.lookup "CompanyInfo" d = Some (JDict info) ->
        fst out = Ok true).
Proof.
  cbv zeta.
  destruct (test_connection env s) as [r s'] eqn:Hout. cbn [fst snd].
  unfold test_connection, try_except in Hout.
  match type of Hout with context [match ?m s with _ => _ end] =>
    set (body := m) in * end.
  split; [|split].
  - intros b ->. destruct (body s) as [[b'|e] s1] eqn:Hb.
    + injection Hout as <- _. subst body.
      apply bind_ok in Hb as (s0 & s2 & _ & Hb).
      apply bind_ok in Hb as (u & s3 & _ & Hb).
      apply bind_ok in Hb as (u' & s4 & _ & Hb).
      apply bind_ok in Hb as (s5 & s6 & _ & Hb).
      apply bind_ok in Hb as (response & s7 & _ & Hb).
      apply bind_ok in Hb as (has_info & s8 & _ & Hb).
      destruct has_info.
      * apply bind_ok in Hb as (x & s9 & _ & Hb). injection Hb as <- _. reflexivity.
      * apply bind_ok in Hb as (x & s9 & _ & Hb). discriminate Hb.
    + cbn [any_exception] in Hout. unfold bind, log_error, raise in Hout.
      discriminate Hout.
  - intros e ->. destruct (body s) as [[b'|e'] s1] eqn:Hb; [discriminate Hout|].
    cbn [any_exception] in Hout. unfold bind, log_error, raise in Hout.
    injection Hout as <- <-. cbn [world logged].
    eexists. rewrite <- app_assoc. reflexivity.
  - split; [|split].
    + intros C. subst body. unfold bind at 1, get_state at 1 in Hout.
      unfold bind at 1 in Hout. cbn [self] in Hout. rewrite C in Hout.
      cbn [negb] in Hout. unfold raise at 1 in Hout. cbn [any_exception] in Hout.
      unfold bind, log_error, raise in Hout. injection Hout as _ <-. reflexivity.
    + intros msg C G. subst body. unfold bind at 1, get_state at 1 in Hout.
      unfold bind at 1 in Hout. cbn [self] in Hout. rewrite C in Hout.
      cbn [negb] in Hout. unfold ret at 1 in Hout.
      unfold bind at 1 in Hout.
      destruct (refresh_failed env s msg G) as [m R]. rewrite R in Hout.
      cbn [any_exception] in Hout.
      unfold bind, log_error, raise in Hout. injection Hout as _ <-. reflexivity.
    + intros tok resp d info C G R Hs Hb Hi. subst body.
      unfold bind at 1, get_state at 1 in Hout.
      unfold bind at 1 in Hout. cbn [self] in Hout. rewrite C in Hout.
      cbn [negb] in Hout. unfold ret at 1 in Hout.
      unfold bind at 1 in Hout. rewrite (refresh_ok env s tok G) in Hout.
      unfold bind at 1, get_state at 1 in Hout. cbn [self] in Hout.
      unfold bind at 1 in Hout.
      change (realm_id (set_access_token (self s) tok)) with (realm_id (self s))
        in Hout.
      rewrite (make_request_succeeds _ _ _ _ _ resp (JDict d)) in Hout;
        [| exact R | exact Hs | exact Hb].
      unfold bind, lift, ret in Hout. cbn [Py.contains Py.getitem] in Hout.
      unfold Py.has_key in Hout. rewrite Hi in Hout. cbn [rbind Py.get] in Hout.
      injection Hout as <- _. reflexivity.
Qed.

End Connection.

(** ** Reads and writes of the invoice path *)

Section Calls.
Context (env : Env).

Lemma within_nothing {A} P (m : M State A) :
  (forall s, snd (m s) = s) -> within P m.
Proof.
  intros H s. rewrite H. split; [apply same_session_refl|].
  exists []. rewrite app_nil_r. split; [reflexivity | constructor].
Qed.

Lemma within_lift {A} P (r : res A) : within P (lift r).
Proof. apply within_nothing. reflexivity. Qed.

Lemma within_ret {A} P (a : A) : within P (ret a).
Proof. apply within_nothing. reflexivity. Qed.

Lemma within_raise {A} P e : within P (@raise State A e).
Proof. apply within_nothing. reflexivity. Qed.

Lemma within_log_error P msg : within P (log_error msg).
Proof.
  intros s. split; [apply same_session_refl|].
  exists []. cbn. rewrite app_nil_r. split; [reflexivity | constructor].
Qed.

Lemma within_step {A} P (m : M State A) s r s1 s2 :
  within P m -> m s = (r, s1) ->
  (same_session (self s1) (self s2)
   /\ exists evs, trace (world s2) = (trace (world s1) ++ evs)%list
                  /\ Forall (P (realm_id (self s1))) evs) ->
  same_session (self s) (self s2)
  /\ exists evs, trace (world s2) = (trace (world s) ++ evs)%list
                 /\ Forall (P (realm_id (self s))) evs.
Proof.
  intros Hm E (S2 & e2 & T2 & G2). specialize (Hm s). rewrite E in Hm.
  cbn [snd] in Hm. destruct Hm as (S1 & e1 & T1 & G1).
  split; [eapply same_session_trans; eassumption|].
  exists (e1 ++ e2)%list. rewrite T2, T1, app_assoc. split; [reflexivity|].
  apply Forall_app. split; [exact G1|].
  destruct S1 as (_ & _ & _ & _ & R). rewrite R in G2. exact G2.
Qed.

Lemma within_bind {A B} P (m : M State A) (k : A -> M State B) :
  within P m -> (forall a, within P (k a)) -> within P (bind m k).
Proof.
  intros Hm Hk s. unfold bind. destruct (m s) as [[a|e] s1] eqn:E.
  - eapply within_step; [exact Hm | exact E | apply Hk].
  - pose proof (Hm s) as H. rewrite E in H. exact H.
Qed.

Lemma within_try {A} P (m : M State A) c (h : exn -> M State A) :
  within P m -> (forall e, within P (h e)) -> within P (try_except m c h).
Proof.
  intros Hm Hh s. unfold try_except. destruct (m s) as [[a|e] s1] eqn:E.
  - pose proof (Hm s) as H. rewrite E in H. exact H.
  - destruct (c e).
    + eapply within_step; [exact Hm | exact E | apply Hh].
    + pose proof (Hm s) as H. rewrite E in H. exact H.
Qed.

Lemma within_mapM {A B} P (f : A -> M State B) l :
  (forall x, within P (f x)) -> within P (mapM f l).
Proof.
  intros H. induction l as [|x l IH]; cbn [mapM].
  - apply within_ret.
  - apply within_bind; [apply H|]. intros y.
    apply within_bind; [exact IH|]. intros ys. apply within_ret.
Qed.

Lemma within_weaken {A} (P Q : option string -> Event -> Prop) (m : M State A) :
  (forall realm ev, P realm ev -> Q realm ev) -> within P m -> within Q m.
Proof.
  intros H Hm s. destruct (Hm s) as (S1 & evs & T & G).
  split; [exact S1|]. exists evs. split; [exact T|].
  eapply Forall_impl; [|exact G]. apply H.
Qed.

Lemma within_query q : within (fun _ => is_get) (_query_direct env q).
Proof.
  intros s. destruct (query_direct_effect env q s) as (S1 & evs & T & G).
  split; [exact S1|]. eexists. split; [exact T|].
  constructor; [reflexivity | exact G].
Qed.

Lemma within_make_request endpoint verb args json_ :
  within (call_to verb endpoint) (_make_request env endpoint verb args json_).
Proof.
  intros s. unfold _make_request, try_except.
  match goal with |- context [match ?m s with _ => _ end] =>
    set (attempt := m s) end.
  assert (H : same_session (self s) (self (snd attempt))
              /\ exists evs,
                   trace (world (snd attempt)) = (trace (world s) ++ evs)%list
                   /\ Forall (call_to verb endpoint (realm_id (self s))) evs).
  { subst attempt.
    unfold bind, get_state, request, refresh_access_token,
      try_except, auth_client_refresh, raise_for_status, response_json, ret, raise,
      log_error, _handle_auth_error, bind, get_state, raise, any_exception.
    split_all; cbv beta iota zeta;
      cbn [fst snd self world trace logged record_event set_access_token
           company_prefix client_id client_secret refresh_token realm_id];
      (split; [repeat split|]);
      eexists; (split; [rewrite <- ?app_assoc; cbn [app]; reflexivity|]);
      repeat constructor. }
  destruct attempt as [[j|e] s0]; cbn [snd] in *; [exact H|].
  destruct (Exn.is_request_exception e); [|exact H].
  rewrite make_request_failed_state. exact H.
Qed.

Ltac within_steps :=
  repeat first
    [ apply within_lift | apply within_ret | apply within_raise
    | apply within_log_error | apply within_query
    | apply within_bind; [|intros ?]
    | apply within_try; [|intros ?]
    | match goal with
      | |- within _ (if ?b then _ else _) => destruct b
      | |- within _ (match ?x with _ => _ end) => destruct x
      | |- within _ (let '(_, _) := ?x in _) => destruct x
      end ].

Lemma within_get_customer_id customer_name :
  within (fun _ => is_get) (get_customer_id env customer_name).
Proof. unfold get_customer_id. within_steps. Qed.

Lemma within_get_item_id item_name :
  within (fun _ => is_get) (get_item_id env item_name).
Proof. unfold get_item_id. within_steps. Qed.

(** X19. Looking up a customer or an item only reads: every call of
    [get_customer_id] and of [get_item_id] is a query, its retry or a token
    refresh, and the client changes at most in its access token. *)
Theorem resolution_only_reads name s :
  reads s (snd (get_customer_id env name s))
  /\ reads s (snd (get_item_id env name s)).
Proof.
  split; [apply (within_get_customer_id name s) | apply (within_get_item_id name s)].
Qed.

(** X20. The only writes of [create_invoice] are POST requests to the
    invoice endpoint of the client's company; every other call is a read. *)
Theorem create_invoice_writes_only_invoices items s :
  let s' := snd (create_invoice env items s) in
  same_session (self s) (self s')
  /\ exists evs,
       trace (world s') = (trace (world s) ++ evs)%list
       /\ Forall (read_or_invoice (realm_id (self s))) evs.
Proof.
  cbv zeta. revert s.
  change (within read_or_invoice (create_invoice env items)).
  assert (R : forall A (m : M State A),
            within (fun _ => is_get) m -> within read_or_invoice m).
  { intros A m. apply within_weaken. intros realm ev H. left. exact H. }
  assert (L : forall item, within read_or_invoice (invoice_line env item)).
  { intros item. unfold invoice_line.
    apply within_bind; [apply R, within_get_item_id|]. intros item_id.
    within_steps. }
  unfold create_invoice. destruct items as [|x items]; [apply within_raise|].
  apply within_bind; [|intros results; within_steps].
  apply within_mapM. intros [customer customer_items]. unfold invoice_for.
  apply within_bind; [apply R, within_get_customer_id|]. intros customer_id.
  destruct (negb (Py.truthy customer_id)); [apply within_raise|].
  apply within_bind; [apply within_mapM; exact L|]. intros invoice_lines.
  apply within_bind; [apply within_lift|]. intros first.
  apply within_bind.
  - eapply within_weaken; [|apply within_make_request].
    intros realm ev H. right. exact H.
  - intros response. within_steps.
Qed.

End Calls.

(** ** Items that are not found *)

Section NotFound.
Context (env : Env).

(** X21. When the query by name finds no item, [get_item_id] asks for the
    list of billable items: it returns [None] when the answer lists none,
    and otherwise raises an error that names the item and the available
    items with their types. *)
Theorem get_item_id_not_found item_name s r1 s1 r3 s3 :
  let mapped_name := _map_item_name item_name in
  _query_direct env (exact_item_query mapped_name) s = (Ok r1, s1) ->
  has_entities "Item" r1 = Ok false \/ lists "Item" r1 [] ->
  _query_direct env all_items_query s1 = (Ok r3, s3) ->
  (has_entities "Item" r3 = Ok false ->
   get_item_id env item_name s = (Ok JNull, s3))
  /\ (forall available names,
        lists "Item" r3 available ->
        rmap (fun item =>
                name <~ Py.getitem item "Name" ;;
                type <~ Py.get item "Type" (JStr "Unknown") ;;
                Ok (py_str env name ++ " (" ++ py_str env type ++ ")"))
             available = Ok names ->
        fst (get_item_id env item_name s)
        = Raise (Exception_
            ("Item '" ++ mapped_name ++ "' not found in QuickBooks. "
             ++ "Available items are: " ++ Str.join ", " names))).
Proof.
  intros mapped_name H1 N H3. subst mapped_name.
  unfold exact_item_query in H1. unfold all_items_query in H3.
  split.
  - intros F. unfold get_item_id, try_except, bind, lift, ret. rewrite H1.
    destruct N as [N|[N1 N2]]; [rewrite N | rewrite N1, N2; cbn [Py.truthy]];
      cbv beta iota; rewrite H3; cbv beta iota; rewrite F; reflexivity.
  - intros available names [L1 L2] R.
    unfold get_item_id, try_except, bind, lift, ret, raise. rewrite H1.
    destruct N as [N|[N1 N2]]; [rewrite N | rewrite N1, N2; cbn [Py.truthy]];
      cbv beta iota; rewrite H3; cbv beta iota; rewrite L1, L2;
      cbn [rbind iterate]; rewrite R; reflexivity.
Qed.

End NotFound.

(** ** Instances of the further properties *)

Lemma make_request_error_classes_witness :
  Exn.is_request_exception
    (QuickBooksAuthError "Authentication failed even after token refresh") = false
  /\ (Exn.is_auth_error
        (QuickBooksAuthError "Authentication failed even after token refresh") = true
      \/ Spec.api_error
           (QuickBooksAuthError "Authentication failed even after token refresh")
      \/ Spec.interpreter_error
           (QuickBooksAuthError "Authentication failed even after token refresh")
         = true).
Proof.
  apply (make_request_error_classes Run.env_unauthorized
           "reports/AgedReceivables" "GET" None None (Fixture.state "DJANGO")).
  vm_compute. reflexivity.
Defined.


Lemma refresh_failure_names_tenant_witness :
  exists m,
    fst (refresh_access_token Run.env_expired (Fixture.state "DJANGO"))
    = Raise (QuickBooksAuthError m)
    /\ Str.contains "DJANGO_QB_REFRESH_TOKEN" m = true.
Proof.
  destruct (refresh_failure_names_tenant Run.env_expired (Fixture.state "DJANGO")
              "invalid_grant" eq_refl) as (m & H1 & _ & _ & H2 & _).
  exists m. split; [exact H1|]. apply H2. reflexivity.
Defined.

Lemma query_direct_single_response_witness :
  fst (_query_direct Run.env_books (Spec.customer_query "Acme")
         (Fixture.state "DJANGO"))
  = Ok (Fixture.query_response "Customer" [JDict [("Id", JStr "7")]]).
Proof.
  destruct (query_direct_single_response Run.env_books
              (Spec.customer_query "Acme") (Fixture.state "DJANGO")
              _ eq_refl) as [_ H].
  rewrite (H _ (or_introl eq_refl) eq_refl). reflexivity.
Defined.

Lemma query_direct_unauthorized_witness :
  fst (_query_direct Run.env_retry_ok (Spec.customer_query "Acme")
         (Fixture.state "DJANGO")) = Ok Run.answer.
Proof.
  destruct (query_direct_unauthorized Run.env_retry_ok
              (Spec.customer_query "Acme") (Fixture.state "DJANGO") _ "fresh"
              eq_refl eq_refl eq_refl) as (_ & _ & H).
  destruct (H _ eq_refl) as (_ & _ & H').
  apply H'; [left; reflexivity | reflexivity].
Defined.

Lemma get_customer_id_never_raises_witness :
  fst (get_customer_id Run.env_books "Acme" (Fixture.state "DJANGO"))
  = Ok (JStr "7")
  /\ fst (get_customer_id Run.env_books "Nobody" (Fixture.state "DJANGO"))
     = Ok JNull.
Proof.
  split.
  - destruct (get_customer_id_never_raises Run.env_books "Acme"
                (Fixture.state "DJANGO")) as (_ & _ & _ & _ & _ & H).
    apply (H (Fixture.query_response "Customer" [JDict [("Id", JStr "7")]])
             (JDict [("Id", JStr "7")]) []);
      [reflexivity | split; reflexivity | reflexivity].
  - destruct (get_customer_id_never_raises Run.env_books "Nobody"
                (Fixture.state "DJANGO")) as (_ & _ & _ & H & _).
    apply (H (JDict [("QueryResponse", JDict [])])); reflexivity.
Defined.

Lemma get_item_id_exact_match_witness :
  fst (get_item_id Run.env_books "Management Fees" (Fixture.state "DJANGO"))
  = Ok (JStr "42").
Proof.
  destruct (_query_direct Run.env_books
              (Spec.exact_item_query (_map_item_name "Management Fees"))
              (Fixture.state "DJANGO")) as [r s1] eqn:E.
  assert (Hr : r = Ok (Fixture.query_response "Item"
                         [JDict [("Id", JStr "42"); ("Type", JStr "Service")]]))
    by (vm_compute in E; injection E as <- _; reflexivity).
  subst r.
  rewrite (get_item_id_exact_match Run.env_books "Management Fees"
             (Fixture.state "DJANGO") _ s1
             (JDict [("Id", JStr "42"); ("Type", JStr "Service")]) []
             (JStr "Service") (JStr "42") E);
    [reflexivity | split; reflexivity | reflexivity | reflexivity | reflexivity].
Defined.

Lemma get_item_id_prefers_billable_witness :
  fst (get_item_id Run.env_items "Repairs" (Fixture.state "DJANGO"))
  = Ok (JStr "43").
Proof.
  destruct (_query_direct Run.env_items
              (Spec.exact_item_query (_map_item_name "Repairs"))
              (Fixture.state "DJANGO")) as [r s1] eqn:E.
  assert (Hr : r = Ok (Fixture.query_response "Item"
                         [JDict [("Id", JStr "5"); ("Type", JStr "Category")]]))
    by (vm_compute in E; injection E as <- _; reflexivity).
  subst r.
  destruct (_query_direct Run.env_items
              (Spec.similar_item_query (_map_item_name "Repairs")) s1)
    as [r2 s2] eqn:E2.
  assert (Hr : r2 = Ok (Fixture.query_response "Item"
                          [JDict [("Id", JStr "43"); ("Name", JStr "Repairs Labor");
                                  ("Type", JStr "Service")]])).
  { vm_compute in E. injection E as <-. vm_compute in E2.
    injection E2 as <- _. reflexivity. }
  subst r2.
  rewrite (get_item_id_prefers_billable Run.env_items "Repairs"
             (Fixture.state "DJANGO") _ s1
             (JDict [("Id", JStr "5"); ("Type", JStr "Category")]) []
             (JStr "Category") _ s2
             (JDict [("Id", JStr "43"); ("Name", JStr "Repairs Labor");
                     ("Type", JStr "Service")]) []
             (JStr "43") E (conj eq_refl eq_refl) eq_refl eq_refl E2
             (conj eq_refl eq_refl) eq_refl).
  reflexivity.
Defined.

Lemma get_item_id_not_found_witness :
  fst (get_item_id Run.env_items "Gardening" (Fixture.state "DJANGO"))
  = Raise (Exception_
      ("Item 'Gardening' not found in QuickBooks. "
       ++ "Available items are: Sales (Service)")).
Proof.
  destruct (_query_direct Run.env_items
              (Spec.exact_item_query (_map_item_name "Gardening"))
              (Fixture.state "DJANGO")) as [r s1] eqn:E.
  assert (Hr : r = Ok (JDict [("QueryResponse", JDict [])]))
    by (vm_compute in E; injection E as <- _; reflexivity).
  subst r.
  destruct (_query_direct Run.env_items Spec.all_items_query s1)
    as [r3 s3] eqn:E3.
  assert (Hr : r3 = Ok (Fixture.query_response "Item"
                          [JDict [("Name", JStr "Sales"); ("Type", JStr "Service")]])).
  { vm_compute in E. injection E as <-. vm_compute in E3.
    injection E3 as <- _. reflexivity. }
  subst r3.
  destruct (get_item_id_not_found Run.env_items "Gardening"
              (Fixture.state "DJANGO") _ s1 _ s3 E (or_introl eq_refl) E3)
    as [_ H].
  apply (H [JDict [("Name", JStr "Sales"); ("Type", JStr "Service")]]
           ["Sales (Service)"]); [split; reflexivity | reflexivity].
Defined.

Lemma get_item_id_logs_what_it_raises_witness :
  exists e s' records,
    get_item_id Run.env_items "Gardening" (Fixture.state "DJANGO") = (Raise e, s')
    /\ logged (world s')
       = (records ++ [LogError ("Error getting item ID: " ++ Exn.str e)])%list.
Proof.
  destruct (get_item_id Run.env_items "Gardening" (Fixture.state "DJANGO"))
    as [[j|e] s'] eqn:E; [vm_compute in E; discriminate E|].
  destruct (get_item_id_logs_what_it_raises Run.env_items "Gardening"
              (Fixture.state "DJANGO") e s' E) as [records H].
  exists e, s', records. split; [reflexivity | exact H].
Defined.

Lemma test_connection_outcomes_witness :
  fst (test_connection Run.env_company (Fixture.state "DJANGO")) = Ok true.
Proof.
  destruct (test_connection_outcomes Run.env_company (Fixture.state "DJANGO"))
    as (_ & _ & _ & _ & H).
  apply (H "fresh"
           {| status_code := 200; text := "<json>";
              body := Some (JDict [("CompanyInfo",
                                    JDict [("CompanyName", JStr "Django LLC")])]);
              http_error := "" |}
           [("CompanyInfo", JDict [("CompanyName", JStr "Django LLC")])]
           [("CompanyName", JStr "Django LLC")]);
    [reflexivity | reflexivity | reflexivity | left; reflexivity
    | reflexivity | reflexivity].
Defined.


Lemma format_transaction_schema_witness :
  exists r d,
    format_transaction_body (JDict Run.well_formed) "Purchase" = Ok r
    /\ r = JDict d
    /\ map fst d = (Spec.base_keys ++ Spec.kind_keys "Purchase")%list.
Proof.
  destruct (format_transaction_body (JDict Run.well_formed) "Purchase")
    as [r|e] eqn:E; [|vm_compute in E; discriminate E].
  destruct (format_transaction_schema _ _ _ E) as (d & items & H1 & H2 & _).
  exists r, d. split; [reflexivity | split; assumption].
Defined.

Lemma pool_holds_configured_tenants_witness :
  companies (pool Run.pool_state) = Run.tenants
  /\ MultiTenantQB.get_client (pool Run.pool_state) "CMR" <> None.
Proof.
  destruct (pool_holds_configured_tenants Run.env_two_tenants (Some Run.tenants)
              Fixture.fresh (pool Run.pool_state) (outside Run.pool_state))
    as (H1 & H2 & _); [vm_compute; reflexivity|].
  split; [exact H1|]. apply H2. rewrite H1.
  split; [right; left; reflexivity | reflexivity].
Defined.

Lemma failing_tenant_gets_empty_table_witness :
  fst (MultiTenantQB.get_ar_aging Run.env_two_tenants (Some ["CMR"])
         Run.pool_state)
  = Ok {| reports := [("CMR", [])]; auth_errors := [] |}.
Proof.
  apply (failing_tenant_gets_empty_table Run.env_two_tenants "CMR"
           (set_access_token (Spec.resolved Run.env_two_tenants "CMR") "fresh")
           Run.pool_state
           (QuickBooksAuthError "Authentication failed even after token refresh"));
    vm_compute; reflexivity.
Defined.

Lemma format_ar_report_shape_witness :
  exists data total,
    Aging.table Aging.example = (MultiTenantQB.headers :: data ++ total)%list
    /\ Forall Spec.money_row data.
Proof.
  destruct (format_ar_report_shape (Aging.encode Aging.example)
              (Aging.table Aging.example))
    as [H | (rows & data & total & _ & H1 & H2 & _)];
    [vm_compute; reflexivity | discriminate H|].
  exists data, total. split; assumption.
Defined.
